(** * git-reviewers: the diff / blame / ranking pipeline of [reviewers.py]

    A shallow embedding of [reviewers.py], of the script [__main__.py]
    that runs it and of the pieces of [python_lib/shell.py] it prints with,
    followed by the properties of the specification that concern them and
    by further properties of the code.

    Conventions of the embedding.
    - The program is read as Python 3.
    - A Python [str] is a [string]; a character is an 8-bit code point, so
      the text handled is the Latin-1 part of Unicode.
    - A Python exception is an [exn] carried by [result]; every function
      that can raise returns a [result].
    - A [dict] whose iteration order is observable (the reviewers of a file,
      the running totals) is an association list in insertion order with
      unique keys.
    - The [git] subprocess is the section variable [check_output]. *)

From Stdlib Require Import List String Ascii ZArith Lia Bool Arith.
From Stdlib Require Import Sorting.Sorted Sorting.Permutation.
Import ListNotations.
Open Scope list_scope.
Open Scope string_scope.

Set Implicit Arguments.

(* ================================================================== *)
(** * Exceptions *)

Inductive exn : Type :=
| ValueError
| IndexError
| KeyError
| CalledProcessError
| InvalidOperation
| DivisionByZero.

Inductive result (A : Type) : Type :=
| Ok (a : A)
| Raise (e : exn).

Arguments Ok {A} a.
Arguments Raise {A} e.

Definition bind {A B : Type} (r : result A) (k : A -> result B) : result B :=
  match r with
  | Ok a => k a
  | Raise e => Raise e
  end.

Notation "x <- r ;; k" := (bind r (fun x => k))
  (at level 61, r at next level, right associativity).

(** A [for] loop whose body can raise, threading the loop state. *)
Fixpoint for_each {A S : Type} (body : S -> A -> result S) (xs : list A) (s : S)
  : result S :=
  match xs with
  | [] => Ok s
  | x :: xs' => s' <- body s x ;; for_each body xs' s'
  end.

(* ================================================================== *)
(** * Python string primitives *)

Module Py.

Definition chr (n : nat) : ascii := ascii_of_nat n.

Definition SP : ascii := " "%char.
Definition TAB : ascii := chr 9.
Definition LF : ascii := chr 10.

(** [str.isspace] on one character of the Latin-1 range. *)
Definition isspace (c : ascii) : bool :=
  let n := nat_of_ascii c in
  (((9 <=? n) && (n <=? 13)) || ((28 <=? n) && (n <=? 32))
   || (n =? 133) || (n =? 160))%nat.

Fixpoint lstrip (s : string) : string :=
  match s with
  | "" => ""
  | String c s' => if isspace c then lstrip s' else s
  end.

Fixpoint rstrip (s : string) : string :=
  match s with
  | "" => ""
  | String c s' =>
      match rstrip s' with
      | "" => if isspace c then "" else String c ""
      | r => String c r
      end
  end.

Definition strip (s : string) : string := lstrip (rstrip s).

(** [s[1:]] *)
Definition tail (s : string) : string :=
  match s with
  | "" => ""
  | String _ s' => s'
  end.

(** [s[0]] *)
Definition first (s : string) : result string :=
  match s with
  | "" => Raise IndexError
  | String c _ => Ok (String c "")
  end.

(** [xs[i]] for a non-negative literal index. *)
Definition item {A : Type} (xs : list A) (i : nat) : result A :=
  match nth_error xs i with
  | Some x => Ok x
  | None => Raise IndexError
  end.

(** [sub in s] *)
Fixpoint contains (sub s : string) : bool :=
  prefix sub s ||
  match s with
  | "" => false
  | String _ s' => contains sub s'
  end.

(** [s.split(sep)] for a non-empty separator: a left to right scan for
    non-overlapping occurrences.  [split_go sep skip s] returns the piece
    that starts [skip] characters into [s] and the pieces after it. *)
Fixpoint split_go (sep : string) (skip : nat) (s : string)
  : string * list string :=
  match s with
  | "" => ("", [])
  | String c s' =>
      match skip with
      | S k => split_go sep k s'
      | O =>
          if prefix sep s
          then let (cur, rest) := split_go sep (String.length sep - 1) s' in
               ("", cur :: rest)
          else let (cur, rest) := split_go sep 0 s' in
               (String c cur, rest)
      end
  end.

Definition split (sep s : string) : list string :=
  let (cur, rest) := split_go sep 0 s in cur :: rest.

(** [s.split(c, 1)] for a one-character separator: [None] stands for the
    one-element list returned when [c] does not occur. *)
Fixpoint split_once (c : ascii) (s : string) : option (string * string) :=
  match s with
  | "" => None
  | String a s' =>
      if Ascii.eqb a c then Some ("", s')
      else match split_once c s' with
           | Some (l, r) => Some (String a l, r)
           | None => None
           end
  end.

(** The third component of [s.rpartition(c)]: what follows the last [c],
    the whole of [s] when there is none. *)
Fixpoint rpartition_tail (c : ascii) (s : string) : string :=
  match s with
  | "" => ""
  | String a s' =>
      if contains (String c "") s' then rpartition_tail c s'
      else if Ascii.eqb a c then s' else s
  end.

(** [sep.join(xs)] *)
Fixpoint join (sep : string) (xs : list string) : string :=
  match xs with
  | [] => ""
  | [x] => x
  | x :: xs' => x ++ sep ++ join sep xs'
  end.

(** [c * n] *)
Fixpoint repeat_chr (c : ascii) (n : nat) : string :=
  match n with
  | O => ""
  | S k => String c (repeat_chr c k)
  end.

(** ["{s: >w}".format(s=s)]: right-aligned in a field of [w] spaces. *)
Definition rjust (w : nat) (s : string) : string :=
  repeat_chr SP (w - String.length s) ++ s.

(** For stating and proving: [c] occurs in [s]. *)
Fixpoint occurs (c : ascii) (s : string) : bool :=
  match s with
  | "" => false
  | String a s' => Ascii.eqb a c || occurs c s'
  end.

(** For proving: [s.split(c)] for a one-character separator, by direct
    recursion; [split_go_str1] relates it to [split]. *)
Fixpoint split1 (c : ascii) (s : string) : string * list string :=
  match s with
  | "" => ("", [])
  | String a s' =>
      let (cur, rest) := split1 c s' in
      if Ascii.eqb a c then ("", cur :: rest) else (String a cur, rest)
  end.

(** For stating and proving: every character of [s] satisfies [p]. *)
Fixpoint all_chars (p : ascii -> bool) (s : string) : bool :=
  match s with
  | "" => true
  | String a s' => p a && all_chars p s'
  end.

End Py.

(* ================================================================== *)
(** * Regular expressions, as far as [re.match] is used *)

Module Re.

Inductive re : Type :=
| Void
| Eps
| Class (p : ascii -> bool)
| Cat (r1 r2 : re)
| Alt (r1 r2 : re).

Fixpoint nullable (r : re) : bool :=
  match r with
  | Void => false
  | Eps => true
  | Class _ => false
  | Cat r1 r2 => nullable r1 && nullable r2
  | Alt r1 r2 => nullable r1 || nullable r2
  end.

(** Brzozowski derivative of [r] by the character [c]. *)
Fixpoint deriv (c : ascii) (r : re) : re :=
  match r with
  | Void => Void
  | Eps => Void
  | Class p => if p c then Eps else Void
  | Cat r1 r2 =>
      if nullable r1
      then Alt (Cat (deriv c r1) r2) (deriv c r2)
      else Cat (deriv c r1) r2
  | Alt r1 r2 => Alt (deriv c r1) (deriv c r2)
  end.

(** The whole of [s] is in the language of [r]. *)
Fixpoint fullmatch (r : re) (s : string) : bool :=
  match s with
  | "" => nullable r
  | String c s' => fullmatch (deriv c r) s'
  end.

(** [r{n}] *)
Fixpoint times (n : nat) (r : re) : re :=
  match n with
  | O => Eps
  | S k => Cat r (times k r)
  end.

(** [r{1,2}] *)
Definition once_or_twice (r : re) : re := Cat r (Alt Eps r).

(** [s] without its last character when that is a line feed. *)
Fixpoint chomp (s : string) : option string :=
  match s with
  | "" => None
  | String c "" => if Ascii.eqb c Py.LF then Some "" else None
  | String c s' =>
      match chomp s' with
      | Some t => Some (String c t)
      | None => None
      end
  end.

(** [re.match("^" r "$", s)]: without [re.MULTILINE] the [$] matches at
    the end of [s] and also just before a line feed that ends [s]. *)
Definition match_anchored (r : re) (s : string) : bool :=
  fullmatch r s ||
  match chomp s with
  | Some t => fullmatch r t
  | None => false
  end.

Definition digit (c : ascii) : bool :=
  let n := nat_of_ascii c in ((48 <=? n) && (n <=? 57))%nat.

Definition lit (c : ascii) : re := Class (Ascii.eqb c).

(** For proving: [r] visibly matches nothing. *)
Fixpoint void (r : re) : bool :=
  match r with
  | Void => true
  | Eps => false
  | Class _ => false
  | Cat r1 r2 => void r1 || void r2
  | Alt r1 r2 => void r1 && void r2
  end.

(** For proving: every character class of [r] lies within [good]. *)
Fixpoint within (good : ascii -> bool) (r : re) : Prop :=
  match r with
  | Void => True
  | Eps => True
  | Class p => forall c, p c = true -> good c = true
  | Cat r1 r2 => within good r1 /\ within good r2
  | Alt r1 r2 => within good r1 /\ within good r2
  end.

(** For stating: the characters a date can be made of. *)
Definition date_char (c : ascii) : bool := digit c || Ascii.eqb c "-".

End Re.

(* ================================================================== *)
(** * [int(str)] *)

Module PyInt.

Local Open Scope Z_scope.

Definition digit_val (c : ascii) : Z := Z.of_nat (nat_of_ascii c) - 48.

(** The white space [int] skips: the blanks of C's [isspace], and the
    white space beyond ASCII, which it first turns into blanks.  Unlike
    [str.strip] it does not skip the separators 28 to 31. *)
Definition isspace (c : ascii) : bool :=
  let n := nat_of_ascii c in
  (((9 <=? n) && (n <=? 13)) || (n =? 32) || (n =? 133) || (n =? 160))%nat.

Fixpoint skip_space (s : string) : string :=
  match s with
  | "" => ""
  | String c s' => if isspace c then skip_space s' else s
  end.

(** Decimal digits, single underscores allowed between two digits, and
    white space allowed after the last digit. *)
Fixpoint digits (s : string) (acc : Z) (after_digit : bool) : option Z :=
  match s with
  | "" => if after_digit then Some acc else None
  | String c s' =>
      if Re.digit c then digits s' (10 * acc + digit_val c) true
      else if Ascii.eqb c "_" && after_digit then digits s' acc false
      else if after_digit && Py.all_chars isspace s then Some acc
      else None
  end.

Definition of_option (o : option Z) : result Z :=
  match o with
  | Some z => Ok z
  | None => Raise ValueError
  end.

(** [int(s)] in base 10: white space, an optional sign, the digits, white
    space.  (The limit some interpreters put on the number of digits is
    not modelled.) *)
Definition int (s : string) : result Z :=
  match skip_space s with
  | String "+" r => of_option (digits r 0 false)
  | String "-" r => of_option (option_map Z.opp (digits r 0 false))
  | t => of_option (digits t 0 false)
  end.

(** The character of a decimal digit. *)
Definition digit_chr (d : Z) : ascii := ascii_of_nat (48 + Z.to_nat d).

Fixpoint str_go (fuel : nat) (n : Z) (acc : string) : string :=
  match fuel with
  | O => acc
  | S f =>
      let acc' := String (digit_chr (n mod 10)) acc in
      if n <? 10 then acc' else str_go f (n / 10) acc'
  end.

(** [str(n)] for an [int] [n]: its decimal digits, after a minus sign when
    it is negative. *)
Definition str (n : Z) : string :=
  if n <? 0 then String "-" (str_go (S (Z.to_nat (Z.log2 (- n)))) (- n) "")
  else str_go (S (Z.to_nat (Z.log2 n))) n "".

End PyInt.

(* ================================================================== *)
(** * [decimal.Decimal] in the default context

    Finite, non-negative decimals: the only ones [reviewers.py] builds,
    from line counts.  The operations follow the reference implementation
    of the [decimal] module ([_pydecimal]); the exponent limits [Emin] and
    [Emax] of the context (+-999999) are not modelled. *)

Module Decimal.

Local Open Scope Z_scope.

Record dec : Type := Dec { coef : Z; expo : Z }.

(** [getcontext().prec] *)
Definition prec : Z := 28.

(** [Decimal(n)] for an [int] [n >= 0]. *)
Definition of_int (n : Z) : dec := Dec n 0.

Fixpoint ndigits_go (fuel : nat) (n : Z) : Z :=
  match fuel with
  | O => 1
  | S f => if n <? 10 then 1 else 1 + ndigits_go f (n / 10)
  end.

(** [len(str(n))] for [n >= 0]. *)
Definition ndigits (n : Z) : Z := ndigits_go (Z.to_nat (Z.log2 n)) n.

(** Drop the last [k] digits of [n], rounding with [ROUND_HALF_EVEN]. *)
Definition round_half_even (n k : Z) : Z :=
  let q := n / 10 ^ k in
  let r := n mod 10 ^ k in
  match 2 * r ?= 10 ^ k with
  | Lt => q
  | Gt => q + 1
  | Eq => if Z.even q then q else q + 1
  end.

(** [Decimal._fix]: round to [prec] significant digits. *)
Definition fix_ (d : dec) : dec :=
  if coef d =? 0 then d
  else
    let exp_min := ndigits (coef d) + expo d - prec in
    if expo d <? exp_min then
      let c := round_half_even (coef d) (exp_min - expo d) in
      if ndigits c >? prec then Dec (c / 10) (exp_min + 1)
      else Dec c exp_min
    else d.

(** The loop of [__truediv__] that brings an exact quotient as close to
    the ideal exponent as its trailing zeros allow; [fuel] is
    [ideal_exp - exp]. *)
Fixpoint strip_zeros (fuel : nat) (c e : Z) : dec :=
  match fuel with
  | O => Dec c e
  | S f => if c mod 10 =? 0 then strip_zeros f (c / 10) (e + 1) else Dec c e
  end.

(** [Decimal.__truediv__] *)
Definition div (a b : dec) : result dec :=
  if coef b =? 0 then
    if coef a =? 0 then Raise InvalidOperation else Raise DivisionByZero
  else if coef a =? 0 then Ok (fix_ (Dec 0 (expo a - expo b)))
  else
    let shift := ndigits (coef b) - ndigits (coef a) + prec + 1 in
    let e := expo a - expo b - shift in
    let num := if 0 <=? shift then coef a * 10 ^ shift else coef a in
    let den := if 0 <=? shift then coef b else coef b * 10 ^ (- shift) in
    let c := num / den in
    let remainder := num mod den in
    let ans :=
      if negb (remainder =? 0)
      then Dec (if c mod 5 =? 0 then c + 1 else c) e
      else strip_zeros (Z.to_nat (expo a - expo b - e)) c e in
    Ok (fix_ ans).

(** [Decimal.__mul__] *)
Definition mul (a b : dec) : dec :=
  fix_ (Dec (coef a * coef b) (expo a + expo b)).

(** [Decimal._rescale(exp, ROUND_HALF_EVEN)] *)
Definition rescale (d : dec) (e : Z) : dec :=
  if coef d =? 0 then Dec 0 e
  else if e <=? expo d then Dec (coef d * 10 ^ (expo d - e)) e
  else Dec (round_half_even (coef d) (e - expo d)) e.

(** [Decimal.quantize(Decimal((0, (1,), e)))] *)
Definition quantize (d : dec) (e : Z) : result dec :=
  if coef d =? 0 then Ok (fix_ (Dec 0 e))
  else if ndigits (coef d) + expo d - 1 - e + 1 >? prec then Raise InvalidOperation
  else
    let ans := rescale d e in
    if ndigits (coef ans) >? prec then Raise InvalidOperation
    else Ok (fix_ ans).

(** [round(d, n)], that is [Decimal.__round__] with a number of places. *)
Definition round (d : dec) (n : Z) : result dec := quantize d (- n).

(** For proving: the value of [d] in units of [10 ^ (- s)]. *)
Definition scaled (s : Z) (d : dec) : Z := coef d * 10 ^ (expo d + s).

(** [Decimal.__format__] with a specifier that gives neither a type nor a
    precision, before the padding to the width of the specifier: the
    general format [G] of a non-negative decimal. *)
Definition format_G (d : dec) : string :=
  let int_ := PyInt.str (coef d) in
  let len := Z.of_nat (String.length int_) in
  let leftdigits := expo d + len in
  let dotplace :=
    if (expo d <=? 0) && (-6 <? leftdigits) then leftdigits else 1 in
  let parts :=
    if dotplace <? 0 then
      ("0"%string, (Py.repeat_chr "0" (Z.to_nat (- dotplace)) ++ int_)%string)
    else if len <? dotplace then
      ((int_ ++ Py.repeat_chr "0" (Z.to_nat (dotplace - len)))%string, ""%string)
    else
      (match substring 0 (Z.to_nat dotplace) int_ with
       | ""%string => "0"%string
       | s => s
       end,
       substring (Z.to_nat dotplace) (Z.to_nat (len - dotplace)) int_) in
  let e := leftdigits - dotplace in
  (fst parts
   ++ match snd parts with
      | "" => ""
      | f => "." ++ f
      end
   ++ (if (e =? 0)%Z then ""
       else "E" ++ (if (e <? 0)%Z then "" else "+") ++ PyInt.str e))%string.

End Decimal.

(* ================================================================== *)
(** * Insertion-ordered dictionaries with string keys *)

Module Dict.

Section WithValue.

Variable V : Type.

Definition t : Type := list (string * V).

(** [d.get(k)] *)
Fixpoint get (k : string) (d : t) : option V :=
  match d with
  | [] => None
  | (k', v) :: d' => if String.eqb k k' then Some v else get k d'
  end.

(** [k in d] *)
Definition mem (k : string) (d : t) : bool :=
  match get k d with Some _ => true | None => false end.

(** [d[k] = v]: an existing key keeps its place, a new one goes last. *)
Fixpoint set (k : string) (v : V) (d : t) : t :=
  match d with
  | [] => [(k, v)]
  | (k', v') :: d' =>
      if String.eqb k k' then (k', v) :: d' else (k', v') :: set k v d'
  end.

Definition keys (d : t) : list string := map fst d.

End WithValue.

End Dict.

(* ================================================================== *)
(** * [reviewers.py] *)

(** One blamed line: the [dict(line_num=..., code_line=...)] built by
    [get_blame_code_line]. *)
Record blame_line : Type := BlameLine {
  line_num : string;
  code_line : string
}.

(** One hunk: the [chunk] dictionary of [get_code_chunks]; both entries are
    the strings cut out of the hunk header. *)
Record chunk : Type := Chunk {
  start_line : string;
  num_lines : string
}.

(** The [diff_info] dictionary.  The keys that [read_diff_raw_line] sets
    only past its early return are optional. *)
Record diff_info : Type := DiffInfo {
  line : string;
  reviewers : Dict.t (list blame_line);
  chunks : list chunk;
  parts : list string;
  raw_info : string;
  from_mode : option string;
  to_mode : option string;
  from_hash : option string;
  to_hash : option string;
  type_info : option string;
  type : option string;
  file : option string;
  to_file : option string
}.

Definition set_chunks (d : diff_info) (cs : list chunk) : diff_info :=
  DiffInfo (line d) (reviewers d) cs (parts d) (raw_info d) (from_mode d)
    (to_mode d) (from_hash d) (to_hash d) (type_info d) (type d) (file d)
    (to_file d).

Definition set_reviewers (d : diff_info) (rs : Dict.t (list blame_line))
  : diff_info :=
  DiffInfo (line d) rs (chunks d) (parts d) (raw_info d) (from_mode d)
    (to_mode d) (from_hash d) (to_hash d) (type_info d) (type d) (file d)
    (to_file d).

(** [d[key]] for a key that may be missing. *)
Definition getitem {A : Type} (o : option A) : result A :=
  match o with
  | Some a => Ok a
  | None => Raise KeyError
  end.

(** One row of the list returned by [get_total_reviewers]:
    [[name, lines, percent]]. *)
Record ranked : Type := Ranked {
  r_name : string;
  r_lines : Z;
  r_percent : Decimal.dec
}.

(** The colours [get_reviewers] prints the raw diff lines in. *)
Inductive color : Type := GREEN | RED | YELLOW | LTBLUE.

(** What [get_reviewers] ends with: the text handed to the pager, or the
    ranking handed to [print_suggested_reviewers]. *)
Inductive shown : Type :=
| Pager (text : string)
| Suggested (ranking : list ranked).

Definition TAB : string := String Py.TAB "".
Definition LF : string := String Py.LF "".

(** The pattern of [get_blame_reviewer]:
    [^[0-9]{4}\-[0-9]{1,2}\-[0-9]{1,2}$] *)
Definition date_re : Re.re :=
  Re.Cat (Re.times 4 (Re.Class Re.digit))
    (Re.Cat (Re.lit "-")
       (Re.Cat (Re.once_or_twice (Re.Class Re.digit))
          (Re.Cat (Re.lit "-") (Re.once_or_twice (Re.Class Re.digit))))).

Definition is_date (part : string) : bool := Re.match_anchored date_re part.

Definition read_diff_raw_line (line : string) : result diff_info :=
  let parts := Py.split TAB line in
  raw_info <- Py.item parts 0 ;;
  if String.eqb raw_info "" then
    Ok (DiffInfo line [] [] parts raw_info None None None None None None
          None None)
  else
    match Py.split " " raw_info with
    | [from_mode; to_mode; from_hash; to_hash; type_info] =>
        type <- Py.first type_info ;;
        file <- Py.item parts 1 ;;
        Ok (DiffInfo line [] [] parts raw_info (Some from_mode) (Some to_mode)
              (Some from_hash) (Some to_hash) (Some type_info) (Some type)
              (Some file)
              (if (2 <? List.length parts)%nat then nth_error parts 2 else None))
    | _ => Raise ValueError
    end.

(** The body of the loop of [get_code_chunks], on the list of chunks. *)
Definition code_chunk (cs : list chunk) (line : string) : result (list chunk) :=
  if negb (Py.contains "@@" line) then Ok cs
  else
    header <- Py.item (Py.split "@@" line) 1 ;;
    range <- Py.item (Py.split " " header) 1 ;;
    let line_chunk := Py.tail range in
    match Py.split "," line_chunk with
    | [start_line; num_lines] => Ok (cs ++ [Chunk start_line num_lines])%list
    | _ => Raise ValueError
    end.

Definition get_blame_code_line (line : string) : result blame_line :=
  match Py.split_once ")" line with
  | Some (prefix, code_line) =>
      Ok (BlameLine (Py.rpartition_tail " " prefix) (Py.tail code_line))
  | None => Raise ValueError
  end.

(** The loop of [get_blame_reviewer]: the parts before the first date. *)
Fixpoint reviewer_name_parts (reviewer_parts : list string) : list string :=
  match reviewer_parts with
  | [] => []
  | part :: rest =>
      if is_date part then [] else Py.strip part :: reviewer_name_parts rest
  end.

Definition get_blame_reviewer (line : string) : result string :=
  after_open <- Py.item (Py.split "(" line) 1 ;;
  inside <- Py.item (Py.split ")" after_open) 0 ;;
  let reviewer_parts := Py.split " " inside in
  Ok (Py.strip (Py.join " " (reviewer_name_parts reviewer_parts))).

(** The body of the inner loop of [get_blame_data], on the reviewers. *)
Definition blame_line_step (rs : Dict.t (list blame_line)) (line : string)
  : result (Dict.t (list blame_line)) :=
  if negb (Py.contains "(" line) || negb (Py.contains ")" line) then Ok rs
  else
    code_line <- get_blame_code_line line ;;
    reviewer <- get_blame_reviewer line ;;
    let rs := if negb (Dict.mem reviewer rs) then Dict.set reviewer [] rs else rs in
    lines <- getitem (Dict.get reviewer rs) ;;
    Ok (Dict.set reviewer (lines ++ [code_line])%list rs).

(** [sorted(rows, key=lambda k: k[1], reverse=True)]: the sort is stable,
    also when reversed, so rows with equal counts keep their order; a row
    is inserted before the first row that does not have more lines. *)
Fixpoint insert_desc (x : string * Z) (l : list (string * Z))
  : list (string * Z) :=
  match l with
  | [] => [x]
  | y :: l' => if (snd y <=? snd x)%Z then x :: l else y :: insert_desc x l'
  end.

Fixpoint sorted_desc (l : list (string * Z)) : list (string * Z) :=
  match l with
  | [] => []
  | x :: l' => insert_desc x (sorted_desc l')
  end.

(** [sum(reviewer[1] for reviewer in rows)] *)
Definition sum_lines (rows : list (string * Z)) : Z :=
  fold_left (fun acc row => (acc + snd row)%Z) rows 0%Z.

(** [round((Decimal(lines) / total_lines) * 100, 2)] *)
Definition percent (lines total_lines : Z) : result Decimal.dec :=
  q <- Decimal.div (Decimal.of_int lines) (Decimal.of_int total_lines) ;;
  Decimal.round (Decimal.mul q (Decimal.of_int 100)) 2.

(** The body of the inner loop of [get_total_reviewers]: one reviewer of
    one file, with the lines blamed on them. *)
Definition total_step (current_user : string) (total_reviewers : Dict.t Z)
  (entry : string * list blame_line) : Dict.t Z :=
  let (reviewer, lines) := entry in
  if String.eqb (Py.strip current_user) reviewer then total_reviewers
  else
    let total_reviewers :=
      if negb (Dict.mem reviewer total_reviewers)
      then Dict.set reviewer 0%Z total_reviewers else total_reviewers in
    match Dict.get reviewer total_reviewers with
    | Some n => Dict.set reviewer (n + Z.of_nat (List.length lines))%Z total_reviewers
    | None => total_reviewers
    end.

(** [get_total_reviewers] past its call of [get_git_user]. *)
Definition total_reviewers_for (current_user : string)
  (diff_infos : list diff_info) : result (list ranked) :=
  let total_reviewers :=
    fold_left
      (fun acc info => fold_left (total_step current_user) (reviewers info) acc)
      diff_infos [] in
  let total_reviewers_list := sorted_desc total_reviewers in
  let total_lines := sum_lines total_reviewers_list in
  for_each
    (fun done row =>
       p <- percent (snd row) total_lines ;;
       Ok (done ++ [Ranked (fst row) (snd row) p])%list)
    total_reviewers_list [].

(** [shl.print_section(shl.BOLD, from_hash, file, file=output)]: the one
    string that [write_output] appends to the list. *)
Definition section_header (from_hash file : string) : string :=
  let hashes := Py.repeat_chr "#" 60 in
  Py.join " " [LF ++ LF; hashes; LF; "# "; from_hash; file; LF; hashes; LF] ++ LF.

Definition GAP : list string := ["    ."; "    ."; "    ."].

(** The text [print_suggested_reviewers] formats for one row of the
    ranking:
    ["{user: >30}\t\t\t(Contrib: {percent: >5}%   Lines: {lines})"]. *)
Definition reviewer_row (reviewer : ranked) : string :=
  Py.rjust 30 (r_name reviewer) ++ TAB ++ TAB ++ TAB ++ "(Contrib: "
  ++ Py.rjust 5 (Decimal.format_G (r_percent reviewer)) ++ "%   Lines: "
  ++ PyInt.str (r_lines reviewer) ++ ")".

Section Git.

(** [subprocess.check_output] on an argument vector, already decoded. *)
Variable check_output : list string -> result string.

(** [pygments.highlight(code, PythonLexer(), TerminalFormatter())], or
    the identity where pygments is not installed. *)
Variable highlight : string -> string.

Definition run_cmd (cmd : string) : result (list string) :=
  out <- check_output (Py.split " " cmd) ;;
  Ok (Py.split LF (Py.strip out)).

Definition get_git_branches : result (list string) :=
  lines <- run_cmd "git branch" ;;
  Ok (map Py.strip lines).

Definition get_git_user : result string :=
  lines <- run_cmd "git config --get user.name" ;;
  Py.item lines 0.

Definition get_blame (filename start num_lines branch : string)
  : result (list string) :=
  run_cmd ("git --no-pager blame -L " ++ start ++ ",+" ++ num_lines ++ " "
           ++ branch ++ " -- " ++ filename).

Definition get_diff_raw (branch : string) : result (list string) :=
  run_cmd ("git --no-pager diff --raw " ++ branch).

Definition get_file_diff (from_name : string) (to_name : option string)
  (branch : string) : result (list string) :=
  match to_name with
  | Some (String c t) =>
      run_cmd ("git --no-pager diff " ++ branch ++ " -- " ++ String c t
               ++ " -- " ++ from_name)
  | _ => run_cmd ("git --no-pager diff " ++ branch ++ " -- " ++ from_name)
  end.

Definition get_code_chunks (info : diff_info) (branch : string)
  : result diff_info :=
  file <- getitem (file info) ;;
  diff <- get_file_diff file (to_file info) branch ;;
  chunks <- for_each code_chunk diff [] ;;
  Ok (set_chunks info chunks).

Definition get_blame_data (info : diff_info) (branch : string)
  : result diff_info :=
  rs <- for_each
          (fun rs chunk =>
             file <- getitem (file info) ;;
             blame_info <- get_blame file (start_line chunk) (num_lines chunk) branch ;;
             for_each blame_line_step blame_info rs)
          (chunks info) (reviewers info) ;;
  Ok (set_reviewers info rs).

(** [diff_info.get("type") in ("A", None)] *)
Definition added_or_untyped (info : diff_info) : bool :=
  match type info with
  | None => true
  | Some t => String.eqb t "A"
  end.

Definition get_file_reviewers (line branch : string) : result diff_info :=
  info <- read_diff_raw_line line ;;
  if added_or_untyped info then Ok info
  else
    info <- get_code_chunks info branch ;;
    get_blame_data info branch.

Definition get_total_reviewers (diff_infos : list diff_info)
  : result (list ranked) :=
  current_user <- get_git_user ;;
  total_reviewers_for current_user diff_infos.

(** [print_suggested_reviewers], as the arguments of its calls of
    [shl.stdout], in order: one text for each row, and none at the end. *)
Definition print_suggested_reviewers (diff_infos : list diff_info)
  : result (list (list string)) :=
  total_reviewers <- get_total_reviewers diff_infos ;;
  Ok (map (fun reviewer => [reviewer_row reviewer]) total_reviewers ++ [[]])%list.

(** The body of the inner loop of [print_contributer_lines]; the state is
    the output so far and [prev_line]. *)
Definition contributer_line (st : list string * option Z) (line : blame_line)
  : result (list string * option Z) :=
  let (output, prev_line) := st in
  let code := highlight (code_line line) in
  cur_line <- PyInt.int (line_num line) ;;
  let gap :=
    match prev_line with
    | Some p => negb (p =? 0)%Z && (p + 1 <? cur_line)%Z
    | None => false
    end in
  let output := if gap then (output ++ GAP)%list else output in
  let row := Py.rjust 5 (line_num line) ++ "|" ++ TAB ++ Py.rstrip code in
  Ok ((output ++ [row])%list, Some cur_line).

(** [print_contributer_lines], up to the list [output] that it joins and
    hands to the pager. *)
Definition contributer_output (contributer : string)
  (diff_infos : list diff_info) : result (list string) :=
  for_each
    (fun output info =>
       match Dict.get contributer (reviewers info) with
       | None | Some [] => Ok output
       | Some lines =>
           from_hash <- getitem (from_hash info) ;;
           file <- getitem (file info) ;;
           let output := (output ++ [section_header from_hash file])%list in
           st <- for_each contributer_line lines (output, None) ;;
           Ok (fst st ++ [(LF ++ LF)%string])%list
       end)
    diff_infos [].

Definition print_contributer_lines (contributer : string)
  (diff_infos : list diff_info) : result string :=
  output <- contributer_output contributer diff_infos ;;
  Ok (Py.join LF output).

(** The loop of [get_reviewers]: the records kept, and the raw lines
    printed with their colours. *)
Definition collect_diff_infos (raw : list string) (branch : string)
  : result (list diff_info * list (color * string)) :=
  for_each
    (fun st diff =>
       info <- get_file_reviewers diff branch ;;
       match type info with
       | None => Ok st
       | Some t =>
           let c :=
             if String.eqb t "A" then GREEN
             else if String.eqb t "D" then RED
             else if String.eqb t "M" then YELLOW
             else LTBLUE in
           Ok ((fst st ++ [info])%list, (snd st ++ [(c, diff)])%list)
       end)
    raw ([], []).

Definition get_reviewers (contributer : option string) (branch : string)
  : result (list (color * string) * shown) :=
  raw <- get_diff_raw branch ;;
  st <- collect_diff_infos raw branch ;;
  match contributer with
  | Some (String c s) =>
      text <- print_contributer_lines (String c s) (fst st) ;;
      Ok (snd st, Pager text)
  | _ =>
      ranking <- get_total_reviewers (fst st) ;;
      Ok (snd st, Suggested ranking)
  end.

End Git.

(* ================================================================== *)
(** * [__main__.py] *)

Section Main.

Variable check_output : list string -> result string.
Variable highlight : string -> string.

(** The script past the parsing of its arguments: [branch_arg] and
    [contributer_arg] are [args.branch] and [args.contributer], [None]
    where the option is not given. *)
Definition main (branch_arg contributer_arg : option string)
  : result (list (color * string) * shown) :=
  branch <-
    match branch_arg with
    | Some (String c s) => Ok (String c s)
    | _ =>
        branches <- get_git_branches check_output ;;
        Ok (if existsb (String.eqb "develop") branches then "develop" else "master")
    end ;;
  get_reviewers check_output highlight contributer_arg branch.

End Main.

(* ================================================================== *)
(** * Vocabulary of the statements *)

(** For stating: the characters of a word of an author name (no white
    space, no parenthesis) and of any field of a blame line (no blank, no
    parenthesis). *)
Definition name_char (c : ascii) : bool :=
  negb (Py.isspace c) && negb (Ascii.eqb c "(") && negb (Ascii.eqb c ")").

Definition field_char (c : ascii) : bool :=
  negb (Ascii.eqb c " ") && negb (Ascii.eqb c "(") && negb (Ascii.eqb c ")").

Definition name_word (w : string) : Prop :=
  w <> "" /\ Py.all_chars name_char w = true /\ is_date w = false.

(** For stating: the blame line
    [<rev> (<names> <date> <rest> <lineno>) <code>], with [pad] more blanks
    between the names and the date, as [git] aligns the dates. *)
Definition blame_text (rev : string) (names : list string) (pad : nat)
  (date : string) (rest : list string) (lineno code : string) : string :=
  rev ++ " ("
  ++ Py.join " " (names ++ List.repeat "" pad ++ date :: rest ++ [lineno])%list
  ++ ") " ++ code.

(** For stating: the lines blamed on [author] in one file and in all
    files, and whether [author] is blamed at all. *)
Fixpoint lines_in (author : string) (rs : Dict.t (list blame_line)) : Z :=
  match rs with
  | [] => 0
  | (k, ls) :: rs' =>
      (if String.eqb k author then Z.of_nat (List.length ls) else 0)
      + lines_in author rs'
  end%Z.

Definition lines_blamed (author : string) (infos : list diff_info) : Z :=
  lines_in author (flat_map reviewers infos).

Definition blamed (author : string) (infos : list diff_info) : bool :=
  Dict.mem author (flat_map reviewers infos).

(** For stating: the lines blamed on anyone but the current user. *)
Fixpoint included_in (current_user : string) (rs : Dict.t (list blame_line)) : Z :=
  match rs with
  | [] => 0
  | (k, ls) :: rs' =>
      (if String.eqb (Py.strip current_user) k then 0 else Z.of_nat (List.length ls))
      + included_in current_user rs'
  end%Z.

Definition included_lines (current_user : string) (infos : list diff_info) : Z :=
  included_in current_user (flat_map reviewers infos).

(** For stating: every reviewer of the file has at least one line. *)
Definition attributed (info : diff_info) : Prop :=
  Forall (fun entry => snd entry <> []) (reviewers info).

(** For stating: the colour [get_reviewers] prints a record of status [t] in. *)
Definition color_of (t : string) : color :=
  if String.eqb t "A" then GREEN
  else if String.eqb t "D" then RED
  else if String.eqb t "M" then YELLOW
  else LTBLUE.


(** For stating: the name and the count of a row of a ranking. *)
Definition row_of (r : ranked) : string * Z := (r_name r, r_lines r).

(** For stating: the order of the rows of a ranking. *)
Definition desc (x y : string * Z) : Prop := (snd y <= snd x)%Z.

(** For stating: the sum of the percentages of a ranking, in hundredths. *)
Definition percent_sum (ranking : list ranked) : Z :=
  fold_right (fun row acc => (Decimal.coef (r_percent row) + acc)%Z) 0%Z ranking.

(** ** Contributor mode, as the specification words it *)

(** The line number of a blamed line, 0 when it is not a number. *)
Definition number_of (l : blame_line) : Z :=
  match PyInt.int (line_num l) with
  | Ok n => n
  | Raise _ => 0%Z
  end.

(** The text printed for a blamed line. *)
Definition line_text (highlight : string -> string) (l : blame_line) : string :=
  Py.rjust 5 (line_num l) ++ "|" ++ TAB ++ Py.rstrip (highlight (code_line l)).



(** For proving: the gap test of [print_contributer_lines] and the lines
    its inner loop appends after a line numbered [prev_line]. *)
Definition gap_after (prev_line : option Z) (cur_line : Z) : bool :=
  match prev_line with
  | Some p => negb (p =? 0)%Z && (p + 1 <? cur_line)%Z
  | None => false
  end.

Fixpoint appended (prev_line : option Z) (rows : list (Z * string)) : list string :=
  match rows with
  | [] => []
  | (n, text) :: rest =>
      ((if gap_after prev_line n then GAP else [])
       ++ text :: appended (Some n) rest)%list
  end.

(** ** Branches *)

(** For stating: a word, that is a text without white space. *)
Definition word (w : string) : Prop :=
  w <> "" /\ Py.all_chars (fun c => negb (Py.isspace c)) w = true.

(** For stating: a line of the answer of [git branch], two columns that
    mark the checked-out branch with a star, and the name. *)
Definition branch_line (entry : bool * string) : string :=
  (if fst entry then "* " else "  ") ++ snd entry.

(** For proving: a line of [git branch] once stripped. *)
Definition shown_as (entry : bool * string) : string :=
  if fst entry then "* " ++ snd entry else snd entry.

(** ** Blame correlation *)

(** For stating: the lines a record holds for [author], none when the
    author is not among its reviewers. *)
Definition lines_of (author : string) (rs : Dict.t (list blame_line))
  : list blame_line :=
  match Dict.get author rs with
  | Some ls => ls
  | None => []
  end.

(** For stating: of the lines of a blame, those with both parentheses
    whose author is [author], each as [get_blame_code_line] reads it, in
    the order of the blame. *)
Definition blamed_on (author : string) (blame_info : list string)
  : list blame_line :=
  flat_map
    (fun line =>
       if Py.contains "(" line && Py.contains ")" line then
         match get_blame_reviewer line, get_blame_code_line line with
         | Ok reviewer, Ok code_line =>
             if String.eqb reviewer author then [code_line] else []
         | _, _ => []
         end
       else [])
    blame_info.

(** ** Order of the ranking *)

(** For stating: the texts of a list, each once, in the order of their
    first occurrence. *)
Fixpoint distinct (l : list string) : list string :=
  match l with
  | [] => []
  | a :: l' => a :: filter (fun b => negb (String.eqb b a)) (distinct l')
  end.

(** For stating: the authors blamed in some record, but for the current
    user, in the order in which the records first name them. *)
Definition authors_in_order (current_user : string) (infos : list diff_info)
  : list string :=
  filter (fun a => negb (String.eqb (Py.strip current_user) a))
    (distinct (map fst (flat_map reviewers infos))).

(** ** Listings and printed lines *)

(** For stating: what contributor mode lists for one record apart from
    gap markers: the header, the text of every line, a blank block. *)
Definition listed_lines (highlight : string -> string) (contributer : string)
  (info : diff_info) : list string :=
  match Dict.get contributer (reviewers info) with
  | None | Some [] => []
  | Some lines =>
      (section_header (match from_hash info with Some h => h | None => "" end)
         (match file info with Some f => f | None => "" end)
       :: map (line_text highlight) lines ++ [(LF ++ LF)%string])%list
  end.

(** For stating: an entry of the listing that is no gap marker. *)
Definition no_gap_marker (entry : string) : bool := negb (String.eqb entry "    .").


(** ** Dates *)

(** For stating: [n] decimal digits, with [lo <= n <= hi]. *)
Definition digits_between (lo hi : nat) (s : string) : Prop :=
  Py.all_chars Re.digit s = true
  /\ (lo <= String.length s)%nat /\ (String.length s <= hi)%nat.

(** For stating: the line number of a blamed line is one that [int] reads. *)
Definition numbered (l : blame_line) : bool :=
  match PyInt.int (line_num l) with
  | Ok _ => true
  | Raise _ => false
  end.

(** For stating: the lines the records hold for [contributer], in order. *)
Definition lines_listed (contributer : string) (infos : list diff_info)
  : list blame_line :=
  flat_map (fun info => lines_of contributer (reviewers info)) infos.

(** ** Gaps, whatever the order of the lines *)

(** For stating: the texts of numbered lines, with the gap marker wherever
    a number exceeds the number before it by more than 1. *)
Fixpoint gapped_upward (rows : list (Z * string)) : list string :=
  match rows with
  | [] => []
  | (n, text) :: rest =>
      text ::
      match rest with
      | [] => []
      | (m, _) :: _ =>
          ((if (n + 1 <? m)%Z then GAP else []) ++ gapped_upward rest)%list
      end
  end.

(** For stating: what contributor mode lists for one record, nothing when
    the record has no line of the contributor. *)
Definition listing_upward (highlight : string -> string) (contributer : string)
  (info : diff_info) : list string :=
  match Dict.get contributer (reviewers info) with
  | None | Some [] => []
  | Some lines =>
      ([section_header (match from_hash info with Some h => h | None => "" end)
          (match file info with Some f => f | None => "" end)]
       ++ gapped_upward (map (fun l => (number_of l, line_text highlight l)) lines)
       ++ [(LF ++ LF)%string])%list
  end.

(** ** Printed percentages *)

(** For stating: a number of hundredths written in fixed point, with two
    decimal places. *)
Definition two_decimals (hundredths : Z) : string :=
  PyInt.str (hundredths / 100) ++ "."
  ++ String (PyInt.digit_chr (hundredths / 10 mod 10))
       (String (PyInt.digit_chr (hundredths mod 10)) "").

(** For stating: the text of a row of the ranking, with its percentage in
    fixed point. *)
Definition printed_row (row : ranked) : string :=
  Py.rjust 30 (r_name row) ++ TAB ++ TAB ++ TAB ++ "(Contrib: "
  ++ Py.rjust 5 (two_decimals (Decimal.coef (r_percent row)))
  ++ "%   Lines: " ++ PyInt.str (r_lines row) ++ ")".

(* ================================================================== *)
(** * Inputs of the examples *)

(** For the examples: a record of a modified file with the given reviewers. *)
Definition modified_with (rs : Dict.t (list blame_line)) : diff_info :=
  DiffInfo (":100644 100644 bcd1234 0123456 M" ++ TAB ++ "a.py") rs [Chunk "1" "3"]
    [":100644 100644 bcd1234 0123456 M"; "a.py"] ":100644 100644 bcd1234 0123456 M"
    (Some ":100644") (Some "100644") (Some "bcd1234") (Some "0123456") (Some "M")
    (Some "M") (Some "a.py") None.

(** For the examples: [n] blamed lines. *)
Definition some_lines (n : nat) : list blame_line :=
  List.repeat (BlameLine "1" "pass") n.

(** For the examples: a [git] that answers from canned texts. *)
Definition canned_git (user raw diff blame : string) (args : list string)
  : result string :=
  let a1 := nth 1 args "" in
  let a2 := nth 2 args "" in
  let a3 := nth 3 args "" in
  if String.eqb a1 "config" then Ok user
  else if String.eqb a2 "blame" then Ok blame
  else if String.eqb a2 "diff" && String.eqb a3 "--raw" then Ok raw
  else if String.eqb a2 "diff" then Ok diff
  else Raise CalledProcessError.

(** For the examples: canned answers of [git] for a change to two files,
    one added and one of status [T] (a change of file type). *)
Definition raw_added : string :=
  ":000000 100644 0000000 1234567 A" ++ TAB ++ "new.py".

Definition raw_typechange : string :=
  ":100644 120000 bcd1234 0123456 T" ++ TAB ++ "link.py".

Definition raw_modified : string :=
  ":100644 100644 bcd1234 0123456 M" ++ TAB ++ "a.py".

Definition canned_diff : string :=
  "diff --git a/link.py b/link.py" ++ LF ++ "@@ -1,2 +1,2 @@" ++ LF ++ "-old" ++ LF
  ++ "+new".

Definition canned_blame : string :=
  "6f3e9a1 (Jane Doe 2023-05-01 10:00:00 +0000 1) old" ++ LF
  ++ "6f3e9a1 (Jane Doe 2023-05-01 10:00:00 +0000 2) older".


Definition git_own_lines : list string -> result string :=
  canned_git "Jane Doe" (raw_added ++ LF ++ raw_modified) canned_diff canned_blame.

(** For the examples: a [git] whose one changed file is blamed on three
    authors, a line each. *)
Definition git_thirds : list string -> result string :=
  canned_git "me" raw_modified canned_diff
    ("6f3e9a1 (Ann 2023-05-01 10:00:00 +0000 1) import os" ++ LF
     ++ "77aa001 (Bob 2023-06-01 10:00:00 +0000 2) import re" ++ LF
     ++ "90bc3d2 (Cy 2023-07-01 10:00:00 +0000 3) import sys").

Definition thirds_infos : list diff_info :=
  Eval vm_compute in
    match collect_diff_infos git_thirds [raw_modified] "master" with
    | Ok (infos, _) => infos
    | Raise _ => []
    end.

(** For the examples: a [git] with two changed files; [a.py] has two
    hunks, blamed in turn on Jane Doe, and [link.py] is blamed on Bob. *)
Definition git_two_hunks (args : list string) : result string :=
  if String.eqb (nth 2 args "") "blame" then
    if negb (String.eqb (nth 7 args "") "a.py")
    then Ok "77aa001 (Bob 2023-06-01 10:00:00 +0000 10) import os"
    else if String.eqb (nth 4 args "") "10,+2"
    then Ok ("6f3e9a1 (Jane Doe 2023-05-01 10:00:00 +0000 10) def f():" ++ LF
             ++ "6f3e9a1 (Jane Doe 2023-05-01 10:00:00 +0000 11)     pass")
    else Ok ("6f3e9a1 (Jane Doe 2023-05-01 10:00:00 +0000 15) def g():" ++ LF
             ++ "6f3e9a1 (Jane Doe 2023-05-01 10:00:00 +0000 16)     pass")
  else
    canned_git "me" (raw_typechange ++ LF ++ raw_modified)
      (if String.eqb (nth 5 args "") "a.py"
       then "@@ -10,2 +10,2 @@ class A:" ++ LF ++ "-x" ++ LF ++ "@@ -15,2 +15,2 @@" ++ LF ++ "-y"
       else "@@ -10,1 +10,1 @@")
      "" args.

(** The records the pipeline collects from [git_two_hunks]. *)
Definition two_hunk_infos : list diff_info :=
  Eval vm_compute in
    match collect_diff_infos git_two_hunks [raw_typechange; raw_modified] "master" with
    | Ok (infos, _) => infos
    | Raise _ => []
    end.

(** For the examples: a [git] whose blame lists the lines of one hunk out
    of order, and the records the pipeline collects from it. *)
Definition git_out_of_order : list string -> result string :=
  canned_git "me" raw_modified canned_diff
    ("6f3e9a1 (Jane Doe 2023-05-01 10:00:00 +0000 16)     pass" ++ LF
     ++ "6f3e9a1 (Jane Doe 2023-05-01 10:00:00 +0000 10) def f():" ++ LF
     ++ "6f3e9a1 (Jane Doe 2023-05-01 10:00:00 +0000 15) def g():").

Definition out_of_order_infos : list diff_info :=
  Eval vm_compute in
    match collect_diff_infos git_out_of_order [raw_modified] "master" with
    | Ok (infos, _) => infos
    | Raise _ => []
    end.

(* ================================================================== *)
(** * Properties *)

(** ** The error monad and its loops *)

Lemma bind_ok {A B : Type} (r : result A) (k : A -> result B) (b : B) :
  (x <- r ;; k x) = Ok b -> exists a, r = Ok a /\ k a = Ok b.
Proof.
  destruct r as [a|e]; simpl; intros H.
  - exists a. split; [reflexivity | exact H].
  - discriminate H.
Qed.

Ltac inv_bind H :=
  let a := fresh "x" in
  let Ha := fresh "E" in
  apply bind_ok in H; destruct H as (a & Ha & H).

Lemma for_each_cons {A S : Type} (body : S -> A -> result S) x xs s :
  for_each body (x :: xs) s = (s' <- body s x ;; for_each body xs s').
Proof. reflexivity. Qed.

(** A loop invariant: kept by the body, kept by the loop. *)
Lemma for_each_inv {A S : Type} (P : S -> Prop) (body : S -> A -> result S) :
  (forall s x s', P s -> body s x = Ok s' -> P s') ->
  forall xs s s', P s -> for_each body xs s = Ok s' -> P s'.
Proof.
  intros Hbody xs. induction xs as [|x xs IH]; simpl; intros s s' Hs H.
  - inversion H; subst; exact Hs.
  - inv_bind H. eapply IH; [eapply Hbody; eassumption | exact H].
Qed.

(** A loop whose body never raises never raises. *)
Lemma for_each_total {A S : Type} (body : S -> A -> result S) :
  (forall s x, exists s', body s x = Ok s') ->
  forall xs s, exists s', for_each body xs s = Ok s'.
Proof.
  intros Hbody xs. induction xs as [|x xs IH]; simpl; intros s.
  - eauto.
  - destruct (Hbody s x) as (s1 & ->). simpl. apply IH.
Qed.

(** ** Strings *)

Module PyFacts.

Import Py.

Lemma prefix_str1 c a s : prefix (String c "") (String a s) = Ascii.eqb a c.
Proof.
  simpl. destruct (ascii_dec c a) as [->|n].
  - rewrite Ascii.eqb_refl. destruct s; reflexivity.
  - symmetry. apply Ascii.eqb_neq. congruence.
Qed.

Lemma contains_str1 c s : contains (String c "") s = occurs c s.
Proof.
  induction s as [|a s IH].
  - reflexivity.
  - cbn [contains occurs]. rewrite prefix_str1, IH. reflexivity.
Qed.

Lemma split_go_str1 c s : split_go (String c "") 0 s = split1 c s.
Proof.
  induction s as [|a s IH].
  - reflexivity.
  - cbn [split_go split1]. rewrite prefix_str1. cbn [String.length Nat.sub].
    rewrite IH. destruct (split1 c s), (Ascii.eqb a c); reflexivity.
Qed.

Lemma split_str1 c s : split (String c "") s = fst (split1 c s) :: snd (split1 c s).
Proof.
  unfold split. rewrite split_go_str1. destruct (split1 c s); reflexivity.
Qed.

Lemma occurs_app c u v : occurs c (u ++ v) = occurs c u || occurs c v.
Proof.
  induction u as [|a u IH]; simpl.
  - reflexivity.
  - rewrite IH. apply orb_assoc.
Qed.

Lemma split1_absent c u : occurs c u = false -> split1 c u = (u, []).
Proof.
  induction u as [|a u IH]; simpl; intros H.
  - reflexivity.
  - apply orb_false_elim in H. destruct H as [Ha Hu].
    rewrite (IH Hu), Ha. reflexivity.
Qed.

Lemma split1_app c u v :
  occurs c u = false ->
  split1 c (u ++ String c v) = (u, fst (split1 c v) :: snd (split1 c v)).
Proof.
  induction u as [|a u IH]; simpl; intros H.
  - rewrite Ascii.eqb_refl. destruct (split1 c v); reflexivity.
  - apply orb_false_elim in H. destruct H as [Ha Hu].
    rewrite (IH Hu), Ha. reflexivity.
Qed.

Lemma split_head c v : split (String c "") (String c v) = "" :: split (String c "") v.
Proof. rewrite !split_str1. cbn [split1]. rewrite Ascii.eqb_refl. destruct (split1 c v); reflexivity. Qed.

Lemma split_hd_cons c a v :
  Ascii.eqb a c = false ->
  hd "" (split (String c "") (String a v)) = String a (hd "" (split (String c "") v)).
Proof.
  intros H. rewrite !split_str1. cbn [split1]. rewrite H.
  destruct (split1 c v); reflexivity.
Qed.

Lemma split_absent c u : occurs c u = false -> split (String c "") u = [u].
Proof. intros H. rewrite split_str1, (split1_absent _ _ H). reflexivity. Qed.

Lemma split_app c u v :
  occurs c u = false ->
  split (String c "") (u ++ String c v) = u :: split (String c "") v.
Proof.
  intros H. rewrite !split_str1, (split1_app _ _ _ H). reflexivity.
Qed.

Lemma join_cons sep x y ys :
  join sep (x :: y :: ys) = (x ++ sep ++ join sep (y :: ys))%string.
Proof. reflexivity. Qed.

Lemma app_assoc_s (a b c : string) : ((a ++ b) ++ c = a ++ (b ++ c))%string.
Proof. induction a as [|x a IH]; simpl; [reflexivity | now rewrite IH]. Qed.

Lemma join_snoc sep xs y :
  xs <> [] -> join sep (xs ++ [y]) = (join sep xs ++ sep ++ y)%string.
Proof.
  induction xs as [|x xs IH]; intros Hne; [congruence|].
  destruct xs as [|x' xs].
  - reflexivity.
  - change ((x :: x' :: xs) ++ [y])%list with (x :: (x' :: xs) ++ [y])%list.
    cbn [app]. rewrite !join_cons.
    change (x' :: (xs ++ [y])%list) with ((x' :: xs) ++ [y])%list.
    rewrite IH by congruence. rewrite !app_assoc_s. reflexivity.
Qed.

(** Splitting undoes joining when no piece holds the separator. *)
Lemma split_join c xs :
  xs <> [] -> Forall (fun x => occurs c x = false) xs ->
  split (String c "") (join (String c "") xs) = xs.
Proof.
  induction xs as [|x xs IH]; intros Hne Hall; [congruence|].
  inversion Hall as [|? ? Hx Hxs]; subst.
  destruct xs as [|y ys].
  - simpl. apply split_absent; exact Hx.
  - rewrite join_cons. cbn [append].
    rewrite split_app by exact Hx. f_equal. apply IH; [congruence | exact Hxs].
Qed.

Lemma split_once_app c u v :
  occurs c u = false -> split_once c (u ++ String c v) = Some (u, v).
Proof.
  induction u as [|a u IH]; simpl; intros H.
  - rewrite Ascii.eqb_refl. reflexivity.
  - apply orb_false_elim in H. destruct H as [Ha Hu].
    rewrite Ha, (IH Hu). reflexivity.
Qed.

Lemma split_once_some c s : occurs c s = true -> exists l r, split_once c s = Some (l, r).
Proof.
  induction s as [|a s IH]; simpl; intros H; [discriminate|].
  destruct (Ascii.eqb a c) eqn:E; [eauto|].
  simpl in H. destruct (IH H) as (l & r & ->). eauto.
Qed.

Lemma rpartition_tail_app c u v :
  occurs c v = false -> rpartition_tail c (u ++ String c v) = v.
Proof.
  intros Hv. induction u as [|a u IH]; simpl.
  - rewrite contains_str1, Hv, Ascii.eqb_refl. reflexivity.
  - rewrite contains_str1, occurs_app. simpl. rewrite Ascii.eqb_refl.
    rewrite orb_true_r. simpl. exact IH.
Qed.

Lemma all_chars_occurs p c s :
  all_chars p s = true -> p c = false -> occurs c s = false.
Proof.
  induction s as [|a s IH]; simpl; intros H Hc; [reflexivity|].
  apply andb_prop in H. destruct H as [Ha Hs].
  rewrite (IH Hs Hc), orb_false_r. apply Ascii.eqb_neq. congruence.
Qed.

(** Both sides of an equation of strings, re-associated to the right. *)
Ltac str_norm :=
  cbn [append]; repeat (rewrite !app_assoc_s; cbn [append]).

Ltac str_eq := str_norm; reflexivity.

(** [occurs] pushed down to the variables of a string expression. *)
Ltac occ_norm :=
  repeat (progress (cbn [append occurs]) || rewrite occurs_app).

(** Up to the first character of the separator nothing is cut. *)
Lemma split_go_app_absent c0 sep' u x :
  occurs c0 u = false ->
  split_go (String c0 sep') 0 (u ++ x) =
  (let (cur, rest) := split_go (String c0 sep') 0 x in ((u ++ cur)%string, rest)).
Proof.
  induction u as [|a u IH]; intros H.
  - simpl. destruct (split_go (String c0 sep') 0 x); reflexivity.
  - simpl in H. apply orb_false_elim in H. destruct H as [Ha Hu].
    cbn [append split_go prefix].
    destruct (ascii_dec c0 a) as [->|n]; [rewrite Ascii.eqb_refl in Ha; discriminate|].
    rewrite (IH Hu). destruct (split_go (String c0 sep') 0 x); reflexivity.
Qed.

Lemma split_app_absent c0 sep' u x :
  occurs c0 u = false ->
  split (String c0 sep') (u ++ x) =
  (u ++ hd "" (split (String c0 sep') x))%string :: List.tl (split (String c0 sep') x).
Proof.
  intros H. unfold split. rewrite split_go_app_absent by exact H.
  destruct (split_go (String c0 sep') 0 x); reflexivity.
Qed.

Lemma prefix_empty s : prefix "" s = true.
Proof. destruct s; reflexivity. Qed.

Lemma prefix_two c s : prefix (String c (String c "")) (String c (String c s)) = true.
Proof.
  cbn [prefix]. destruct (ascii_dec c c) as [_|n]; [|congruence]. apply prefix_empty.
Qed.

Lemma contains_prefix sub s : prefix sub s = true -> contains sub s = true.
Proof. intros H. destruct s; cbn [contains]; rewrite H; reflexivity. Qed.

(** A separator of two equal characters at the head of the string. *)
Lemma split_two c s :
  split (String c (String c "")) (String c (String c s))
  = "" :: split (String c (String c "")) s.
Proof.
  unfold split. cbn [split_go]. rewrite prefix_two.
  cbn [String.length Nat.sub split_go].
  destruct (split_go (String c (String c "")) 0 s); reflexivity.
Qed.

End PyFacts.

(** ** Chunk extraction *)

Section Chunks.

Import Py PyFacts.

Lemma digits_occurs (c : ascii) (s : string) :
  Re.digit c = false -> all_chars Re.digit s = true -> occurs c s = false.
Proof. intros Hc Hs. eapply all_chars_occurs; eassumption. Qed.

(** What the loop body cuts out of a hunk header: the range that follows
    the first blank, without its sign. *)
Lemma code_chunk_header (cs : list chunk) (a b tl : string) :
  all_chars Re.digit a = true -> all_chars Re.digit b = true ->
  code_chunk cs ("@@ -" ++ a ++ "," ++ b ++ " " ++ tl) = Ok (cs ++ [Chunk a b])%list.
Proof.
  intros Ha Hb.
  assert (Hat : forall c, Re.digit c = false -> occurs c a = false)
    by (intros c Hc; apply digits_occurs; assumption).
  assert (Hbt : forall c, Re.digit c = false -> occurs c b = false)
    by (intros c Hc; apply digits_occurs; assumption).
  unfold code_chunk.
  replace (contains "@@" ("@@ -" ++ a ++ "," ++ b ++ " " ++ tl)) with true
    by (symmetry; apply contains_prefix; apply prefix_two).
  cbn [negb].
  change ("@@ -" ++ a ++ "," ++ b ++ " " ++ tl)%string
    with (String "@" (String "@" (" -" ++ a ++ "," ++ b ++ " " ++ tl))).
  rewrite split_two.
  replace (" -" ++ a ++ "," ++ b ++ " " ++ tl)%string
    with ((" -" ++ a ++ "," ++ b ++ " ") ++ tl)%string by str_eq.
  rewrite split_app_absent.
  2:{ occ_norm. rewrite (Hat "@"%char), (Hbt "@"%char) by reflexivity. reflexivity. }
  set (cur := hd "" (split "@@" tl)). cbn [item nth_error bind].
  replace ((" -" ++ a ++ "," ++ b ++ " ") ++ cur)%string
    with (String " " (("-" ++ a ++ "," ++ b) ++ String " " cur))%string by str_eq.
  rewrite split_head, split_app.
  2:{ occ_norm. rewrite (Hat " "%char), (Hbt " "%char) by reflexivity. reflexivity. }
  cbn [item nth_error bind append tail].
  rewrite split_app by (apply Hat; reflexivity).
  rewrite split_absent by (apply Hbt; reflexivity).
  reflexivity.
Qed.

End Chunks.

(** C1 (as the code has it).  For every hunk header
    [@@ -a,b +c,d @@ ...] chunk extraction keeps the range of the [-] side:
    [start_line = a] and [num_lines = b]; the [+c,d] side is not looked at. *)
Theorem C1_hunk_header_keeps_minus_side (cs : list chunk) (a b c d rest : string) :
  Py.all_chars Re.digit a = true -> Py.all_chars Re.digit b = true ->
  code_chunk cs ("@@ -" ++ a ++ "," ++ b ++ " +" ++ c ++ "," ++ d ++ " @@" ++ rest)
  = Ok (cs ++ [Chunk a b])%list.
Proof.
  intros Ha Hb.
  exact (code_chunk_header cs a b ("+" ++ c ++ "," ++ d ++ " @@" ++ rest) Ha Hb).
Qed.

Lemma C1_hunk_header_keeps_minus_side_witness :
  code_chunk [] "@@ -1,3 +5,2 @@" = Ok [Chunk "1" "3"].
Proof.
  exact (C1_hunk_header_keeps_minus_side [] "1" "3" "5" "2" "" eq_refl eq_refl).
Defined.

(** C1 as the specification states it fails: the header [@@ -1,3 +5,2 @@]
    does not yield start 5 and count 2. *)
Lemma C1_target_side_counterexample :
  code_chunk [] "@@ -1,3 +5,2 @@" <> Ok [Chunk "5" "2"].
Proof. vm_compute. discriminate. Qed.

(** C3.  On a hunk header whose ranges carry no count, as [git] prints
    them for ranges of one line, chunk extraction raises [ValueError]
    instead of yielding a chunk with count 1. *)
Theorem C3_omitted_count_raises (cs : list chunk) :
  code_chunk cs "@@ -1 +5 @@" = Raise ValueError
  /\ code_chunk cs "@@ -1 +1 @@" = Raise ValueError.
Proof. split; reflexivity. Qed.

(** ** Regular expressions *)

Module ReFacts.

Import Re.

Lemma void_not_nullable r : void r = true -> nullable r = false.
Proof.
  induction r as [| |p|r1 IH1 r2 IH2|r1 IH1 r2 IH2]; simpl; intros H;
    try discriminate; try reflexivity.
  - apply orb_prop in H. destruct H as [H|H].
    + rewrite (IH1 H). reflexivity.
    + rewrite (IH2 H). apply andb_false_r.
  - apply andb_prop in H. destruct H as [H1 H2].
    rewrite (IH1 H1), (IH2 H2). reflexivity.
Qed.

Lemma void_deriv c r : void r = true -> void (deriv c r) = true.
Proof.
  induction r as [| |p|r1 IH1 r2 IH2|r1 IH1 r2 IH2]; simpl; intros H;
    try discriminate; try reflexivity.
  - apply orb_prop in H. destruct H as [H|H].
    + rewrite (void_not_nullable _ H). simpl. rewrite (IH1 H). reflexivity.
    + destruct (nullable r1); simpl; rewrite ?(IH2 H), H, ?orb_true_r; reflexivity.
  - apply andb_prop in H. destruct H as [H1 H2].
    rewrite (IH1 H1), (IH2 H2). reflexivity.
Qed.

Lemma void_no_match s : forall r, void r = true -> fullmatch r s = false.
Proof.
  induction s as [|c s IH]; simpl; intros r H.
  - apply void_not_nullable; exact H.
  - apply IH, void_deriv, H.
Qed.

Lemma within_deriv good c r : within good r -> within good (deriv c r).
Proof.
  induction r as [| |p|r1 IH1 r2 IH2|r1 IH1 r2 IH2]; simpl; intros H; auto.
  - destruct (p c); exact I.
  - destruct H as [H1 H2]. destruct (nullable r1); simpl; auto.
  - destruct H as [H1 H2]. auto.
Qed.

Lemma bad_char_void good c r :
  within good r -> good c = false -> void (deriv c r) = true.
Proof.
  induction r as [| |p|r1 IH1 r2 IH2|r1 IH1 r2 IH2]; simpl; intros H Hc; auto.
  - destruct (p c) eqn:E; [|reflexivity]. rewrite (H c E) in Hc. discriminate.
  - destruct H as [H1 H2]. destruct (nullable r1); simpl;
      rewrite (IH1 H1 Hc); simpl; auto.
  - destruct H as [H1 H2]. rewrite (IH1 H1 Hc), (IH2 H2 Hc). reflexivity.
Qed.

(** A matched string is made of characters of the classes of the pattern. *)
Lemma fullmatch_chars good s :
  forall r, within good r -> fullmatch r s = true -> Py.all_chars good s = true.
Proof.
  induction s as [|c s IH]; simpl; intros r Hr H.
  - reflexivity.
  - destruct (good c) eqn:E.
    + simpl. eapply IH; [apply within_deriv; exact Hr | exact H].
    + rewrite (void_no_match s _ (bad_char_void _ _ _ Hr E)) in H. discriminate.
Qed.

Lemma chomp_some s : forall t, chomp s = Some t -> s = (t ++ String Py.LF "")%string.
Proof.
  induction s as [|c s IH]; intros t H; [discriminate|].
  cbn [chomp] in H. destruct s as [|c' s'].
  - destruct (Ascii.eqb c Py.LF) eqn:E; [|discriminate].
    apply Ascii.eqb_eq in E. inversion H; subst. reflexivity.
  - destruct (chomp (String c' s')) as [t'|] eqn:E; [|discriminate].
    inversion H; subst. cbn [append]. f_equal. apply IH. reflexivity.
Qed.

End ReFacts.

(** ** Blame lines *)

Module BlameFacts.

Import Py PyFacts.

Lemma date_re_within : Re.within Re.date_char date_re.
Proof.
  assert (D : forall c, Re.digit c = true -> Re.date_char c = true)
    by (intros c H; unfold Re.date_char; rewrite H; reflexivity).
  assert (L : forall c, Ascii.eqb "-" c = true -> Re.date_char c = true).
  { intros c H. apply Ascii.eqb_eq in H. subst c. reflexivity. }
  unfold date_re, Re.once_or_twice, Re.lit. simpl. tauto.
Qed.

Lemma all_chars_app p u v : all_chars p (u ++ v) = all_chars p u && all_chars p v.
Proof.
  induction u as [|a u IH]; simpl; [reflexivity|]. rewrite IH. apply andb_assoc.
Qed.

Lemma all_chars_weaken (p q : ascii -> bool) s :
  (forall c, p c = true -> q c = true) -> all_chars p s = true -> all_chars q s = true.
Proof.
  intros Hpq. induction s as [|a s IH]; simpl; intros H; [reflexivity|].
  apply andb_prop in H. destruct H as [Ha Hs]. rewrite (Hpq a Ha), (IH Hs). reflexivity.
Qed.

(** A date holds no blank and no parenthesis. *)
Lemma date_field (d : string) : is_date d = true -> all_chars field_char d = true.
Proof.
  assert (G : forall c, Re.date_char c = true -> field_char c = true).
  { intros c H. unfold field_char.
    destruct (Ascii.eqb c " ") eqn:E1; [apply Ascii.eqb_eq in E1; subst; discriminate|].
    destruct (Ascii.eqb c "(") eqn:E2; [apply Ascii.eqb_eq in E2; subst; discriminate|].
    destruct (Ascii.eqb c ")") eqn:E3; [apply Ascii.eqb_eq in E3; subst; discriminate|].
    reflexivity. }
  unfold is_date, Re.match_anchored. intros H. apply orb_prop in H. destruct H as [H|H].
  - eapply all_chars_weaken; [exact G|].
    eapply ReFacts.fullmatch_chars; [apply date_re_within | exact H].
  - destruct (Re.chomp d) as [t|] eqn:E; [|discriminate].
    apply ReFacts.chomp_some in E. subst d. rewrite all_chars_app.
    rewrite (all_chars_weaken _ field_char t G); [reflexivity|].
    eapply ReFacts.fullmatch_chars; [apply date_re_within | exact H].
Qed.

Lemma name_char_field c : name_char c = true -> field_char c = true.
Proof.
  unfold name_char, field_char. intros H.
  apply andb_prop in H. destruct H as [H H3]. apply andb_prop in H. destruct H as [H1 H2].
  rewrite H2, H3, !andb_true_r.
  destruct (Ascii.eqb c " ") eqn:E; [|reflexivity].
  apply Ascii.eqb_eq in E. subst c. discriminate H1.
Qed.

Lemma field_no (w : string) :
  all_chars field_char w = true ->
  occurs " " w = false /\ occurs "(" w = false /\ occurs ")" w = false.
Proof.
  intros H. repeat split; eapply all_chars_occurs; try exact H; reflexivity.
Qed.

Lemma occurs_join c sep xs :
  occurs c sep = false -> Forall (fun x => occurs c x = false) xs ->
  occurs c (join sep xs) = false.
Proof.
  intros Hsep. induction xs as [|x xs IH]; intros H; [reflexivity|].
  inversion H as [|? ? Hx Hxs]; subst. destruct xs as [|y ys]; [exact Hx|].
  rewrite join_cons, !occurs_app, Hx, Hsep, (IH Hxs). reflexivity.
Qed.

(** *** [strip] leaves words and lines of words alone *)

Lemma lstrip_head c s : isspace c = false -> lstrip (String c s) = String c s.
Proof. intros H. simpl. rewrite H. reflexivity. Qed.

Lemma rstrip_word w :
  w <> "" -> all_chars (fun c => negb (isspace c)) w = true -> rstrip w = w.
Proof.
  induction w as [|c w IH]; intros Hne H; [congruence|].
  cbn [all_chars] in H. apply andb_prop in H. destruct H as [Hc Hw].
  apply negb_true_iff in Hc. cbn [rstrip]. destruct w as [|c' w'].
  - simpl. rewrite Hc. reflexivity.
  - rewrite IH by (congruence || exact Hw). reflexivity.
Qed.

Lemma rstrip_app a b : rstrip b <> "" -> rstrip (a ++ b) = (a ++ rstrip b)%string.
Proof.
  intros Hb. induction a as [|c a IH]; [reflexivity|].
  cbn [append rstrip]. rewrite IH.
  destruct (a ++ rstrip b)%string eqn:E; [|reflexivity].
  destruct a; simpl in E; [congruence | discriminate].
Qed.

Lemma name_chars_nospace w :
  all_chars name_char w = true -> all_chars (fun c => negb (isspace c)) w = true.
Proof.
  apply all_chars_weaken. intros c H. unfold name_char in H.
  apply andb_prop in H. destruct H as [H _]. apply andb_prop in H. tauto.
Qed.

Lemma strip_word w : w <> "" -> all_chars name_char w = true -> strip w = w.
Proof.
  intros Hne H. unfold strip. rewrite rstrip_word by (auto using name_chars_nospace).
  destruct w as [|c w]; [congruence|].
  apply name_chars_nospace in H. cbn [all_chars] in H.
  apply andb_prop in H. destruct H as [Hc _]. apply negb_true_iff in Hc.
  apply lstrip_head; exact Hc.
Qed.

Lemma join_nonempty sep x xs : x <> "" -> join sep (x :: xs) <> "".
Proof.
  intros Hx. destruct xs; simpl; [exact Hx|].
  destruct x; [congruence | discriminate].
Qed.

Lemma rstrip_join names :
  Forall name_word names -> rstrip (join " " names) = join " " names.
Proof.
  induction names as [|x xs IH]; intros H; [reflexivity|].
  inversion H as [|? ? (Hne & Hx & _) Hxs]; subst. destruct xs as [|y ys].
  - simpl. apply rstrip_word; auto using name_chars_nospace.
  - rewrite join_cons.
    replace (x ++ " " ++ join " " (y :: ys))%string
      with ((x ++ " ") ++ join " " (y :: ys))%string by str_eq.
    assert (Hy : y <> "") by (inversion Hxs as [|? ? (Hy & _) _]; exact Hy).
    rewrite rstrip_app; rewrite (IH Hxs); [reflexivity|].
    apply join_nonempty; exact Hy.
Qed.

Lemma strip_join names :
  Forall name_word names -> strip (join " " names) = join " " names.
Proof.
  intros H. unfold strip. rewrite (rstrip_join H).
  destruct names as [|x xs]; [reflexivity|].
  inversion H as [|? ? (Hne & Hx & _) _]; subst.
  destruct x as [|c x]; [congruence|].
  apply name_chars_nospace in Hx. cbn [all_chars] in Hx.
  apply andb_prop in Hx. destruct Hx as [Hc _]. apply negb_true_iff in Hc.
  destruct xs; cbn [join append]; apply lstrip_head; exact Hc.
Qed.

(** *** Blanks that pad the names *)

Lemma blanks_are_space pad : all_chars isspace (join " " (List.repeat "" pad)) = true.
Proof.
  induction pad as [|pad IH]; [reflexivity|].
  destruct pad as [|pad]; [reflexivity|]. exact IH.
Qed.

Lemma rstrip_spaces t : all_chars isspace t = true -> rstrip t = "".
Proof.
  induction t as [|c t IH]; cbn [all_chars rstrip]; intros H; [reflexivity|].
  apply andb_prop in H. destruct H as [Hc Ht]. rewrite (IH Ht), Hc. reflexivity.
Qed.

Lemma rstrip_app_spaces a t : all_chars isspace t = true -> rstrip (a ++ t) = rstrip a.
Proof.
  intros Ht. induction a as [|c a IH]; cbn [append].
  - rewrite (rstrip_spaces _ Ht). reflexivity.
  - cbn [rstrip]. rewrite IH. reflexivity.
Qed.

Lemma rstrip_join_padded names pad :
  Forall name_word names ->
  rstrip (join " " (names ++ List.repeat "" pad)) = join " " names.
Proof.
  induction names as [|x xs IH]; intros H.
  - apply rstrip_spaces, blanks_are_space.
  - inversion H as [|? ? (Hne & Hx & _) Hxs]; subst. destruct xs as [|y ys].
    + cbn [app]. destruct pad as [|pad].
      * apply rstrip_word; auto using name_chars_nospace.
      * change (List.repeat "" (S pad)) with ("" :: List.repeat "" pad).
        change (join " " [x]) with x. rewrite join_cons.
        rewrite rstrip_app_spaces; [apply rstrip_word; auto using name_chars_nospace|].
        cbn [append all_chars]. exact (blanks_are_space (S pad)).
    + change ((x :: y :: ys) ++ List.repeat "" pad)%list
        with (x :: (y :: (ys ++ List.repeat "" pad)))%list.
      rewrite !join_cons.
      change (y :: (ys ++ List.repeat "" pad))%list
        with ((y :: ys) ++ List.repeat "" pad)%list in *.
      replace (x ++ " " ++ join " " ((y :: ys) ++ List.repeat "" pad))%string
        with ((x ++ " ") ++ join " " ((y :: ys) ++ List.repeat "" pad))%string by str_eq.
      assert (Hy : y <> "") by (inversion Hxs as [|? ? (Hy & _) _]; exact Hy).
      rewrite rstrip_app; rewrite (IH Hxs).
      * rewrite <- join_cons. str_eq.
      * apply join_nonempty; exact Hy.
Qed.

Lemma strip_join_padded names pad :
  Forall name_word names ->
  strip (join " " (names ++ List.repeat "" pad)) = join " " names.
Proof.
  intros H. unfold strip. rewrite (rstrip_join_padded pad H).
  rewrite <- (rstrip_join H) at 1. exact (strip_join H).
Qed.

(** The loop of [get_blame_reviewer] stops at the date. *)
Lemma reviewer_name_parts_names names pad date more :
  Forall name_word names -> is_date date = true ->
  reviewer_name_parts (names ++ List.repeat "" pad ++ date :: more)
  = (names ++ List.repeat "" pad)%list.
Proof.
  intros H Hd. induction names as [|x xs IH]; cbn [app reviewer_name_parts].
  - induction pad as [|pad IHp]; cbn [List.repeat app reviewer_name_parts].
    + rewrite Hd. reflexivity.
    + change (is_date "") with false. change (strip "") with "".
      rewrite IHp. reflexivity.
  - inversion H as [|? ? (Hne & Hx & Hnd) Hxs]; subst.
    rewrite Hnd, (strip_word Hne Hx), (IH Hxs). reflexivity.
Qed.

(** The fields between the parentheses hold no blank and no parenthesis. *)
Lemma fields_ok names pad date rest lineno :
  Forall name_word names -> is_date date = true ->
  Forall (fun w => all_chars field_char w = true) rest ->
  all_chars field_char lineno = true ->
  Forall (fun w => all_chars field_char w = true)
    (names ++ List.repeat "" pad ++ date :: rest ++ [lineno]).
Proof.
  intros Hn Hd Hr Hl. apply Forall_app. split.
  - eapply Forall_impl; [|exact Hn]. intros w (_ & Hw & _).
    eapply all_chars_weaken; [exact name_char_field | exact Hw].
  - apply Forall_app. split.
    + apply Forall_forall. intros w Hw. apply repeat_spec in Hw. subst w. reflexivity.
    + constructor; [apply date_field; exact Hd|].
      apply Forall_app. split; [exact Hr|]. constructor; [exact Hl | constructor].
Qed.

Lemma fields_no c fields :
  field_char c = false ->
  Forall (fun w => all_chars field_char w = true) fields ->
  Forall (fun w => occurs c w = false) fields.
Proof.
  intros Hc. apply Forall_impl. intros w Hw. eapply all_chars_occurs; eassumption.
Qed.

End BlameFacts.

Section BlameLine.

Import Py PyFacts BlameFacts.

Variables (rev : string) (names : list string) (pad : nat) (date : string)
  (rest : list string) (lineno code : string).

Hypothesis rev_open : occurs "(" rev = false.
Hypothesis rev_close : occurs ")" rev = false.
Hypothesis names_ok : Forall name_word names.
Hypothesis date_ok : is_date date = true.
Hypothesis rest_ok : Forall (fun w => all_chars field_char w = true) rest.
Hypothesis lineno_ok : all_chars field_char lineno = true.

Let fields : list string :=
  (names ++ List.repeat "" pad ++ date :: rest ++ [lineno])%list.

Lemma fields_field : Forall (fun w => all_chars field_char w = true) fields.
Proof. apply fields_ok; assumption. Qed.

Lemma inside_no c :
  field_char c = false -> c <> " "%char -> occurs c (join " " fields) = false.
Proof.
  intros Hc Hsp. apply occurs_join.
  - cbn [occurs]. rewrite orb_false_r. apply Ascii.eqb_neq. congruence.
  - apply fields_no; [exact Hc | exact fields_field].
Qed.

Lemma fields_nonempty : fields <> [].
Proof. unfold fields. destruct names, pad; discriminate. Qed.

Lemma blame_reviewer_fields :
  get_blame_reviewer (blame_text rev names pad date rest lineno code)
  = Ok (join " " names).
Proof.
  unfold get_blame_reviewer, blame_text. fold fields.
  replace (rev ++ " (" ++ join " " fields ++ ") " ++ code)%string
    with ((rev ++ " ") ++ String "(" (join " " fields ++ ") " ++ code))%string by str_eq.
  rewrite split_app by (occ_norm; rewrite rev_open; reflexivity).
  rewrite split_app_absent by (apply inside_no; [reflexivity | discriminate]).
  cbn [item nth_error bind].
  replace (") " ++ code)%string with (String ")" (" " ++ code)) by reflexivity.
  rewrite split_hd_cons by reflexivity.
  rewrite split_app by (apply inside_no; [reflexivity | discriminate]).
  cbn [item nth_error bind].
  rewrite split_join.
  2: exact fields_nonempty.
  2: apply fields_no; [reflexivity | exact fields_field].
  unfold fields. rewrite reviewer_name_parts_names by assumption.
  rewrite strip_join_padded by assumption. reflexivity.
Qed.

Lemma blame_code_line_fields :
  get_blame_code_line (blame_text rev names pad date rest lineno code)
  = Ok (BlameLine lineno code).
Proof.
  unfold get_blame_code_line, blame_text. fold fields.
  replace (rev ++ " (" ++ join " " fields ++ ") " ++ code)%string
    with ((rev ++ " (" ++ join " " fields) ++ String ")" (" " ++ code))%string by str_eq.
  rewrite split_once_app.
  2:{ occ_norm. rewrite rev_close, inside_no by (reflexivity || discriminate). reflexivity. }
  cbn [tail append]. f_equal. f_equal.
  unfold fields. set (before := (names ++ List.repeat "" pad ++ date :: rest)%list).
  replace (names ++ List.repeat "" pad ++ date :: rest ++ [lineno])%list
    with (before ++ [lineno])%list
    by (unfold before; rewrite <- !app_assoc; reflexivity).
  rewrite join_snoc by (unfold before; destruct names, pad; discriminate).
  transitivity
    (rpartition_tail " " ((rev ++ " (" ++ join " " before) ++ String " " lineno)).
  - f_equal. str_eq.
  - apply rpartition_tail_app. apply (field_no _ lineno_ok).
Qed.

End BlameLine.

(** C6.  On a blame line [<rev> (<names> <date> ... <lineno>) <code>],
    whose name words hold no white space and are not dates, the author is
    the words before the first date joined with single blanks, the line
    number is the last field before the closing parenthesis, and the code
    is what follows the parenthesis and one blank.  Blanks that pad the
    names ([pad]) or the line number (empty fields in [rest]) change
    nothing. *)
Theorem C6_blame_line_fields (rev : string) (names : list string) (pad : nat)
  (date : string) (rest : list string) (lineno code : string) :
  Py.occurs "(" rev = false -> Py.occurs ")" rev = false ->
  Forall name_word names ->
  is_date date = true ->
  Forall (fun w => Py.all_chars field_char w = true) rest ->
  Py.all_chars field_char lineno = true ->
  get_blame_reviewer (blame_text rev names pad date rest lineno code)
    = Ok (Py.join " " names)
  /\ get_blame_code_line (blame_text rev names pad date rest lineno code)
    = Ok (BlameLine lineno code).
Proof.
  intros. split.
  - apply blame_reviewer_fields; assumption.
  - apply blame_code_line_fields; assumption.
Qed.

Lemma C6_blame_line_fields_witness :
  get_blame_reviewer "6f3e9a1 (Jane Doe 2023-5-1 42) some code" = Ok "Jane Doe"
  /\ get_blame_code_line "6f3e9a1 (Jane Doe 2023-5-1 42) some code"
     = Ok (BlameLine "42" "some code").
Proof.
  apply (@C6_blame_line_fields "6f3e9a1" ["Jane"; "Doe"] 0 "2023-5-1" [] "42"
           "some code").
  - reflexivity.
  - reflexivity.
  - repeat constructor; discriminate.
  - reflexivity.
  - constructor.
  - reflexivity.
Defined.

(** ** Dictionaries *)

Module DictFacts.

Section WithValue.

Variable V : Type.

Implicit Types (d : Dict.t V) (k : string) (v : V).

Lemma get_set_same k v d : Dict.get k (Dict.set k v d) = Some v.
Proof.
  induction d as [|[k' v'] d IH]; simpl.
  - rewrite String.eqb_refl. reflexivity.
  - destruct (String.eqb k k') eqn:E; simpl; rewrite E; [reflexivity | exact IH].
Qed.

Lemma get_set_other k k' v d :
  k <> k' -> Dict.get k (Dict.set k' v d) = Dict.get k d.
Proof.
  intros Hne. induction d as [|[k0 v0] d IH]; simpl.
  - apply String.eqb_neq in Hne. rewrite Hne. reflexivity.
  - destruct (String.eqb k' k0) eqn:E; simpl.
    + apply String.eqb_eq in E. subst k0. apply String.eqb_neq in Hne.
      rewrite Hne. reflexivity.
    + rewrite IH. reflexivity.
Qed.

Lemma get_in k v d : Dict.get k d = Some v -> In (k, v) d.
Proof.
  induction d as [|[k' v'] d IH]; simpl; intros H; [discriminate|].
  destruct (String.eqb k k') eqn:E.
  - apply String.eqb_eq in E. inversion H; subst. left; reflexivity.
  - right. apply IH; exact H.
Qed.

Lemma in_get k v d : In (k, v) d -> exists v', Dict.get k d = Some v'.
Proof.
  induction d as [|[k' v'] d IH]; simpl; intros H; [contradiction|].
  destruct (String.eqb k k') eqn:E; [eauto|].
  destruct H as [H|H]; [|apply IH; exact H].
  inversion H; subst. rewrite String.eqb_refl in E. discriminate.
Qed.

Lemma set_absent k v d : Dict.get k d = None -> Dict.set k v d = (d ++ [(k, v)])%list.
Proof.
  induction d as [|[k' v'] d IH]; simpl; intros H; [reflexivity|].
  destruct (String.eqb k k'); [discriminate|]. rewrite (IH H). reflexivity.
Qed.

Lemma set_last k v v0 d :
  Dict.get k d = None -> Dict.set k v (d ++ [(k, v0)])%list = (d ++ [(k, v)])%list.
Proof.
  induction d as [|[k' v'] d IH]; simpl; intros H.
  - rewrite String.eqb_refl. reflexivity.
  - destruct (String.eqb k k'); [discriminate|]. rewrite (IH H). reflexivity.
Qed.

Lemma Forall_set (P : string * V -> Prop) k v d :
  Forall P d -> P (k, v) -> Forall P (Dict.set k v d).
Proof.
  intros Hd Hk. induction Hd as [|[k' v'] d Hx Hd IH]; simpl.
  - constructor; [exact Hk | constructor].
  - destruct (String.eqb k k') eqn:E.
    + apply String.eqb_eq in E. subst k'. constructor; assumption.
    + constructor; assumption.
Qed.

End WithValue.

End DictFacts.

(** ** Blame correlation never fails on a line *)

Section BlameStep.

Import Py PyFacts.

Lemma split1_occurs c s :
  occurs c s = true -> exists y ys, snd (split1 c s) = y :: ys.
Proof.
  induction s as [|a s IH]; simpl; intros H; [discriminate|].
  destruct (split1 c s) as [cur rest] eqn:E.
  destruct (Ascii.eqb a c); simpl in *; [eauto | apply IH; exact H].
Qed.

Lemma blame_code_line_ok line :
  contains ")" line = true -> exists cl, get_blame_code_line line = Ok cl.
Proof.
  rewrite contains_str1. intros H. unfold get_blame_code_line.
  destruct (split_once_some _ _ H) as (l & r & ->). eauto.
Qed.

Lemma blame_reviewer_ok line :
  contains "(" line = true -> exists r, get_blame_reviewer line = Ok r.
Proof.
  rewrite contains_str1. intros H. unfold get_blame_reviewer.
  rewrite split_str1. destruct (split1_occurs _ _ H) as (y & ys & ->).
  cbn [item nth_error bind]. rewrite split_str1. cbn [item nth_error bind]. eauto.
Qed.

Lemma blame_line_step_skip rs line :
  contains "(" line = false \/ contains ")" line = false ->
  blame_line_step rs line = Ok rs.
Proof.
  intros [H|H]; unfold blame_line_step; rewrite H; simpl;
    rewrite ?orb_true_r; reflexivity.
Qed.

Lemma blame_line_step_ok rs line : exists rs', blame_line_step rs line = Ok rs'.
Proof.
  unfold blame_line_step.
  destruct (contains "(" line) eqn:Ho; [|simpl; eauto].
  destruct (contains ")" line) eqn:Hc; [|simpl; eauto].
  cbn [negb orb].
  destruct (blame_code_line_ok _ Hc) as (cl & ->).
  destruct (blame_reviewer_ok _ Ho) as (r & ->). cbn [bind].
  unfold Dict.mem. destruct (Dict.get r rs) as [ls|] eqn:E; cbn [negb].
  - rewrite E. cbn [getitem bind]. eauto.
  - rewrite DictFacts.get_set_same. cbn [getitem bind]. eauto.
Qed.

(** Blame correlation never raises on the output of a blame. *)
Lemma blame_lines_ok blame_info rs :
  exists rs', for_each blame_line_step blame_info rs = Ok rs'.
Proof. apply for_each_total. apply blame_line_step_ok. Qed.

End BlameStep.

(** C10.  A blame line that lacks ["("] or lacks [")"] is skipped and
    leaves the attributions as they are; a line that has both is one on
    which the split at the first [")"] and the indexing after the first
    ["("] succeed, so the step of blame correlation never raises. *)
Theorem C10_blame_line_guard (rs : Dict.t (list blame_line)) (line : string) :
  (Py.contains "(" line = false \/ Py.contains ")" line = false ->
   blame_line_step rs line = Ok rs)
  /\ (Py.contains "(" line = true -> Py.contains ")" line = true ->
      (exists prefix code_line, Py.split_once ")" line = Some (prefix, code_line))
      /\ (exists after_open, Py.item (Py.split "(" line) 1 = Ok after_open)
      /\ (exists cl, get_blame_code_line line = Ok cl)
      /\ (exists r, get_blame_reviewer line = Ok r))
  /\ (exists rs', blame_line_step rs line = Ok rs').
Proof.
  split; [apply blame_line_step_skip|]. split; [|apply blame_line_step_ok].
  intros Ho Hc. split; [|split; [|split]].
  - apply PyFacts.split_once_some. rewrite <- PyFacts.contains_str1. exact Hc.
  - rewrite PyFacts.contains_str1 in Ho. rewrite PyFacts.split_str1.
    destruct (split1_occurs _ _ Ho) as (y & ys & ->). exists y. reflexivity.
  - apply blame_code_line_ok; exact Hc.
  - apply blame_reviewer_ok; exact Ho.
Qed.

Lemma C10_blame_line_guard_witness :
  blame_line_step [("Jane", [BlameLine "1" "x"])] "6f3e9a1 (Jane 2023-5-1 7 y"
  = Ok [("Jane", [BlameLine "1" "x"])]
  /\ (exists r, get_blame_reviewer ") (" = Ok r).
Proof.
  split.
  - apply (proj1 (C10_blame_line_guard [("Jane", [BlameLine "1" "x"])]
                    "6f3e9a1 (Jane 2023-5-1 7 y")).
    right. reflexivity.
  - apply (proj1 (proj2 (C10_blame_line_guard [] ") ("))); reflexivity.
Defined.

(** ** The pipeline of one file *)

Section Pipeline.

Variable check_output : list string -> result string.

Lemma read_diff_raw_line_fresh ln info :
  read_diff_raw_line ln = Ok info ->
  line info = ln /\ chunks info = [] /\ reviewers info = [].
Proof.
  unfold read_diff_raw_line. intros H. inv_bind H.
  destruct (String.eqb x "").
  - inversion H; subst. auto.
  - destruct (Py.split " " x) as [|a [|b [|c [|d [|e [|? ?]]]]]]; try discriminate.
    inv_bind H. inv_bind H. inversion H; subst. auto.
Qed.

Lemma code_chunks_keeps info branch info' :
  get_code_chunks check_output info branch = Ok info' ->
  line info' = line info /\ type info' = type info
  /\ reviewers info' = reviewers info.
Proof.
  unfold get_code_chunks. intros H. do 3 inv_bind H. inversion H; subst. auto.
Qed.

Lemma blame_data_keeps info branch info' :
  get_blame_data check_output info branch = Ok info' ->
  line info' = line info /\ type info' = type info.
Proof.
  unfold get_blame_data. intros H. inv_bind H. inversion H; subst. auto.
Qed.

(** What a step of blame correlation does to the reviewers: nothing, a
    new reviewer with one line, or one more line for a known reviewer. *)
Lemma blame_line_step_cases rs ln rs' :
  blame_line_step rs ln = Ok rs' ->
  rs' = rs
  \/ exists r cl,
      (Dict.get r rs = None /\ rs' = (rs ++ [(r, [cl])])%list)
      \/ (exists ls, Dict.get r rs = Some ls /\ rs' = Dict.set r (ls ++ [cl])%list rs).
Proof.
  unfold blame_line_step. intros H.
  destruct (negb (Py.contains "(" ln) || negb (Py.contains ")" ln)).
  - inversion H; subst; left; reflexivity.
  - right. do 2 inv_bind H. exists x0, x. unfold Dict.mem in H.
    destruct (Dict.get x0 rs) as [ls|] eqn:G; cbn [negb] in H.
    + rewrite G in H. cbn [getitem bind] in H. inversion H; subst. right. eauto.
    + rewrite DictFacts.get_set_same in H. cbn [getitem bind] in H.
      inversion H; subst. left. split; [reflexivity|].
      rewrite (DictFacts.set_absent _ _ _ G). apply DictFacts.set_last. exact G.
Qed.

(** Blame correlation only ever adds a line to a reviewer. *)
Lemma blame_line_step_attributed rs ln rs' :
  Forall (fun entry : string * list blame_line => snd entry <> []) rs ->
  blame_line_step rs ln = Ok rs' ->
  Forall (fun entry : string * list blame_line => snd entry <> []) rs'.
Proof.
  intros Hrs H. apply blame_line_step_cases in H.
  destruct H as [->|(r & cl & [[_ ->]|(ls & _ & ->)])].
  - exact Hrs.
  - apply Forall_app. split; [exact Hrs|]. repeat constructor. discriminate.
  - apply DictFacts.Forall_set; [exact Hrs|].
    simpl. destruct ls; discriminate.
Qed.

Lemma blame_data_attributed info branch info' :
  attributed info -> get_blame_data check_output info branch = Ok info' ->
  attributed info'.
Proof.
  unfold get_blame_data, attributed. intros Ha H. inv_bind H.
  inversion H; subst. cbn [reviewers set_reviewers].
  revert E. apply for_each_inv; [|exact Ha].
  intros rs c rs' Hrs Hc. do 2 inv_bind Hc.
  revert Hc. apply for_each_inv; [|exact Hrs].
  intros rs1 ln rs2. apply blame_line_step_attributed.
Qed.

(** What [get_file_reviewers] returns: the parsed record itself when it is
    an added file or has no status, and else the parsed record taken
    through chunk extraction and blame correlation. *)
Lemma file_reviewers_cases ln branch info :
  get_file_reviewers check_output ln branch = Ok info ->
  exists parsed,
    read_diff_raw_line ln = Ok parsed
    /\ ((added_or_untyped parsed = true /\ info = parsed)
        \/ (added_or_untyped parsed = false
            /\ (chunked <- get_code_chunks check_output parsed branch ;;
                get_blame_data check_output chunked branch) = Ok info)).
Proof.
  unfold get_file_reviewers. intros H. inv_bind H. exists x. split; [exact E|].
  destruct (added_or_untyped x).
  - left. inversion H; subst. auto.
  - right. auto.
Qed.

Lemma file_reviewers_keeps ln branch info :
  get_file_reviewers check_output ln branch = Ok info ->
  line info = ln /\ attributed info
  /\ exists parsed, read_diff_raw_line ln = Ok parsed /\ type info = type parsed.
Proof.
  intros H. destruct (file_reviewers_cases _ _ H) as (parsed & Hp & Hcases).
  destruct (read_diff_raw_line_fresh _ Hp) as (Hl & Hc & Hr).
  destruct Hcases as [[_ ->]|[_ Hrun]].
  - split; [exact Hl|]. split; [|eauto]. unfold attributed. rewrite Hr. constructor.
  - inv_bind Hrun.
    destruct (code_chunks_keeps _ _ E) as (Hl1 & Ht1 & Hr1).
    destruct (blame_data_keeps _ _ Hrun) as (Hl2 & Ht2).
    split; [congruence|]. split.
    + eapply blame_data_attributed; [|exact Hrun].
      unfold attributed. rewrite Hr1, Hr. constructor.
    + exists parsed. split; [exact Hp | congruence].
Qed.

(** The records kept by the loop of [get_reviewers] are the results of
    [get_file_reviewers] that carry a status, each printed once. *)
Lemma collect_diff_infos_inv raw branch infos display :
  collect_diff_infos check_output raw branch = Ok (infos, display) ->
  Forall (fun info =>
            In (line info) raw
            /\ get_file_reviewers check_output (line info) branch = Ok info
            /\ exists t, type info = Some t) infos
  /\ Forall2 (fun info shown =>
                exists t, type info = Some t /\ shown = (color_of t, line info))
       infos display.
Proof.
  unfold collect_diff_infos.
  set (body := fun (st : list diff_info * list (color * string)) diff => _).
  assert (G : forall todo st st',
             (forall diff, In diff todo -> In diff raw) ->
             for_each body todo st = Ok st' ->
             (Forall (fun info =>
                        In (line info) raw
                        /\ get_file_reviewers check_output (line info) branch = Ok info
                        /\ exists t, type info = Some t) (fst st)
              /\ Forall2 (fun info shown =>
                            exists t, type info = Some t
                                      /\ shown = (color_of t, line info))
                   (fst st) (snd st)) ->
             (Forall (fun info =>
                        In (line info) raw
                        /\ get_file_reviewers check_output (line info) branch = Ok info
                        /\ exists t, type info = Some t) (fst st')
              /\ Forall2 (fun info shown =>
                            exists t, type info = Some t
                                      /\ shown = (color_of t, line info))
                   (fst st') (snd st'))).
  { induction todo as [|diff todo IH]; intros st st' Hsub H Hst.
    - inversion H; subst; exact Hst.
    - cbn [for_each] in H. inv_bind H. apply (IH x st'); auto using in_cons.
      clear IH H. unfold body in E. inv_bind E.
      destruct (file_reviewers_keeps _ _ E0) as (Hl & _ & _).
      destruct (type x0) as [t|] eqn:Ht.
      + inversion E; subst x. clear E. cbn [fst snd]. destruct Hst as [H1 H2]. split.
        * apply Forall_app. split; [exact H1|]. constructor; [|constructor].
          rewrite Hl. split; [apply Hsub; left; reflexivity|]. split; [exact E0|eauto].
        * apply Forall2_app; [exact H2|]. constructor; [|constructor].
          exists t. split; [exact Ht|]. unfold color_of. rewrite Hl. reflexivity.
      + inversion E; subst; exact Hst. }
  intros H. apply (G raw ([], []) (infos, display)); auto.
Qed.

End Pipeline.

(** C4.  A raw diff line whose record has status [A] comes out of
    [get_file_reviewers] as parsed, without any call of [git], and the
    record that [get_file_reviewers] returns for an added file has no
    chunks and no reviewers. *)
Theorem C4_added_records_stay_empty (check_output : list string -> result string)
  (ln branch : string) (info : diff_info) :
  (read_diff_raw_line ln = Ok info -> type info = Some "A" ->
   get_file_reviewers check_output ln branch = Ok info)
  /\ (get_file_reviewers check_output ln branch = Ok info -> type info = Some "A" ->
      chunks info = [] /\ reviewers info = []).
Proof.
  split.
  - intros Hp Ht. unfold get_file_reviewers. rewrite Hp. cbn [bind].
    unfold added_or_untyped. rewrite Ht. reflexivity.
  - intros H Ht. destruct (file_reviewers_cases _ _ _ H) as (parsed & Hp & Hcases).
    destruct (read_diff_raw_line_fresh _ Hp) as (_ & Hc & Hr).
    destruct Hcases as [[_ ->]|[Hna Hrun]]; [auto|].
    exfalso. inv_bind Hrun.
    destruct (code_chunks_keeps _ _ _ E) as (_ & Ht1 & _).
    destruct (blame_data_keeps _ _ _ Hrun) as (_ & Ht2).
    unfold added_or_untyped in Hna. rewrite <- Ht1, <- Ht2, Ht in Hna. discriminate.
Qed.

(** ** The running totals of [get_total_reviewers] *)

Module TotalFacts.

Import DictFacts.

Local Open Scope Z_scope.
Local Open Scope list_scope.

Lemma lines_in_nonneg a rs : 0 <= lines_in a rs.
Proof.
  induction rs as [|[k ls] rs IH]; simpl; [lia|]. destruct (String.eqb k a); lia.
Qed.

Lemma included_in_nonneg u rs : 0 <= included_in u rs.
Proof.
  induction rs as [|[k ls] rs IH]; simpl; [lia|].
  destruct (String.eqb (Py.strip u) k); lia.
Qed.

(** The nested loops run over the reviewers of all files in turn. *)
Lemma totals_flat (u : string) (infos : list diff_info) (acc : Dict.t Z) :
  fold_left (fun acc info => fold_left (total_step u) (reviewers info) acc) infos acc
  = fold_left (total_step u) (flat_map reviewers infos) acc.
Proof.
  revert acc. induction infos as [|info infos IH]; intros acc; simpl.
  - reflexivity.
  - rewrite fold_left_app. apply IH.
Qed.

(** One step of the inner loop, by cases. *)
Lemma total_step_cases u acc k ls :
  total_step u acc (k, ls) =
  if String.eqb (Py.strip u) k then acc
  else match Dict.get k acc with
       | Some n => Dict.set k (n + Z.of_nat (List.length ls)) acc
       | None => (acc ++ [(k, Z.of_nat (List.length ls))])%list
       end.
Proof.
  unfold total_step. destruct (String.eqb (Py.strip u) k); [reflexivity|].
  unfold Dict.mem. destruct (Dict.get k acc) as [n|] eqn:G; cbn [negb].
  - rewrite G. reflexivity.
  - rewrite get_set_same. rewrite (set_absent _ _ _ G).
    rewrite set_last by exact G. reflexivity.
Qed.

Lemma get_app_absent (V : Type) k k' (v : V) d :
  Dict.get k (d ++ [(k', v)]) =
  match Dict.get k d with
  | Some x => Some x
  | None => if String.eqb k k' then Some v else None
  end.
Proof.
  induction d as [|[k0 v0] d IH]; simpl.
  - reflexivity.
  - destruct (String.eqb k k0); [reflexivity | exact IH].
Qed.

(** The total of an author after the loop. *)
Lemma get_totals u a items : forall acc,
  Dict.get a (fold_left (total_step u) items acc) =
  if String.eqb (Py.strip u) a then Dict.get a acc
  else match Dict.get a acc with
       | Some n => Some (n + lines_in a items)
       | None => if Dict.mem a items then Some (lines_in a items) else None
       end.
Proof.
  induction items as [|[k ls] items IH]; intros acc.
  - simpl. destruct (String.eqb (Py.strip u) a); [reflexivity|].
    destruct (Dict.get a acc); [f_equal; lia | reflexivity].
  - cbn [fold_left]. rewrite IH. rewrite total_step_cases.
    destruct (String.eqb (Py.strip u) a) eqn:Eu.
    + apply String.eqb_eq in Eu.
      destruct (String.eqb (Py.strip u) k) eqn:Ek; [reflexivity|].
      assert (Hak : a <> k) by (intros ->; rewrite Eu, String.eqb_refl in Ek; discriminate).
      destruct (Dict.get k acc) as [n|].
      * apply get_set_other; exact Hak.
      * rewrite get_app_absent. apply String.eqb_neq in Hak. rewrite Hak.
        destruct (Dict.get a acc); reflexivity.
    + unfold Dict.mem. cbn [Dict.get lines_in].
      destruct (String.eqb (Py.strip u) k) eqn:Ek.
      * apply String.eqb_eq in Ek.
        assert (Hak : String.eqb a k = false)
          by (apply String.eqb_neq; intros ->; rewrite Ek, String.eqb_refl in Eu; discriminate).
        rewrite Hak. rewrite String.eqb_sym, Hak. reflexivity.
      * destruct (String.eqb a k) eqn:Hak.
        -- apply String.eqb_eq in Hak. subst k. rewrite String.eqb_refl.
           destruct (Dict.get a acc) as [n|] eqn:G.
           ++ rewrite get_set_same. f_equal; lia.
           ++ rewrite get_app_absent, G, String.eqb_refl. f_equal; lia.
        -- rewrite String.eqb_sym, Hak.
           assert (Hne : a <> k) by (apply String.eqb_neq; exact Hak).
           destruct (Dict.get k acc) as [n|].
           ++ rewrite get_set_other by exact Hne. reflexivity.
           ++ rewrite get_app_absent, Hak. destruct (Dict.get a acc); reflexivity.
Qed.

(** *** Keys stay unique *)

Lemma keys_set (V : Type) k (v : V) d :
  Dict.keys (Dict.set k v d) =
  if Dict.mem k d then Dict.keys d else (Dict.keys d ++ [k])%list.
Proof.
  unfold Dict.mem. induction d as [|[k' v'] d IH]; simpl; [reflexivity|].
  destruct (String.eqb k k'); simpl; [reflexivity|].
  rewrite IH. destruct (Dict.get k d); reflexivity.
Qed.

Lemma get_none_keys (V : Type) k (d : Dict.t V) :
  Dict.get k d = None -> ~ In k (Dict.keys d).
Proof.
  induction d as [|[k' v'] d IH]; simpl; intros H; [tauto|].
  destruct (String.eqb k k') eqn:E; [discriminate|].
  apply String.eqb_neq in E. intros [->|Hin]; [congruence | exact (IH H Hin)].
Qed.

Lemma nodup_snoc (A : Type) (x : A) l : NoDup l -> ~ In x l -> NoDup (l ++ [x]).
Proof.
  intros Hl Hx. induction Hl as [|y l Hy Hl IH]; simpl.
  - constructor; [tauto | constructor].
  - constructor.
    + rewrite in_app_iff. simpl. intros [H|[->|[]]]; [tauto|].
      apply Hx. left; reflexivity.
    + apply IH. intros H. apply Hx. right; exact H.
Qed.

Lemma total_step_nodup u acc entry :
  NoDup (Dict.keys acc) -> NoDup (Dict.keys (total_step u acc entry)).
Proof.
  destruct entry as [k ls]. intros H. rewrite total_step_cases.
  destruct (String.eqb (Py.strip u) k); [exact H|].
  destruct (Dict.get k acc) as [n|] eqn:G.
  - rewrite keys_set. unfold Dict.mem. rewrite G. exact H.
  - unfold Dict.keys. rewrite map_app. apply nodup_snoc; [exact H|].
    apply get_none_keys; exact G.
Qed.

Lemma totals_nodup u items : forall acc,
  NoDup (Dict.keys acc) -> NoDup (Dict.keys (fold_left (total_step u) items acc)).
Proof.
  induction items as [|e items IH]; intros acc H; simpl; [exact H|].
  apply IH, total_step_nodup, H.
Qed.

Lemma in_get_nodup (V : Type) k (v : V) d :
  NoDup (Dict.keys d) -> In (k, v) d -> Dict.get k d = Some v.
Proof.
  induction d as [|[k' v'] d IH]; simpl; intros Hnd Hin; [contradiction|].
  inversion Hnd as [|? ? Hk Hd]; subst.
  destruct Hin as [Heq|Hin].
  - inversion Heq; subst. rewrite String.eqb_refl. reflexivity.
  - destruct (String.eqb k k') eqn:E; [|apply IH; assumption].
    apply String.eqb_eq in E. subst k'. exfalso. apply Hk.
    change k with (fst (k, v)). apply in_map. exact Hin.
Qed.

(** *** The stable descending sort *)

Lemma insert_desc_perm x l : Permutation (insert_desc x l) (x :: l).
Proof.
  induction l as [|y l IH]; simpl; [reflexivity|].
  destruct (snd y <=? snd x); [reflexivity|].
  rewrite IH. apply perm_swap.
Qed.

Lemma sorted_desc_perm l : Permutation (sorted_desc l) l.
Proof.
  induction l as [|x l IH]; simpl; [reflexivity|].
  rewrite insert_desc_perm. constructor. exact IH.
Qed.

Lemma insert_desc_sorted x l :
  StronglySorted desc l -> StronglySorted desc (insert_desc x l).
Proof.
  induction 1 as [|y l Hl IH Hy]; simpl.
  - repeat constructor.
  - destruct (snd y <=? snd x) eqn:E.
    + apply Z.leb_le in E. constructor; [constructor; assumption|].
      constructor; [exact E|].
      eapply Forall_impl; [|exact Hy]. unfold desc. intros z Hz. lia.
    + apply Z.leb_gt in E. constructor; [exact IH|].
      rewrite insert_desc_perm. constructor; [unfold desc; lia | exact Hy].
Qed.

Lemma sorted_desc_sorted l : StronglySorted desc (sorted_desc l).
Proof.
  induction l as [|x l IH]; simpl; [constructor | apply insert_desc_sorted, IH].
Qed.

Lemma sum_lines_from (rows : list (string * Z)) : forall acc,
  fold_left (fun acc row => acc + snd row) rows acc
  = acc + fold_right (fun row acc => snd row + acc) 0 rows.
Proof.
  induction rows as [|r rows IH]; intros acc; simpl; [lia|]. rewrite IH. lia.
Qed.

Lemma sum_lines_right (rows : list (string * Z)) :
  sum_lines rows = fold_right (fun row acc => snd row + acc) 0 rows.
Proof. unfold sum_lines. rewrite sum_lines_from. lia. Qed.

End TotalFacts.

(** ** The ranking *)

Module RankFacts.

Import DictFacts TotalFacts.

Local Open Scope Z_scope.
Local Open Scope list_scope.

Lemma ranking_loop (total : Z) (rows : list (string * Z)) :
  forall done ranking,
    for_each
      (fun done row =>
         p <- percent (snd row) total ;;
         Ok (done ++ [Ranked (fst row) (snd row) p]))
      rows done = Ok ranking ->
    map row_of ranking = map row_of done ++ rows
    /\ (Forall (fun r => percent (r_lines r) total = Ok (r_percent r)) done ->
        Forall (fun r => percent (r_lines r) total = Ok (r_percent r)) ranking).
Proof.
  induction rows as [|[name n] rows IH]; intros done ranking H.
  - inversion H; subst. rewrite app_nil_r. auto.
  - cbn [for_each] in H. inv_bind H. inv_bind E. inversion E; subst x. clear E.
    destruct (IH _ _ H) as [Hrows Hpct]. split.
    + rewrite Hrows, map_app. cbn [map row_of r_name r_lines fst snd].
      rewrite <- app_assoc. reflexivity.
    + intros Hdone. apply Hpct. apply Forall_app. split; [exact Hdone|].
      constructor; [|constructor]. exact E0.
Qed.

(** The rows of the ranking are the sorted totals, each with its share of
    the sum of the counts. *)
Lemma total_reviewers_for_rows u infos ranking :
  total_reviewers_for u infos = Ok ranking ->
  map row_of ranking
  = sorted_desc (fold_left (total_step u) (flat_map reviewers infos) [])
  /\ Forall (fun r => percent (r_lines r) (sum_lines (map row_of ranking))
                      = Ok (r_percent r)) ranking.
Proof.
  unfold total_reviewers_for. rewrite totals_flat. intros H.
  destruct (ranking_loop _ _ _ H) as [Hrows Hpct]. cbn [map app] in Hrows.
  split; [exact Hrows|]. rewrite Hrows. apply Hpct. constructor.
Qed.

Lemma names_of_rows ranking : map r_name ranking = map fst (map row_of ranking).
Proof. rewrite map_map. reflexivity. Qed.

(** An author is ranked with a count exactly when the totals hold it. *)
Lemma ranked_iff u infos ranking name n :
  total_reviewers_for u infos = Ok ranking ->
  (In (name, n) (map row_of ranking) <->
   String.eqb (Py.strip u) name = false
   /\ blamed name infos = true /\ n = lines_blamed name infos).
Proof.
  intros H. destruct (total_reviewers_for_rows _ _ H) as [Hrows _].
  set (totals := fold_left (total_step u) (flat_map reviewers infos) []) in *.
  assert (Hnd : NoDup (Dict.keys totals)) by (apply totals_nodup; constructor).
  assert (Hget : Dict.get name totals =
                 if String.eqb (Py.strip u) name then None
                 else if blamed name infos then Some (lines_blamed name infos) else None).
  { unfold totals. rewrite get_totals. reflexivity. }
  rewrite Hrows. split.
  - intros Hin. apply (Permutation_in _ (sorted_desc_perm totals)) in Hin.
    apply (in_get_nodup _ _ _ Hnd) in Hin. rewrite Hget in Hin.
    destruct (String.eqb (Py.strip u) name); [discriminate|].
    destruct (blamed name infos); [|discriminate]. inversion Hin. auto.
  - intros (Hu & Hb & ->). rewrite Hu, Hb in Hget.
    apply (Permutation_in _ (Permutation_sym (sorted_desc_perm totals))).
    apply get_in. exact Hget.
Qed.

Lemma StronglySorted_map (A B : Type) (f : A -> B) (R : B -> B -> Prop) l :
  StronglySorted R (map f l) -> StronglySorted (fun x y => R (f x) (f y)) l.
Proof.
  induction l as [|x l IH]; simpl; intros H; [constructor|].
  inversion H as [|? ? Hl Hx]; subst. constructor; [apply IH; exact Hl|].
  rewrite Forall_map in Hx. exact Hx.
Qed.

Lemma ranking_sorted u infos ranking :
  total_reviewers_for u infos = Ok ranking ->
  StronglySorted (fun x y => r_lines y <= r_lines x) ranking.
Proof.
  intros H. destruct (total_reviewers_for_rows _ _ H) as [Hrows _].
  apply (@StronglySorted_map _ _ row_of desc). rewrite Hrows. apply sorted_desc_sorted.
Qed.

Lemma ranking_nodup u infos ranking :
  total_reviewers_for u infos = Ok ranking -> NoDup (map r_name ranking).
Proof.
  intros H. destruct (total_reviewers_for_rows _ _ H) as [Hrows _].
  rewrite names_of_rows, Hrows.
  apply (Permutation_NoDup (l := Dict.keys (fold_left (total_step u) (flat_map reviewers infos) []))).
  - apply Permutation_map, Permutation_sym, sorted_desc_perm.
  - apply totals_nodup. constructor.
Qed.

End RankFacts.

(** What a ranking is, in terms of the lines blamed in the records. *)
Lemma ranking_properties (current_user : string) (infos : list diff_info)
  (ranking : list ranked) :
  total_reviewers_for current_user infos = Ok ranking ->
  (forall author,
      In author (map r_name ranking) <->
      author <> Py.strip current_user /\ blamed author infos = true)
  /\ NoDup (map r_name ranking)
  /\ (forall row, In row ranking ->
                  r_lines row = lines_blamed (r_name row) infos)
  /\ StronglySorted (fun x y => (r_lines y <= r_lines x)%Z) ranking
  /\ (forall row, In row ranking ->
                  percent (r_lines row) (sum_lines (map row_of ranking))
                  = Ok (r_percent row)).
Proof.
  intros H. rename current_user into u.
  destruct (RankFacts.total_reviewers_for_rows _ _ H) as [Hrows Hpct].
  split; [|split; [|split; [|split]]].
  - intros author. rewrite RankFacts.names_of_rows. split.
    + intros Hin. apply in_map_iff in Hin. destruct Hin as ([name n] & Hfst & Hin).
      simpl in Hfst. subst name.
      apply (RankFacts.ranked_iff _ _ _ _ H) in Hin. destruct Hin as (Hu & Hb & _).
      split; [|exact Hb]. intros ->. rewrite String.eqb_refl in Hu. discriminate.
    + intros (Hne & Hb).
      apply in_map_iff. exists (author, lines_blamed author infos). split; [reflexivity|].
      apply (RankFacts.ranked_iff _ _ _ _ H). split; [|auto].
      apply String.eqb_neq. congruence.
  - exact (RankFacts.ranking_nodup _ _ H).
  - intros row Hin.
    assert (Hrow : In (r_name row, r_lines row) (map row_of ranking))
      by (apply (in_map row_of) in Hin; exact Hin).
    apply (RankFacts.ranked_iff _ _ _ _ H) in Hrow. tauto.
  - exact (RankFacts.ranking_sorted _ _ H).
  - rewrite Forall_forall in Hpct. exact Hpct.
Qed.

(** C5.  The ranking leaves out the author whose name is the stripped name
    of the current user, and no other; it names each other blamed author
    once, with the number of lines blamed on them in all files, in
    descending order of that number, and with the percentage
    [round(lines / total * 100, 2)] of the sum of the listed counts.  For
    10 lines of alice, 5 of bob and 100 of the current user it is alice
    with 66.67 and bob with 33.33. *)
Theorem C5_ranking_excludes_user_sorts_and_shares :
  (forall (current_user : string) (infos : list diff_info) (ranking : list ranked),
      total_reviewers_for current_user infos = Ok ranking ->
      (forall author,
          In author (map r_name ranking) <->
          author <> Py.strip current_user /\ blamed author infos = true)
      /\ NoDup (map r_name ranking)
      /\ (forall row, In row ranking ->
                      r_lines row = lines_blamed (r_name row) infos)
      /\ StronglySorted (fun x y => (r_lines y <= r_lines x)%Z) ranking
      /\ (forall row, In row ranking ->
                      percent (r_lines row) (sum_lines (map row_of ranking))
                      = Ok (r_percent row)))
  /\ total_reviewers_for "currentUser"
       [modified_with [("alice", some_lines 10); ("bob", some_lines 5);
                       ("currentUser", some_lines 100)]]
     = Ok [Ranked "alice" 10 (Decimal.Dec 6667 (-2));
           Ranked "bob" 5 (Decimal.Dec 3333 (-2))].
Proof.
  split; [|vm_compute; reflexivity].
  intros u infos ranking H. exact (ranking_properties _ _ H).
Qed.

Lemma C5_ranking_excludes_user_sorts_and_shares_witness :
  (In "currentUser" ["alice"; "bob"] <->
   "currentUser" <> Py.strip "currentUser"
   /\ blamed "currentUser"
        [modified_with [("alice", some_lines 10); ("bob", some_lines 5);
                        ("currentUser", some_lines 100)]] = true)
  /\ NoDup ["alice"; "bob"]
  /\ StronglySorted (fun x y => (r_lines y <= r_lines x)%Z)
       [Ranked "alice" 10 (Decimal.Dec 6667 (-2));
        Ranked "bob" 5 (Decimal.Dec 3333 (-2))].
Proof.
  destruct (proj1 C5_ranking_excludes_user_sorts_and_shares "currentUser"
              [modified_with [("alice", some_lines 10); ("bob", some_lines 5);
                              ("currentUser", some_lines 100)]]
              [Ranked "alice" 10 (Decimal.Dec 6667 (-2));
               Ranked "bob" 5 (Decimal.Dec 3333 (-2))]
              ltac:(vm_compute; reflexivity)) as (H1 & H2 & _ & H4 & _).
  exact (conj (H1 "currentUser") (conj H2 H4)).
Defined.

(** ** Rankings of the records the pipeline collects *)

Section Collected.

Import TotalFacts.

Local Open Scope Z_scope.
Local Open Scope list_scope.

Variable check_output : list string -> result string.

Lemma collected_attributed raw branch infos display :
  collect_diff_infos check_output raw branch = Ok (infos, display) ->
  Forall (fun entry : string * list blame_line => snd entry <> [])
    (flat_map reviewers infos).
Proof.
  intros H. destruct (collect_diff_infos_inv _ _ _ H) as [Hinfos _].
  apply Forall_flat_map. eapply Forall_impl; [|exact Hinfos].
  intros info (_ & Hrun & _). apply (file_reviewers_keeps _ _ _ Hrun).
Qed.

(** Without lines of other authors the loop leaves the totals alone. *)
Lemma totals_unchanged u items : forall acc,
  Forall (fun entry : string * list blame_line => snd entry <> []) items ->
  included_in u items = 0 ->
  fold_left (total_step u) items acc = acc.
Proof.
  induction items as [|[k ls] items IH]; intros acc Hne H0; [reflexivity|].
  inversion Hne as [|? ? Hls Hrest]; subst. cbn [snd] in Hls.
  cbn [included_in] in H0. cbn [fold_left]. rewrite total_step_cases.
  pose proof (included_in_nonneg u items) as Hpos.
  destruct (String.eqb (Py.strip u) k).
  - apply IH; [exact Hrest | lia].
  - exfalso. destruct ls as [|l ls]; [congruence|]. cbn [List.length] in H0. lia.
Qed.


(** With every reviewer holding a line, a blamed author holds one. *)
Lemma lines_in_pos a rs :
  Forall (fun entry : string * list blame_line => snd entry <> []) rs ->
  Dict.mem a rs = true -> 1 <= lines_in a rs.
Proof.
  unfold Dict.mem. induction rs as [|[k ls] rs IH]; simpl; intros Hne H; [discriminate|].
  inversion Hne as [|? ? Hls Hrest]; subst. cbn [snd] in Hls.
  pose proof (lines_in_nonneg a rs). rewrite String.eqb_sym.
  destruct (String.eqb a k).
  - destruct ls; [congruence|]. cbn [List.length]. lia.
  - specialize (IH Hrest H). lia.
Qed.

End Collected.

(** C7.  When the records the pipeline collected hold no line of anyone
    but the current user, [get_total_reviewers] returns the empty ranking:
    no percentage is computed, so nothing is divided by zero. *)
Theorem C7_nothing_included_empty_ranking
  (check_output : list string -> result string) (raw : list string)
  (branch : string) (infos : list diff_info) (display : list (color * string))
  (current_user : string) :
  collect_diff_infos check_output raw branch = Ok (infos, display) ->
  get_git_user check_output = Ok current_user ->
  included_lines current_user infos = 0%Z ->
  get_total_reviewers check_output infos = Ok [].
Proof.
  intros Hc Hu H0. unfold get_total_reviewers. rewrite Hu. cbn [bind].
  unfold total_reviewers_for. rewrite TotalFacts.totals_flat.
  rewrite totals_unchanged; [reflexivity | | exact H0].
  eapply collected_attributed; exact Hc.
Qed.

Lemma C7_nothing_included_empty_ranking_witness :
  get_total_reviewers git_own_lines
    [{| line := raw_added; reviewers := []; chunks := [];
        parts := [":000000 100644 0000000 1234567 A"; "new.py"];
        raw_info := ":000000 100644 0000000 1234567 A";
        from_mode := Some ":000000"; to_mode := Some "100644";
        from_hash := Some "0000000"; to_hash := Some "1234567";
        type_info := Some "A"; type := Some "A"; file := Some "new.py";
        to_file := None |};
     {| line := raw_modified;
        reviewers := [("Jane Doe", [BlameLine "1" "old"; BlameLine "2" "older"])];
        chunks := [Chunk "1" "2"];
        parts := [":100644 100644 bcd1234 0123456 M"; "a.py"];
        raw_info := ":100644 100644 bcd1234 0123456 M";
        from_mode := Some ":100644"; to_mode := Some "100644";
        from_hash := Some "bcd1234"; to_hash := Some "0123456";
        type_info := Some "M"; type := Some "M"; file := Some "a.py";
        to_file := None |}]
  = Ok [].
Proof.
  apply (@C7_nothing_included_empty_ranking git_own_lines [raw_added; raw_modified]
           "master" _ [(GREEN, raw_added); (YELLOW, raw_modified)] "Jane Doe").
  - vm_compute. reflexivity.
  - vm_compute. reflexivity.
  - vm_compute. reflexivity.
Defined.




(** ** Contributor mode *)

Section Contributer.

Local Open Scope Z_scope.
Local Open Scope list_scope.

Variable check_output : list string -> result string.
Variable highlight : string -> string.

Lemma code_chunks_keeps_ids info branch info' :
  get_code_chunks check_output info branch = Ok info' ->
  from_hash info' = from_hash info /\ file info' = file info.
Proof.
  unfold get_code_chunks. intros H. do 3 inv_bind H. inversion H; subst. auto.
Qed.

Lemma blame_data_keeps_ids info branch info' :
  get_blame_data check_output info branch = Ok info' ->
  from_hash info' = from_hash info /\ file info' = file info.
Proof.
  unfold get_blame_data. intros H. inv_bind H. inversion H; subst. auto.
Qed.

Lemma read_diff_raw_line_ids ln info t :
  read_diff_raw_line ln = Ok info -> type info = Some t ->
  (exists h, from_hash info = Some h) /\ (exists f, file info = Some f).
Proof.
  unfold read_diff_raw_line. intros H Ht. inv_bind H.
  destruct (String.eqb x "").
  - inversion H; subst. discriminate Ht.
  - destruct (Py.split " " x) as [|a [|b [|c [|d [|e [|? ?]]]]]]; try discriminate.
    inv_bind H. inv_bind H. inversion H; subst. cbn. eauto.
Qed.

(** A collected record has the hash and the file name its header prints. *)
Lemma collected_ids raw branch infos display info :
  collect_diff_infos check_output raw branch = Ok (infos, display) ->
  In info infos ->
  (exists h, from_hash info = Some h) /\ (exists f, file info = Some f).
Proof.
  intros Hc Hin. destruct (collect_diff_infos_inv _ _ _ Hc) as [Hinfos _].
  rewrite Forall_forall in Hinfos. destruct (Hinfos _ Hin) as (_ & Hrun & t & Ht).
  destruct (file_reviewers_cases _ _ _ Hrun) as (parsed & Hp & Hcases).
  destruct Hcases as [[_ ->]|[_ Hpipe]].
  - eapply read_diff_raw_line_ids; eassumption.
  - inv_bind Hpipe.
    destruct (code_chunks_keeps _ _ _ E) as (_ & Ht1 & _).
    destruct (blame_data_keeps _ _ _ Hpipe) as (_ & Ht2).
    destruct (code_chunks_keeps_ids _ _ E) as (Hh1 & Hf1).
    destruct (blame_data_keeps_ids _ _ Hpipe) as (Hh2 & Hf2).
    rewrite Hh2, Hh1, Hf2, Hf1.
    apply read_diff_raw_line_ids with (ln := line info) (t := t); [exact Hp | congruence].
Qed.

(** The inner loop appends the lines in the order they are stored, with
    the gap marker where its test says so. *)
Lemma contributer_loop lines : forall output prev_line,
  Forall (fun l => exists n, PyInt.int (line_num l) = Ok n) lines ->
  exists last,
    for_each (contributer_line highlight) lines (output, prev_line)
    = Ok (output
          ++ appended prev_line
               (map (fun l => (number_of l, line_text highlight l)) lines),
          last).
Proof.
  induction lines as [|l lines IH]; intros output prev_line H.
  - exists prev_line. cbn. rewrite app_nil_r. reflexivity.
  - inversion H as [|? ? (n & Hn) Hrest]; subst.
    destruct (IH ((if gap_after prev_line n then output ++ GAP else output)
                    ++ [line_text highlight l]) (Some n) Hrest) as (last & Hlast).
    exists last. rewrite for_each_cons. unfold contributer_line at 1.
    rewrite Hn. cbn [bind]. fold (gap_after prev_line n).
    unfold line_text at 1 in Hlast. rewrite Hlast.
    assert (Hnum : number_of l = n) by (unfold number_of; rewrite Hn; reflexivity).
    f_equal. f_equal. cbn [map appended]. rewrite Hnum.
    destruct (gap_after prev_line n); rewrite <- ?app_assoc; reflexivity.
Qed.



End Contributer.



Lemma C4_added_records_stay_empty_witness :
  get_file_reviewers git_own_lines raw_added "master"
  = Ok {| line := raw_added; reviewers := []; chunks := [];
          parts := [":000000 100644 0000000 1234567 A"; "new.py"];
          raw_info := ":000000 100644 0000000 1234567 A";
          from_mode := Some ":000000"; to_mode := Some "100644";
          from_hash := Some "0000000"; to_hash := Some "1234567";
          type_info := Some "A"; type := Some "A"; file := Some "new.py";
          to_file := None |}.
Proof.
  apply (proj1 (C4_added_records_stay_empty git_own_lines raw_added "master" _)).
  - vm_compute. reflexivity.
  - reflexivity.
Defined.

(** ** Decimal arithmetic *)

Module DecimalFacts.

Import Decimal.

Local Open Scope Z_scope.

Lemma pow10_gt0 k : 0 <= k -> 0 < 10 ^ k.
Proof. intros. apply Z.pow_pos_nonneg; lia. Qed.

Lemma pow10_le a b : 0 <= a <= b -> 10 ^ a <= 10 ^ b.
Proof. intros. apply Z.pow_le_mono_r; lia. Qed.

Lemma pow10_split a b : 0 <= a -> 0 <= b -> 10 ^ (a + b) = 10 ^ a * 10 ^ b.
Proof. intros. apply Z.pow_add_r; assumption. Qed.

(** *** The number of digits *)

Lemma ndigits_go_spec fuel : forall n,
  0 <= n < 10 ^ (Z.of_nat fuel + 1) ->
  1 <= ndigits_go fuel n
  /\ n < 10 ^ ndigits_go fuel n
  /\ (1 <= n -> 10 ^ (ndigits_go fuel n - 1) <= n).
Proof.
  induction fuel as [|fuel IH]; intros n Hn.
  - cbn [ndigits_go]. change (Z.of_nat 0 + 1) with 1 in Hn.
    change (10 ^ 1) with 10 in *. change (10 ^ (1 - 1)) with 1. lia.
  - cbn [ndigits_go]. destruct (n <? 10) eqn:E.
    + apply Z.ltb_lt in E. change (10 ^ 1) with 10. change (10 ^ (1 - 1)) with 1. lia.
    + apply Z.ltb_ge in E.
      assert (Hdiv : 0 <= n / 10 < 10 ^ (Z.of_nat fuel + 1)).
      { split; [apply Z.div_pos; lia|].
        apply Z.div_lt_upper_bound; [lia|].
        replace (Z.of_nat (S fuel) + 1) with (1 + (Z.of_nat fuel + 1)) in Hn by lia.
        rewrite pow10_split in Hn by lia. change (10 ^ 1) with 10 in Hn. lia. }
      destruct (IH _ Hdiv) as (H1 & H2 & H3).
      assert (H10 : 1 <= n / 10) by (apply Z.div_le_lower_bound; lia).
      specialize (H3 H10).
      set (d := ndigits_go fuel (n / 10)) in *.
      pose proof (Z.div_mod n 10 ltac:(lia)) as Hdm.
      pose proof (Z.mod_pos_bound n 10 ltac:(lia)) as Hmod.
      split; [lia|]. split.
      * rewrite pow10_split by lia.
        change (10 ^ 1) with 10. lia.
      * intros _. replace (1 + d - 1) with (1 + (d - 1)) by lia.
        rewrite pow10_split by lia. change (10 ^ 1) with 10. lia.
Qed.

Lemma log2_fuel n : 0 <= n -> n < 10 ^ (Z.of_nat (Z.to_nat (Z.log2 n)) + 1).
Proof.
  intros Hn. rewrite Z2Nat.id by apply Z.log2_nonneg.
  destruct (Z.eq_dec n 0) as [->|Hne]; [reflexivity|].
  destruct (Z.log2_spec n ltac:(lia)) as [_ Hlt].
  eapply Z.lt_le_trans; [exact Hlt|].
  replace (Z.succ (Z.log2 n)) with (Z.log2 n + 1) by lia.
  apply Z.pow_le_mono_l. lia.
Qed.

(** [ndigits n] is the length of the decimal numeral of [n]. *)
Lemma ndigits_spec n :
  0 <= n ->
  1 <= ndigits n /\ n < 10 ^ ndigits n /\ (1 <= n -> 10 ^ (ndigits n - 1) <= n).
Proof.
  intros Hn. unfold ndigits. apply ndigits_go_spec. split; [exact Hn|].
  apply log2_fuel; exact Hn.
Qed.

Lemma ndigits_le n d : 0 <= n -> 1 <= d -> n < 10 ^ d -> ndigits n <= d.
Proof.
  intros Hn Hd Hlt. destruct (ndigits_spec Hn) as (H1 & _ & H3).
  destruct (Z.eq_dec n 0) as [->|Hne].
  - unfold ndigits. cbn. exact Hd.
  - specialize (H3 ltac:(lia)).
    destruct (Z_lt_le_dec d (ndigits n)) as [Hgt|]; [|assumption].
    exfalso. assert (10 ^ d <= 10 ^ (ndigits n - 1)) by (apply pow10_le; lia). lia.
Qed.

Lemma ndigits_mono a b : 0 <= a <= b -> ndigits a <= ndigits b.
Proof.
  intros H.
  assert (Hb : 0 <= b) by lia. destruct (ndigits_spec Hb) as (Hb1 & Hb2 & _).
  apply ndigits_le; lia.
Qed.

(** *** Rounding *)

Lemma round_half_even_spec n k :
  0 <= n -> 0 <= k ->
  0 <= round_half_even n k
  /\ 2 * Z.abs (round_half_even n k * 10 ^ k - n) <= 10 ^ k.
Proof.
  intros Hn Hk. unfold round_half_even.
  pose proof (pow10_gt0 Hk) as Hp.
  pose proof (Z.div_mod n (10 ^ k) ltac:(lia)) as Hdm.
  pose proof (Z.mod_pos_bound n (10 ^ k) Hp) as Hmod.
  assert (Hq : 0 <= n / 10 ^ k) by (apply Z.div_pos; lia).
  set (q := n / 10 ^ k) in *. set (r := n mod 10 ^ k) in *.
  set (p := 10 ^ k) in *. clearbody r q p.
  assert (Hdown : q * p - n = - r) by (subst n; ring).
  assert (Hup : (q + 1) * p - n = p - r) by (subst n; ring).
  destruct (Z.compare_spec (2 * r) p) as [E|E|E].
  - destruct (Z.even q); rewrite ?Hdown, ?Hup; lia.
  - rewrite Hdown. lia.
  - rewrite Hup. lia.
Qed.

Lemma pow10_lt_inv a b : 0 <= a -> 0 <= b -> 10 ^ a < 10 ^ b -> a < b.
Proof.
  intros Ha Hb H. destruct (Z_lt_le_dec a b) as [|Hle]; [assumption|].
  exfalso. assert (10 ^ b <= 10 ^ a) by (apply pow10_le; lia). lia.
Qed.

(** A decimal that fits the precision is left alone. *)
Lemma fix_small d : ndigits (coef d) <= prec -> fix_ d = d.
Proof.
  intros H. unfold fix_. destruct (coef d =? 0); [reflexivity|].
  destruct (expo d <? ndigits (coef d) + expo d - prec) eqn:E; [|reflexivity].
  apply Z.ltb_lt in E. lia.
Qed.

(** [fix_] moves a value below [10 ^ (j + 1)] by at most half a unit of
    its 28th digit. *)
Lemma fix_close s j d :
  0 <= coef d -> - s <= expo d -> 27 <= s + j ->
  scaled s d < 10 ^ (s + j + 1) ->
  - s <= expo (fix_ d)
  /\ 0 <= coef (fix_ d)
  /\ 2 * Z.abs (scaled s (fix_ d) - scaled s d) <= 10 ^ (s + j - 27).
Proof.
  intros Hc He Hs Hlt.
  assert (Hpos : 0 < 10 ^ (s + j - 27)) by (apply pow10_gt0; lia).
  unfold fix_. destruct (coef d =? 0) eqn:E0.
  { rewrite Z.sub_diag. cbn [Z.abs]. lia. }
  apply Z.eqb_neq in E0.
  set (L := ndigits (coef d)).
  destruct (expo d <? L + expo d - prec) eqn:E.
  2:{ rewrite Z.sub_diag. cbn [Z.abs]. lia. }
  apply Z.ltb_lt in E. unfold prec in *.
  destruct (ndigits_spec Hc) as (HL1 & HL2 & HL3). fold L in HL1, HL2, HL3.
  specialize (HL3 ltac:(lia)).
  set (k := L + expo d - 28 - expo d).
  assert (Hk : k = L - 28) by (unfold k; lia).
  assert (Hk0 : 0 < k) by lia.
  destruct (round_half_even_spec Hc (Z.lt_le_incl _ _ Hk0)) as (Hr0 & Hr).
  set (c2 := round_half_even (coef d) k) in *.
  (* the digits of the value lie below [10 ^ (j + 1)] *)
  assert (HLj : L + expo d <= j + 1).
  { unfold scaled in Hlt.
    assert (H1 : 10 ^ (L - 1) * 10 ^ (expo d + s) < 10 ^ (s + j + 1)).
    { eapply Z.le_lt_trans; [|exact Hlt].
      apply Z.mul_le_mono_nonneg_r; [apply Z.lt_le_incl, pow10_gt0; lia | exact HL3]. }
    rewrite <- pow10_split in H1 by lia.
    apply pow10_lt_inv in H1; lia. }
  set (u := 10 ^ (expo d + s)).
  assert (Hu : 0 < u) by (apply pow10_gt0; lia).
  assert (Hgrid : 10 ^ (L + expo d - 28 + s) = 10 ^ k * u).
  { unfold u. rewrite <- pow10_split by lia. f_equal. lia. }
  assert (Hpk : 0 < 10 ^ k) by (apply pow10_gt0; lia).
  assert (Hbound : 10 ^ k * u <= 10 ^ (s + j - 27)).
  { rewrite <- Hgrid. apply pow10_le. lia. }
  assert (Herr : 2 * Z.abs (c2 * (10 ^ k * u) - coef d * u) <= 10 ^ k * u).
  { replace (c2 * (10 ^ k * u) - coef d * u) with ((c2 * 10 ^ k - coef d) * u) by ring.
    rewrite Z.abs_mul, (Z.abs_eq u) by lia. nia. }
  destruct (ndigits c2 >? 28) eqn:Ecarry.
  - (* the rounding carried into a 29th digit: [c2] is [10 ^ 28] *)
    assert (Hgt : 28 < ndigits c2) by lia.
    assert (Hc2lo : 10 ^ 28 <= c2).
    { destruct (Z_lt_le_dec c2 (10 ^ 28)) as [Hlo|]; [|assumption].
      pose proof (@ndigits_le c2 28 Hr0 ltac:(lia) Hlo). lia. }
    assert (HLk : 10 ^ L = 10 ^ 28 * 10 ^ k).
    { rewrite <- pow10_split by lia. f_equal. lia. }
    assert (Hc2hi : c2 <= 10 ^ 28).
    { assert (Habs : 2 * (c2 * 10 ^ k - coef d) <= 10 ^ k) by lia. nia. }
    assert (Hc2 : c2 = 10 ^ 28) by lia.
    cbn [coef expo]. unfold scaled at 1. cbn [coef expo].
    replace (c2 / 10) with (10 ^ 27) by (rewrite Hc2; reflexivity).
    replace (L + expo d - 28 + 1 + s) with (1 + (L + expo d - 28 + s)) by lia.
    rewrite pow10_split by lia. rewrite Hgrid.
    replace (10 ^ 27 * (10 ^ 1 * (10 ^ k * u))) with (c2 * (10 ^ k * u))
      by (rewrite Hc2; change (10 ^ 28) with (10 ^ 27 * 10 ^ 1); ring).
    unfold scaled. fold u.
    split; [lia|]. split; [apply Z.lt_le_incl, pow10_gt0; lia|]. lia.
  - cbn [coef expo]. unfold scaled. cbn [coef expo]. fold u. rewrite Hgrid.
    split; [lia|]. split; [exact Hr0|]. lia.
Qed.

Lemma strip_zeros_value fuel : forall c e,
  0 <= c ->
  e <= expo (strip_zeros fuel c e)
  /\ 0 <= coef (strip_zeros fuel c e)
  /\ coef (strip_zeros fuel c e) * 10 ^ (expo (strip_zeros fuel c e) - e) = c.
Proof.
  induction fuel as [|fuel IH]; intros c e Hc; cbn [strip_zeros].
  - cbn [coef expo]. rewrite Z.sub_diag. change (10 ^ 0) with 1. lia.
  - destruct (c mod 10 =? 0) eqn:E.
    + apply Z.eqb_eq in E.
      assert (Hc10 : 0 <= c / 10) by (apply Z.div_pos; lia).
      destruct (IH (c / 10) (e + 1) Hc10) as (H1 & H2 & H3).
      set (d := strip_zeros fuel (c / 10) (e + 1)) in *.
      split; [lia|]. split; [exact H2|].
      replace (expo d - e) with (1 + (expo d - (e + 1))) by lia.
      rewrite pow10_split by lia. change (10 ^ 1) with 10.
      pose proof (Z.div_mod c 10 ltac:(lia)). lia.
    + cbn [coef expo]. rewrite Z.sub_diag. change (10 ^ 0) with 1. lia.
Qed.

(** The quotient of two line counts is within one unit of its 29th
    decimal, plus half a unit of its 27th, of the exact quotient. *)
Lemma div_close c t :
  0 <= c <= t -> 1 <= t ->
  exists q s,
    div (of_int c) (of_int t) = Ok q
    /\ 29 <= s /\ - s <= expo q /\ 0 <= coef q
    /\ 2 * Z.abs (t * scaled s q - c * 10 ^ s) <= t * (10 ^ (s - 27) + 2)
    /\ scaled s q < 2 * 10 ^ s.
Proof.
  intros Hc Ht. unfold div, of_int. cbn [coef expo].
  replace (t =? 0) with false by (symmetry; apply Z.eqb_neq; lia).
  destruct (c =? 0) eqn:Ec.
  - apply Z.eqb_eq in Ec. subst c. exists (fix_ (Dec 0 (0 - 0))), 29.
    split; [reflexivity|]. unfold fix_. cbn [coef expo Z.eqb]. unfold scaled.
    cbn [coef expo]. rewrite !Z.mul_0_l, Z.mul_0_r. change (0 - 0) with 0.
    cbn [Z.abs]. pose proof (@pow10_gt0 29 ltac:(lia)).
    pose proof (@pow10_gt0 (29 - 27) ltac:(lia)).
    repeat split; lia.
  - apply Z.eqb_neq in Ec.
    assert (Hmono : ndigits c <= ndigits t) by (apply ndigits_mono; lia).
    set (s := ndigits t - ndigits c + prec + 1).
    assert (Hs : 29 <= s) by (unfold s, prec; lia).
    replace (0 <=? s) with true by (symmetry; apply Z.leb_le; lia).
    replace (0 - 0 - s) with (- s) by lia.
    replace (0 - 0 - - s) with s by lia.
    assert (Hp : 0 < 10 ^ s) by (apply pow10_gt0; lia).
    pose proof (Z.div_mod (c * 10 ^ s) t ltac:(lia)) as Hdm.
    pose proof (Z.mod_pos_bound (c * 10 ^ s) t ltac:(lia)) as Hmod.
    assert (Hq0 : 0 <= c * 10 ^ s / t) by (apply Z.div_pos; nia).
    set (q0 := c * 10 ^ s / t) in *. set (r := (c * 10 ^ s) mod t) in *.
    set (p := 10 ^ s) in *.
    assert (Hq0p : q0 <= p) by nia.
    match goal with |- exists q s', Ok (fix_ ?a) = Ok q /\ _ => set (ans := a) end.
    assert (Hans : - s <= expo ans /\ 0 <= coef ans
                   /\ Z.abs (t * scaled s ans - c * p) < t
                   /\ scaled s ans <= p).
    { unfold ans. destruct (r =? 0) eqn:Er; cbn [negb].
      - apply Z.eqb_eq in Er.
        destruct (strip_zeros_value (Z.to_nat s) (- s) Hq0) as (H1 & H2 & H3).
        set (d := strip_zeros (Z.to_nat s) q0 (- s)) in *.
        unfold scaled. replace (expo d + s) with (expo d - - s) by lia.
        rewrite H3. split; [exact H1|]. split; [exact H2|]. split; [|exact Hq0p].
        replace (t * q0 - c * p) with 0 by lia. cbn [Z.abs]. lia.
      - apply Z.eqb_neq in Er. unfold scaled. cbn [coef expo].
        rewrite Z.add_opp_diag_l. change (10 ^ 0) with 1. rewrite Z.mul_1_r.
        assert (Hlt : q0 < p) by nia.
        destruct (q0 mod 5 =? 0); (split; [lia|]); (split; [lia|]); split; lia. }
    destruct Hans as (He & Hc0 & Hclose & Hle).
    destruct (@fix_close s 0 ans Hc0 He ltac:(lia)) as (He' & Hc' & Herr).
    { eapply Z.le_lt_trans; [exact Hle|]. unfold p.
      apply Z.pow_lt_mono_r; lia. }
    exists (fix_ ans), s. split; [reflexivity|].
    replace (s + 0 - 27) with (s - 27) in Herr by lia.
    assert (Hw : 0 < 10 ^ (s - 27)) by (apply pow10_gt0; lia).
    assert (Hpw : p = 10 ^ 27 * 10 ^ (s - 27)).
    { unfold p. rewrite <- pow10_split by lia. f_equal. lia. }
    set (w := 10 ^ (s - 27)) in *. set (a := scaled s ans) in *.
    set (b := scaled s (fix_ ans)) in *. fold p.
    split; [exact Hs|]. split; [exact He'|]. split; [exact Hc'|]. split.
    + assert (H1 : Z.abs (t * b - c * p) <= t * Z.abs (b - a) + Z.abs (t * a - c * p)).
      { replace (t * b - c * p) with (t * (b - a) + (t * a - c * p)) by ring.
        eapply Z.le_trans; [apply Z.abs_triangle|].
        rewrite Z.abs_mul, (Z.abs_eq t) by lia. lia. }
      nia.
    + assert (H27 : 10 ^ 27 = 1000000000000000000000000000) by reflexivity. lia.
Qed.

(** Rounding to two places moves a value by at most half a hundredth. *)
Lemma quantize_close s d p :
  2 <= s -> - s <= expo d -> 0 <= coef d ->
  quantize d (-2) = Ok p ->
  expo p = -2
  /\ 2 * Z.abs (coef p * 10 ^ (s - 2) - scaled s d) <= 10 ^ (s - 2).
Proof.
  intros Hs He Hc. unfold quantize.
  assert (Hw : 0 < 10 ^ (s - 2)) by (apply pow10_gt0; lia).
  destruct (coef d =? 0) eqn:E0.
  - apply Z.eqb_eq in E0. intros H. inversion H; subst p. unfold fix_, scaled.
    cbn [coef expo Z.eqb]. rewrite E0, !Z.mul_0_l. cbn [Z.abs Z.sub Z.opp Z.add]. lia.
  - destruct (ndigits (coef d) + expo d - 1 - -2 + 1 >? prec); [discriminate|].
    destruct (ndigits (coef (rescale d (-2))) >? prec) eqn:Eg; [discriminate|].
    intros H. inversion H; subst p. clear H.
    rewrite fix_small by lia. unfold rescale. rewrite E0.
    destruct (-2 <=? expo d) eqn:E2; cbn [coef expo]; unfold scaled.
    + apply Z.leb_le in E2. split; [reflexivity|].
      replace (coef d * 10 ^ (expo d - -2) * 10 ^ (s - 2))
        with (coef d * 10 ^ (expo d + s)).
      * rewrite Z.sub_diag. cbn [Z.abs]. lia.
      * rewrite <- Z.mul_assoc, <- pow10_split by lia. do 2 f_equal. lia.
    + apply Z.leb_gt in E2. split; [reflexivity|].
      destruct (@round_half_even_spec (coef d) (-2 - expo d) Hc ltac:(lia)) as (_ & Hr).
      set (c2 := round_half_even (coef d) (-2 - expo d)) in *.
      set (u := 10 ^ (expo d + s)).
      assert (Hu : 0 < u) by (apply pow10_gt0; lia).
      assert (Hsplit : 10 ^ (s - 2) = 10 ^ (-2 - expo d) * u).
      { unfold u. rewrite <- pow10_split by lia. f_equal. lia. }
      rewrite Hsplit.
      replace (c2 * (10 ^ (-2 - expo d) * u) - coef d * u)
        with ((c2 * 10 ^ (-2 - expo d) - coef d) * u) by ring.
      rewrite Z.abs_mul, (Z.abs_eq u) by lia. nia.
Qed.

(** A percentage is within half a hundredth, and [10 ^ - 25] more for the
    rounding of the quotient, of the exact share. *)
Lemma percent_close c t p :
  0 <= c <= t -> 1 <= t -> percent c t = Ok p ->
  expo p = -2
  /\ 2 * 10 ^ 23 * Z.abs (coef p * t - 10000 * c) <= (10 ^ 23 + 3) * t.
Proof.
  intros Hc Ht. unfold percent.
  destruct (div_close Hc Ht) as (q & s & -> & Hs & He & Hq & Hclose & Hlt).
  cbn [bind]. unfold round. change (- 2) with (-2).
  unfold mul, of_int. cbn [coef expo]. rewrite Z.add_0_r.
  set (m := Dec (coef q * 100) (expo q)).
  assert (Hm : scaled s m = 100 * scaled s q) by (unfold m, scaled; cbn [coef expo]; ring).
  destruct (@fix_close s 2 m ltac:(cbn; lia) He ltac:(lia)) as (He' & Hc' & Herr).
  { rewrite Hm. replace (s + 2 + 1) with (3 + s) by lia.
    rewrite pow10_split by lia. change (10 ^ 3) with 1000.
    assert (0 < 10 ^ s) by (apply pow10_gt0; lia). lia. }
  intros Hp. destruct (@quantize_close s (fix_ m) p ltac:(lia) He' Hc' Hp) as (Hexp & Hround).
  split; [exact Hexp|].
  rewrite Hm in Herr.
  assert (Hw : 0 < 10 ^ (s - 27)) by (apply pow10_gt0; lia).
  assert (Hw100 : 100 <= 10 ^ (s - 27)).
  { change 100 with (10 ^ 2). apply pow10_le. lia. }
  assert (H25 : 10 ^ (s + 2 - 27) = 100 * 10 ^ (s - 27)).
  { replace (s + 2 - 27) with (2 + (s - 27)) by lia. rewrite pow10_split by lia. reflexivity. }
  assert (H2 : 10 ^ (s - 2) = 10 ^ 25 * 10 ^ (s - 27)).
  { rewrite <- pow10_split by lia. f_equal. lia. }
  assert (Hs27 : 10 ^ s = 10 ^ 27 * 10 ^ (s - 27)).
  { rewrite <- pow10_split by lia. f_equal. lia. }
  rewrite H25 in Herr. rewrite H2 in Hround. rewrite Hs27 in Hclose.
  set (w := 10 ^ (s - 27)) in *. set (a := scaled s q) in *.
  set (b := scaled s (fix_ m)) in *. set (P := coef p) in *.
  clearbody w a b P.
  assert (E23 : 10 ^ 23 = 100000000000000000000000) by reflexivity.
  assert (E25 : 10 ^ 25 = 10000000000000000000000000) by reflexivity.
  assert (E27 : 10 ^ 27 = 1000000000000000000000000000) by reflexivity.
  rewrite E23. rewrite E25 in Hround. rewrite E27 in Hclose.
  assert (Hkey : 2 * (10000000000000000000000000 * w) * Z.abs (P * t - 10000 * c)
                 <= t * (10000000000000000000000000 * w) + t * (100 * w)
                    + 100 * (t * (w + 2))).
  { replace (2 * (10000000000000000000000000 * w) * Z.abs (P * t - 10000 * c))
      with (2 * Z.abs ((P * t - 10000 * c) * (10000000000000000000000000 * w))).
    2:{ rewrite Z.abs_mul, (Z.abs_eq (10000000000000000000000000 * w)) by lia. ring. }
    replace ((P * t - 10000 * c) * (10000000000000000000000000 * w))
      with (t * (P * (10000000000000000000000000 * w) - b) + t * (b - 100 * a)
            + 100 * (t * a - c * (1000000000000000000000000000 * w))) by ring.
    eapply Z.le_trans.
    { apply Z.mul_le_mono_nonneg_l; [lia|].
      eapply Z.le_trans; [apply Z.abs_triangle|].
      apply Z.add_le_mono; [apply Z.abs_triangle | apply Z.le_refl]. }
    rewrite !Z.abs_mul, (Z.abs_eq t), (Z.abs_eq 100) by lia. nia. }
  nia.
Qed.

(** A value below [10 ^ (j + 1)] has its leading digit at or below the
    place of [10 ^ j]. *)
Lemma digits_below s j d :
  1 <= coef d -> - s <= expo d -> 0 <= s + j + 1 ->
  scaled s d < 10 ^ (s + j + 1) ->
  ndigits (coef d) + expo d <= j + 1.
Proof.
  intros Hc He Hj Hlt. unfold scaled in Hlt.
  destruct (@ndigits_spec (coef d) ltac:(lia)) as (HL1 & _ & HL3).
  specialize (HL3 Hc). set (L := ndigits (coef d)) in *.
  assert (H1 : 10 ^ (L - 1) * 10 ^ (expo d + s) < 10 ^ (s + j + 1)).
  { eapply Z.le_lt_trans; [|exact Hlt].
    apply Z.mul_le_mono_nonneg_r; [apply Z.lt_le_incl, pow10_gt0; lia | exact HL3]. }
  rewrite <- pow10_split in H1 by lia.
  apply pow10_lt_inv in H1; lia.
Qed.

(** A value below 1000 can be rounded to two places. *)
Lemma quantize_ok s d :
  2 <= s -> - s <= expo d -> 0 <= coef d -> scaled s d < 10 ^ (s + 3) ->
  exists p, quantize d (-2) = Ok p.
Proof.
  intros Hs He Hc Hlt. unfold quantize.
  destruct (coef d =? 0) eqn:E0; [eauto|]. apply Z.eqb_neq in E0.
  assert (Hdig : ndigits (coef d) + expo d <= 2 + 1).
  { apply (@digits_below s 2 d); [lia | exact He | lia |].
    replace (s + 2 + 1) with (s + 3) by lia. exact Hlt. }
  destruct (ndigits (coef d) + expo d - 1 - -2 + 1 >? prec) eqn:G1.
  { exfalso. apply Z.gtb_lt in G1. unfold prec in G1. lia. }
  assert (Hsmall : ndigits (coef (rescale d (-2))) <= 6).
  { unfold rescale. replace (coef d =? 0) with false by (symmetry; apply Z.eqb_neq; exact E0).
    unfold scaled in Hlt.
    assert (Hw : 0 < 10 ^ (s - 2)) by (apply pow10_gt0; lia).
    assert (H3 : 10 ^ (s + 3) = 100000 * 10 ^ (s - 2)).
    { replace (s + 3) with (5 + (s - 2)) by lia. rewrite pow10_split by lia. reflexivity. }
    destruct (-2 <=? expo d) eqn:E2; cbn [coef].
    - apply Z.leb_le in E2.
      assert (Hsplit : 10 ^ (expo d + s) = 10 ^ (expo d - -2) * 10 ^ (s - 2)).
      { rewrite <- pow10_split by lia. f_equal. lia. }
      assert (Hp : 0 < 10 ^ (expo d - -2)) by (apply pow10_gt0; lia).
      apply ndigits_le; [nia | lia |].
      change (10 ^ 6) with 1000000. nia.
    - apply Z.leb_gt in E2.
      destruct (@round_half_even_spec (coef d) (-2 - expo d) Hc ltac:(lia)) as (Hr0 & Hr).
      set (c2 := round_half_even (coef d) (-2 - expo d)) in *.
      assert (Hu : 0 < 10 ^ (expo d + s)) by (apply pow10_gt0; lia).
      assert (Hk : 0 < 10 ^ (-2 - expo d)) by (apply pow10_gt0; lia).
      assert (Hsplit : 10 ^ (s - 2) = 10 ^ (-2 - expo d) * 10 ^ (expo d + s)).
      { rewrite <- pow10_split by lia. f_equal. lia. }
      set (u := 10 ^ (expo d + s)) in *. set (k := 10 ^ (-2 - expo d)) in *.
      assert (Hcoef : coef d < 100000 * k) by nia.
      apply ndigits_le; [exact Hr0 | lia |].
      change (10 ^ 6) with 1000000.
      assert (Habs : 2 * (c2 * k - coef d) <= k) by lia. nia. }
  destruct (ndigits (coef (rescale d (-2))) >? prec) eqn:G2; [|eauto].
  exfalso. apply Z.gtb_lt in G2. unfold prec in G2. lia.
Qed.

(** The percentage of a part of a positive total is always computed. *)
Lemma percent_ok c t : 0 <= c <= t -> 1 <= t -> exists p, percent c t = Ok p.
Proof.
  intros Hc Ht. unfold percent.
  destruct (div_close Hc Ht) as (q & s & -> & Hs & He & Hq & _ & Hlt).
  cbn [bind]. unfold round. change (- 2) with (-2).
  unfold mul, of_int. cbn [coef expo]. rewrite Z.add_0_r.
  set (m := Dec (coef q * 100) (expo q)).
  assert (Hm : scaled s m = 100 * scaled s q) by (unfold m, scaled; cbn [coef expo]; ring).
  assert (Hp : 0 < 10 ^ s) by (apply pow10_gt0; lia).
  assert (H3 : 10 ^ (s + 3) = 1000 * 10 ^ s).
  { replace (s + 3) with (3 + s) by lia. rewrite pow10_split by lia. reflexivity. }
  destruct (@fix_close s 2 m ltac:(cbn [m coef]; lia) He ltac:(lia)) as (He' & Hc' & Herr).
  { replace (s + 2 + 1) with (s + 3) by lia. rewrite Hm, H3. lia. }
  apply (@quantize_ok s (fix_ m)); [lia | exact He' | exact Hc' |].
  assert (H25 : 10 ^ (s + 2 - 27) <= 10 ^ s) by (apply pow10_le; lia).
  rewrite Hm in Herr. rewrite H3. lia.
Qed.

End DecimalFacts.


(** ** The sum of the percentages *)

Section PercentSum.

Import Decimal DecimalFacts TotalFacts.

Local Open Scope Z_scope.
Local Open Scope list_scope.

Lemma percent_sum_close (t : Z) (ranking : list ranked) :
  1 <= t ->
  Forall (fun r => 0 <= r_lines r <= t /\ percent (r_lines r) t = Ok (r_percent r))
    ranking ->
  2 * 10 ^ 23 * Z.abs (percent_sum ranking * t - 10000 * sum_lines (map row_of ranking))
  <= (10 ^ 23 + 3) * t * Z.of_nat (List.length ranking).
Proof.
  intros Ht. rewrite sum_lines_right.
  assert (E23 : 10 ^ 23 = 100000000000000000000000) by reflexivity.
  rewrite E23.
  induction 1 as [|r rs (Hr & Hp) _ IH]; cbn [percent_sum fold_right map List.length].
  - rewrite Z.mul_0_l, Z.mul_0_r. change (Z.of_nat 0) with 0. cbn [Z.sub Z.opp Z.add Z.abs].
    lia.
  - destruct (percent_close Hr Ht Hp) as (_ & Hclose). rewrite E23 in Hclose.
    fold (percent_sum rs). cbn [row_of snd].
    set (rest := fold_right (fun row acc => snd row + acc) 0 (map row_of rs)) in *.
    replace ((coef (r_percent r) + percent_sum rs) * t - 10000 * (r_lines r + rest))
      with ((coef (r_percent r) * t - 10000 * r_lines r)
            + (percent_sum rs * t - 10000 * rest)) by ring.
    pose proof (Z.abs_triangle (coef (r_percent r) * t - 10000 * r_lines r)
                  (percent_sum rs * t - 10000 * rest)) as Htri.
    rewrite Nat2Z.inj_succ.
    set (x := Z.abs (coef (r_percent r) * t - 10000 * r_lines r)) in *.
    set (y := Z.abs (percent_sum rs * t - 10000 * rest)) in *.
    set (z := Z.abs (coef (r_percent r) * t - 10000 * r_lines r
                     + (percent_sum rs * t - 10000 * rest))) in *.
    set (n := Z.of_nat (List.length rs)) in *.
    clearbody x y z n. lia.
Qed.

Lemma sum_lines_cons (r : string * Z) (rows : list (string * Z)) :
  sum_lines (r :: rows) = snd r + sum_lines rows.
Proof. rewrite !sum_lines_right. reflexivity. Qed.

Lemma sum_lines_bounds (rows : list (string * Z)) :
  Forall (fun row => 0 <= snd row) rows ->
  0 <= sum_lines rows /\ Forall (fun row => snd row <= sum_lines rows) rows.
Proof.
  induction 1 as [|r rs Hr _ (IH0 & IH)].
  - split; [reflexivity | constructor].
  - rewrite sum_lines_cons. split; [lia|]. constructor; [lia|].
    eapply Forall_impl; [|exact IH]. cbn beta. intros row Hrow. lia.
Qed.

(** With every reviewer holding a line, every total is positive. *)
Lemma totals_positive u (items : Dict.t (list blame_line)) :
  Forall (fun entry => snd entry <> []) items ->
  Forall (fun row => 1 <= snd row) (fold_left (total_step u) items []).
Proof.
  intros Hitems. apply Forall_forall. intros [k n] Hin.
  apply in_get_nodup in Hin; [|apply totals_nodup; constructor].
  rewrite get_totals in Hin. cbn [Dict.get snd] in *.
  destruct (String.eqb (Py.strip u) k); [discriminate|].
  destruct (Dict.mem k items) eqn:Hmem; [|discriminate].
  inversion Hin; subst n. apply lines_in_pos; assumption.
Qed.

Lemma ranking_loop_ok (total : Z) (rows : list (string * Z)) :
  1 <= total -> Forall (fun row => 0 <= snd row <= total) rows ->
  forall done,
  exists ranking,
    for_each
      (fun done row =>
         p <- percent (snd row) total ;;
         Ok (done ++ [Ranked (fst row) (snd row) p]))
      rows done = Ok ranking.
Proof.
  intros Ht. induction 1 as [|row rows Hrow _ IH]; intros done.
  - cbn. eauto.
  - rewrite for_each_cons. destruct (percent_ok Hrow Ht) as (p & ->). cbn [bind]. apply IH.
Qed.

(** The ranking of the records the pipeline collected is always computed:
    no percentage divides by zero or overflows. *)
Lemma ranking_never_fails (check_output : list string -> result string) raw branch
  infos display u :
  collect_diff_infos check_output raw branch = Ok (infos, display) ->
  exists ranking, total_reviewers_for u infos = Ok ranking.
Proof.
  intros Hc. pose proof (collected_attributed _ _ _ Hc) as Hattr.
  unfold total_reviewers_for. rewrite totals_flat.
  pose proof (totals_positive u Hattr) as Hpos.
  set (totals := fold_left (total_step u) (flat_map reviewers infos) []) in *.
  assert (Hsorted : Forall (fun row => 1 <= snd row) (sorted_desc totals)).
  { apply Forall_forall. intros row Hin. rewrite Forall_forall in Hpos. apply Hpos.
    apply (Permutation_in _ (sorted_desc_perm totals)). exact Hin. }
  destruct (@sum_lines_bounds (sorted_desc totals)) as (H0 & Hle).
  { eapply Forall_impl; [|exact Hsorted]. cbn beta. intros; lia. }
  destruct (sorted_desc totals) as [|row rows] eqn:E.
  - cbn. eauto.
  - apply ranking_loop_ok.
    + inversion Hsorted; subst. inversion Hle; subst. lia.
    + apply Forall_forall. intros r Hin. rewrite Forall_forall in Hsorted, Hle.
      specialize (Hsorted r Hin). specialize (Hle r Hin). lia.
Qed.

End PercentSum.

(** C8.  In a non-empty ranking of the records the pipeline collected,
    every row has at least one line and a percentage with two decimal
    places, and the percentages add up to 100 within half a hundredth for
    each row (and [1.5e-25] for each row, from the 28 digits the quotient
    is rounded to).  [percent_sum] is in hundredths. *)
Theorem C8_percentages_sum_to_100
  (check_output : list string -> result string) (raw : list string)
  (branch : string) (infos : list diff_info) (display : list (color * string))
  (current_user : string) (ranking : list ranked) :
  collect_diff_infos check_output raw branch = Ok (infos, display) ->
  total_reviewers_for current_user infos = Ok ranking ->
  ranking <> [] ->
  Forall (fun row => (1 <= r_lines row)%Z /\ Decimal.expo (r_percent row) = (-2)%Z)
    ranking
  /\ (2 * 10 ^ 23 * Z.abs (percent_sum ranking - 10000)
      <= (10 ^ 23 + 3) * Z.of_nat (List.length ranking))%Z.
Proof.
  intros Hc Hr Hne.
  destruct (ranking_properties _ _ Hr) as (Hnames & _ & Hlines & _ & Hpct).
  pose proof (collected_attributed _ _ _ Hc) as Hattr.
  set (t := sum_lines (map row_of ranking)) in *.
  assert (Hpos : Forall (fun row => (1 <= r_lines row)%Z) ranking).
  { apply Forall_forall. intros row Hin. rewrite (Hlines row Hin).
    apply lines_in_pos; [exact Hattr|].
    apply (Hnames (r_name row)). apply in_map. exact Hin. }
  assert (Hb : (0 <= t)%Z /\ Forall (fun row => (snd row <= t)%Z) (map row_of ranking)).
  { apply sum_lines_bounds. rewrite Forall_map.
    eapply Forall_impl; [|exact Hpos]. cbn. intros; lia. }
  destruct Hb as (Ht0 & Hle). rewrite Forall_map in Hle.
  assert (Ht : (1 <= t)%Z).
  { destruct ranking as [|r rs]; [congruence|].
    inversion Hpos; subst. inversion Hle; subst. cbn [row_of snd] in *. lia. }
  assert (Hall : Forall (fun r => (0 <= r_lines r <= t)%Z
                                  /\ percent (r_lines r) t = Ok (r_percent r)) ranking).
  { apply Forall_forall. intros row Hin. rewrite Forall_forall in Hpos, Hle.
    specialize (Hpos row Hin). specialize (Hle row Hin). cbn [row_of snd] in Hle.
    split; [lia | exact (Hpct row Hin)]. }
  split.
  - apply Forall_forall. intros row Hin. rewrite Forall_forall in Hpos, Hall.
    split; [exact (Hpos row Hin)|].
    destruct (Hall row Hin) as (Hrange & Hp).
    exact (proj1 (DecimalFacts.percent_close Hrange Ht Hp)).
  - pose proof (percent_sum_close Ht Hall) as Hsum. fold t in Hsum.
    replace (percent_sum ranking * t - 10000 * t)%Z
      with ((percent_sum ranking - 10000) * t)%Z in Hsum by ring.
    rewrite Z.abs_mul, (Z.abs_eq t) in Hsum by lia.
    assert (E23 : (10 ^ 23 = 100000000000000000000000)%Z) by reflexivity.
    rewrite E23 in *. nia.
Qed.

Lemma C8_percentages_sum_to_100_witness :
  Forall (fun row => (1 <= r_lines row)%Z /\ Decimal.expo (r_percent row) = (-2)%Z)
    [Ranked "Ann" 1 (Decimal.Dec 3333 (-2)); Ranked "Bob" 1 (Decimal.Dec 3333 (-2));
     Ranked "Cy" 1 (Decimal.Dec 3333 (-2))]
  /\ (2 * 10 ^ 23 * Z.abs (9999 - 10000) <= (10 ^ 23 + 3) * 3)%Z.
Proof.
  apply (@C8_percentages_sum_to_100 git_thirds [raw_modified] "master" thirds_infos
           [(YELLOW, raw_modified)] "me"
           [Ranked "Ann" 1 (Decimal.Dec 3333 (-2)); Ranked "Bob" 1 (Decimal.Dec 3333 (-2));
            Ranked "Cy" 1 (Decimal.Dec 3333 (-2))]).
  - vm_compute. reflexivity.
  - vm_compute. reflexivity.
  - discriminate.
Defined.

(* ================================================================== *)
(** * Further properties of the pipeline

    What the code does at its edges and how its steps compose. *)

(** ** Lines and arguments of a command *)

Module LineFacts.

Import Py PyFacts BlameFacts.

Lemma join_head sep a x xs :
  join sep (String a x :: xs) = String a (join sep (x :: xs)).
Proof. destruct xs; reflexivity. Qed.

(** Joining undoes splitting. *)
Lemma join_split1 c s :
  join (String c "") (fst (split1 c s) :: snd (split1 c s)) = s.
Proof.
  induction s as [|a s IH]; [reflexivity|].
  cbn [split1]. destruct (split1 c s) as [cur rest]. cbn [fst snd] in IH.
  destruct (Ascii.eqb a c) eqn:E; cbn [fst snd].
  - apply Ascii.eqb_eq in E. subst a. rewrite join_cons. cbn [append].
    rewrite IH. reflexivity.
  - rewrite join_head, IH. reflexivity.
Qed.

Lemma join_split c s : join (String c "") (split (String c "") s) = s.
Proof. rewrite split_str1. apply join_split1. Qed.

Lemma split1_pieces c s :
  Forall (fun x => occurs c x = false) (fst (split1 c s) :: snd (split1 c s)).
Proof.
  induction s as [|a s IH]; [repeat constructor|].
  cbn [split1]. destruct (split1 c s) as [cur rest]. cbn [fst snd] in IH.
  inversion IH as [|? ? Hcur Hrest]; subst.
  destruct (Ascii.eqb a c) eqn:E; cbn [fst snd].
  - constructor; [reflexivity | exact IH].
  - constructor; [|exact Hrest]. cbn [occurs]. rewrite E, Hcur. reflexivity.
Qed.

Lemma split_pieces c s :
  Forall (fun x => occurs c x = false) (split (String c "") s).
Proof. rewrite split_str1. apply split1_pieces. Qed.

Lemma split_cons c s :
  exists x xs, split (String c "") s = x :: xs.
Proof. rewrite split_str1. eauto. Qed.

(** A separator cuts whatever stands before it. *)
Lemma split1_sep c u v :
  split1 c (u ++ String c v)
  = (fst (split1 c u),
     (snd (split1 c u) ++ fst (split1 c v) :: snd (split1 c v))%list).
Proof.
  induction u as [|a u IH]; cbn [append split1].
  - rewrite Ascii.eqb_refl. destruct (split1 c v); reflexivity.
  - rewrite IH. destruct (split1 c u) as [cur rest]. cbn [fst snd].
    destruct (Ascii.eqb a c); reflexivity.
Qed.

Lemma split_sep c u v :
  split (String c "") (u ++ String c v)
  = (split (String c "") u ++ split (String c "") v)%list.
Proof. rewrite !split_str1, split1_sep. reflexivity. Qed.

Lemma rstrip_idem s : rstrip (rstrip s) = rstrip s.
Proof.
  induction s as [|c s IH]; [reflexivity|].
  cbn [rstrip]. destruct (rstrip s) as [|c' r] eqn:E.
  - destruct (isspace c) eqn:Hc; [reflexivity|]. cbn [rstrip]. rewrite Hc. reflexivity.
  - cbn [rstrip]. cbn [rstrip] in IH. rewrite IH. reflexivity.
Qed.

Lemma lstrip_idem s : lstrip (lstrip s) = lstrip s.
Proof.
  induction s as [|c s IH]; [reflexivity|].
  cbn [lstrip]. destruct (isspace c) eqn:Hc; [exact IH|].
  cbn [lstrip]. rewrite Hc. reflexivity.
Qed.

Lemma rstrip_lstrip s : rstrip (lstrip s) = lstrip (rstrip s).
Proof.
  induction s as [|c s IH]; [reflexivity|].
  cbn [lstrip rstrip]. destruct (isspace c) eqn:Hc.
  - rewrite IH. destruct (rstrip s) as [|c' r]; [reflexivity|].
    cbn [lstrip]. rewrite Hc. reflexivity.
  - destruct (rstrip s) as [|c' r] eqn:E; cbn [rstrip lstrip]; rewrite ?E, Hc; reflexivity.
Qed.

Lemma strip_idem s : strip (strip s) = strip s.
Proof.
  unfold strip. rewrite rstrip_lstrip, rstrip_idem, lstrip_idem. reflexivity.
Qed.

End LineFacts.

(** X1.  Whatever [git] prints, [run_cmd] returns at least one line, no
    line holds a line feed, and the lines joined by line feeds are the
    output without the white space around it. *)
Theorem X1_run_cmd_lines (check_output : list string -> result string)
  (cmd out : string) :
  check_output (Py.split " " cmd) = Ok out ->
  exists first rest,
    run_cmd check_output cmd = Ok (first :: rest)
    /\ Py.join LF (first :: rest) = Py.strip out
    /\ Forall (fun l => Py.occurs Py.LF l = false) (first :: rest).
Proof.
  intros H. unfold run_cmd. rewrite H. cbn [bind]. unfold LF.
  destruct (LineFacts.split_cons Py.LF (Py.strip out)) as (x & xs & E).
  exists x, xs. split; [rewrite E; reflexivity|]. rewrite <- E. split.
  - apply LineFacts.join_split.
  - apply LineFacts.split_pieces.
Qed.

Lemma X1_run_cmd_lines_witness :
  exists first rest,
    run_cmd git_thirds "git --no-pager blame -L 1,+3 master -- a.py"
    = Ok (first :: rest)
    /\ Py.join LF (first :: rest)
       = Py.strip ("6f3e9a1 (Ann 2023-05-01 10:00:00 +0000 1) import os" ++ LF
                   ++ "77aa001 (Bob 2023-06-01 10:00:00 +0000 2) import re" ++ LF
                   ++ "90bc3d2 (Cy 2023-07-01 10:00:00 +0000 3) import sys")
    /\ Forall (fun l => Py.occurs Py.LF l = false) (first :: rest).
Proof.
  apply (@X1_run_cmd_lines git_thirds "git --no-pager blame -L 1,+3 master -- a.py").
  reflexivity.
Defined.

(** X2.  [get_blame] runs [git --no-pager blame -L <start>,+<n> <branch> --]
    followed by the file name cut at every blank: a path that holds a
    blank reaches [git] as several paths. *)
Theorem X2_get_blame_arguments (check_output : list string -> result string)
  (filename start num_lines branch : string) :
  Py.occurs " " start = false -> Py.occurs " " num_lines = false ->
  Py.occurs " " branch = false ->
  get_blame check_output filename start num_lines branch
  = (out <- check_output
              (["git"; "--no-pager"; "blame"; "-L";
                (start ++ ",+" ++ num_lines)%string; branch; "--"]
               ++ Py.split " " filename)%list ;;
     Ok (Py.split LF (Py.strip out))).
Proof.
  intros Hs Hn Hb. unfold get_blame, run_cmd. f_equal.
  replace ("git --no-pager blame -L " ++ start ++ ",+" ++ num_lines ++ " "
           ++ branch ++ " -- " ++ filename)
    with ("git" ++ String " " ("--no-pager" ++ String " " ("blame" ++ String " "
          ("-L" ++ String " " ((start ++ ",+" ++ num_lines) ++ String " "
          (branch ++ String " " ("--" ++ String " " filename)))))))
    by PyFacts.str_eq.
  rewrite !PyFacts.split_app; try reflexivity; try assumption.
  PyFacts.occ_norm. rewrite Hs, Hn. reflexivity.
Qed.

Lemma X2_get_blame_arguments_witness :
  get_blame (fun args => Ok (Py.join "|" args)) "my file.py" "10" "2" "master"
  = Ok ["git|--no-pager|blame|-L|10,+2|master|--|my|file.py"].
Proof.
  rewrite (@X2_get_blame_arguments (fun args => Ok (Py.join "|" args))
             "my file.py" "10" "2" "master"); reflexivity.
Defined.

(** X3.  [get_file_diff] runs [git --no-pager diff <branch> --] followed by
    the second name, when there is one, and by the first, each cut at every
    blank; an empty second name counts as none. *)
Theorem X3_get_file_diff_arguments (check_output : list string -> result string)
  (from_name : string) (to_name : option string) (branch : string) :
  Py.occurs " " branch = false ->
  get_file_diff check_output from_name to_name branch
  = (out <- check_output
              (["git"; "--no-pager"; "diff"; branch; "--"]
               ++ match to_name with
                  | Some "" | None => []
                  | Some name => Py.split " " name ++ ["--"]
                  end
               ++ Py.split " " from_name)%list ;;
     Ok (Py.split LF (Py.strip out))).
Proof.
  intros Hb. unfold get_file_diff, run_cmd.
  destruct to_name as [[|c t]|]; f_equal.
  - replace ("git --no-pager diff " ++ branch ++ " -- " ++ from_name)
      with ("git" ++ String " " ("--no-pager" ++ String " " ("diff" ++ String " "
            (branch ++ String " " ("--" ++ String " " from_name)))))
      by PyFacts.str_eq.
    rewrite !PyFacts.split_app; try reflexivity; assumption.
  - replace ("git --no-pager diff " ++ branch ++ " -- " ++ String c t ++ " -- "
             ++ from_name)
      with ("git" ++ String " " ("--no-pager" ++ String " " ("diff" ++ String " "
            (branch ++ String " " ("--" ++ String " "
            (String c t ++ String " " ("--" ++ String " " from_name)))))))
      by PyFacts.str_eq.
    rewrite 5 PyFacts.split_app; try reflexivity; try assumption.
    rewrite LineFacts.split_sep.
    rewrite PyFacts.split_app by reflexivity.
    rewrite <- !app_assoc. reflexivity.
  - replace ("git --no-pager diff " ++ branch ++ " -- " ++ from_name)
      with ("git" ++ String " " ("--no-pager" ++ String " " ("diff" ++ String " "
            (branch ++ String " " ("--" ++ String " " from_name)))))
      by PyFacts.str_eq.
    rewrite !PyFacts.split_app; try reflexivity; assumption.
Qed.

Lemma X3_get_file_diff_arguments_witness :
  get_file_diff (fun args => Ok (Py.join "|" args)) "old.py" (Some "new name.py")
    "master"
  = Ok ["git|--no-pager|diff|master|--|new|name.py|--|old.py"].
Proof.
  rewrite (@X3_get_file_diff_arguments (fun args => Ok (Py.join "|" args))
             "old.py" (Some "new name.py") "master"); reflexivity.
Defined.

(** X4.  When [git config] answers with one line, the current user is that
    line without the white space around it, and this is the one author
    that [get_total_reviewers] leaves out of the ranking. *)
Theorem X4_current_user_is_the_stripped_answer
  (check_output : list string -> result string) (out : string)
  (infos : list diff_info) (ranking : list ranked) :
  check_output ["git"; "config"; "--get"; "user.name"] = Ok out ->
  Py.occurs Py.LF (Py.strip out) = false ->
  get_total_reviewers check_output infos = Ok ranking ->
  get_git_user check_output = Ok (Py.strip out)
  /\ forall author,
       In author (map r_name ranking) <->
       author <> Py.strip out /\ blamed author infos = true.
Proof.
  intros Hout Hone Hrank.
  assert (Huser : get_git_user check_output = Ok (Py.strip out)).
  { unfold get_git_user, run_cmd.
    change (Py.split " " "git config --get user.name")
      with ["git"; "config"; "--get"; "user.name"].
    rewrite Hout. cbn [bind]. unfold LF.
    rewrite (PyFacts.split_absent _ _ Hone). reflexivity. }
  split; [exact Huser|].
  unfold get_total_reviewers in Hrank. rewrite Huser in Hrank. cbn [bind] in Hrank.
  destruct (ranking_properties _ _ Hrank) as (Hin & _).
  rewrite LineFacts.strip_idem in Hin. exact Hin.
Qed.

Lemma X4_current_user_is_the_stripped_answer_witness :
  get_git_user (canned_git (" Jane Doe" ++ LF) "" "" "") = Ok "Jane Doe"
  /\ forall author,
       In author (map r_name []) <->
       author <> "Jane Doe"
       /\ blamed author [modified_with [("Jane Doe", some_lines 2)]] = true.
Proof.
  apply (@X4_current_user_is_the_stripped_answer
           (canned_git (" Jane Doe" ++ LF) "" "" "") (" Jane Doe" ++ LF)
           [modified_with [("Jane Doe", some_lines 2)]] []); reflexivity.
Defined.

(** ** The default branch *)

Module BranchFacts.

Import Py PyFacts BlameFacts LineFacts.

Lemma word_head w : word w -> exists c t, w = String c t /\ isspace c = false.
Proof.
  intros (Hne & H). destruct w as [|c t]; [congruence|].
  cbn [all_chars] in H. apply andb_prop in H. destruct H as [Hc _].
  apply negb_true_iff in Hc. eauto.
Qed.

Lemma rstrip_ends_word p w : word w -> rstrip (p ++ w) = (p ++ w)%string.
Proof.
  intros (Hne & H). rewrite rstrip_app; rewrite (rstrip_word Hne H); auto.
Qed.

Lemma word_no_lf w : word w -> occurs LF w = false.
Proof. intros (_ & H). eapply all_chars_occurs; [exact H | reflexivity]. Qed.

Lemma branch_line_nonempty e : branch_line e <> "".
Proof. unfold branch_line. destruct (fst e); discriminate. Qed.

Lemma rstrip_branch_lines entries :
  entries <> [] -> Forall (fun e => word (snd e)) entries ->
  rstrip (join (String LF "") (map branch_line entries))
  = join (String LF "") (map branch_line entries).
Proof.
  induction entries as [|e es IH]; intros Hne H; [congruence|].
  inversion H as [|? ? He Hes]; subst. destruct es as [|e' es'].
  - cbn [map join]. unfold branch_line. apply rstrip_ends_word; exact He.
  - cbn [map]. rewrite join_cons.
    replace (branch_line e ++ String LF ""
             ++ join (String LF "") (branch_line e' :: map branch_line es'))%string
      with ((branch_line e ++ String LF "")
            ++ join (String LF "") (map branch_line (e' :: es')))%string by str_eq.
    rewrite rstrip_app; rewrite (IH ltac:(discriminate) Hes); [reflexivity|].
    cbn [map]. apply join_nonempty. apply branch_line_nonempty.
Qed.

Lemma lstrip_branch_lines e rest :
  word (snd e) ->
  lstrip (join (String LF "") (branch_line e :: rest))
  = join (String LF "") (shown_as e :: rest).
Proof.
  intros He. destruct (word_head He) as (c & t & Hw & Hc).
  unfold branch_line, shown_as. rewrite Hw. destruct (fst e).
  - cbn [append]. rewrite join_head. apply lstrip_head. reflexivity.
  - cbn [append]. rewrite !join_head. cbn [lstrip].
    change (isspace " ") with true. cbn iota. rewrite Hc. reflexivity.
Qed.

Lemma strip_branch_line e : word (snd e) -> strip (branch_line e) = shown_as e.
Proof.
  intros He. unfold strip, branch_line. rewrite (rstrip_ends_word _ He).
  exact (@lstrip_branch_lines e [] He).
Qed.

Lemma strip_shown_as e : word (snd e) -> strip (shown_as e) = shown_as e.
Proof.
  intros He. unfold strip, shown_as. destruct (fst e).
  - rewrite (rstrip_ends_word _ He). apply lstrip_head. reflexivity.
  - rewrite (rstrip_word (proj1 He) (proj2 He)).
    destruct (word_head He) as (c & t & -> & Hc). apply lstrip_head. exact Hc.
Qed.

Lemma branch_line_no_lf e : word (snd e) -> occurs LF (branch_line e) = false.
Proof.
  intros He. unfold branch_line. rewrite occurs_app, (word_no_lf He).
  destruct (fst e); reflexivity.
Qed.

Lemma shown_as_no_lf e : word (snd e) -> occurs LF (shown_as e) = false.
Proof.
  intros He. unfold shown_as. destruct (fst e); [|exact (word_no_lf He)].
  rewrite occurs_app, (word_no_lf He). reflexivity.
Qed.

(** The branches [get_git_branches] reads off the answer of [git branch]. *)
Lemma branches_of_answer entries :
  entries <> [] -> Forall (fun e => word (snd e)) entries ->
  map strip
    (split (String LF "")
       (strip (join (String LF "") (map branch_line entries) ++ String LF "")))
  = map shown_as entries.
Proof.
  intros Hne H. unfold strip at 2.
  rewrite rstrip_app_spaces by reflexivity.
  rewrite (rstrip_branch_lines Hne H).
  destruct entries as [|e es]; [congruence|].
  inversion H as [|? ? He Hes]; subst. cbn [map].
  rewrite (@lstrip_branch_lines e _ He).
  rewrite split_join; [| discriminate |].
  - cbn [map]. rewrite (@strip_shown_as e He). f_equal.
    rewrite map_map. apply map_ext_in. intros e' Hin.
    apply strip_branch_line. rewrite Forall_forall in Hes. auto.
  - constructor; [exact (@shown_as_no_lf e He)|].
    rewrite Forall_map. eapply Forall_impl; [|exact Hes].
    intros e'. apply branch_line_no_lf.
Qed.

Lemma develop_among entries :
  existsb (String.eqb "develop") (map shown_as entries)
  = existsb (fun e => negb (fst e) && String.eqb (snd e) "develop") entries.
Proof.
  induction entries as [|[cur name] es IH]; [reflexivity|].
  cbn [map existsb]. rewrite IH. f_equal. unfold shown_as. cbn [fst snd].
  destruct cur; [reflexivity|]. apply String.eqb_sym.
Qed.

End BranchFacts.

(** X5.  Without a branch on the command line, the script compares with
    [develop] when [git branch] lists a branch of that name that is not the
    checked-out one, and with [master] otherwise: the checked-out branch is
    listed behind a star and never taken for [develop]. *)
Theorem X5_default_branch (check_output : list string -> result string)
  (highlight : string -> string) (entries : list (bool * string))
  (contributer : option string) :
  entries <> [] -> Forall (fun e => word (snd e)) entries ->
  check_output ["git"; "branch"]
  = Ok (Py.join LF (map branch_line entries) ++ LF) ->
  main check_output highlight None contributer
  = get_reviewers check_output highlight contributer
      (if existsb (fun e => negb (fst e) && String.eqb (snd e) "develop") entries
       then "develop" else "master").
Proof.
  intros Hne Hw Hout. unfold main, get_git_branches, run_cmd.
  change (Py.split " " "git branch") with ["git"; "branch"].
  rewrite Hout. cbn [bind]. unfold LF.
  rewrite (BranchFacts.branches_of_answer Hne Hw), BranchFacts.develop_among.
  reflexivity.
Qed.

Lemma X5_default_branch_witness :
  main (fun args =>
          if String.eqb (nth 1 args "") "branch"
          then Ok ("* develop" ++ LF ++ "  master" ++ LF)
          else Raise CalledProcessError)
    (fun code => code) None None
  = get_reviewers
      (fun args =>
         if String.eqb (nth 1 args "") "branch"
         then Ok ("* develop" ++ LF ++ "  master" ++ LF)
         else Raise CalledProcessError)
      (fun code => code) None "master".
Proof.
  apply (@X5_default_branch
           (fun args =>
              if String.eqb (nth 1 args "") "branch"
              then Ok ("* develop" ++ LF ++ "  master" ++ LF)
              else Raise CalledProcessError)
           (fun code => code) [(true, "develop"); (false, "master")] None).
  - discriminate.
  - repeat constructor; discriminate.
  - reflexivity.
Defined.

(** ** Raw diff lines *)

Module RawFacts.

Import Py PyFacts BlameFacts LineFacts.

Lemma item_split_0 c s : item (split (String c "") s) 0 = Ok (hd "" (split (String c "") s)).
Proof. rewrite split_str1. reflexivity. Qed.

(** A text without the separator is not cut, and only such a text. *)
Lemma split_single c s :
  List.length (split (String c "") s) = 1%nat <-> occurs c s = false.
Proof.
  rewrite split_str1. cbn [List.length]. split.
  - intros H. destruct (occurs c s) eqn:E; [|reflexivity].
    destruct (split1_occurs _ _ E) as (y & ys & Hy). rewrite Hy in H. discriminate.
  - intros H. rewrite (split1_absent _ _ H). reflexivity.
Qed.

Lemma item_split_1 c s :
  occurs c s = false <-> item (split (String c "") s) 1 = Raise IndexError.
Proof.
  rewrite <- split_single. rewrite split_str1. cbn [List.length item nth_error].
  destruct (snd (split1 c s)); cbn; split; intros H; congruence.
Qed.

End RawFacts.

(** X6.  A raw diff line of five metadata fields, a tab, a path and maybe
    further tab-separated paths is read field by field: the status letter is
    the first character of the fifth field, the file is the first path and
    the rename target the second, if any.  Blanks in a path are kept. *)
Theorem X6_read_diff_raw_line_fields
  (from_mode to_mode from_hash to_hash : string) (c : ascii)
  (status path : string) (more : list string) :
  let raw := Py.join " " [from_mode; to_mode; from_hash; to_hash; String c status] in
  let ln := Py.join TAB (raw :: path :: more) in
  Forall (fun f => Py.occurs " " f = false /\ Py.occurs Py.TAB f = false)
    [from_mode; to_mode; from_hash; to_hash; String c status] ->
  Forall (fun f => Py.occurs Py.TAB f = false) (path :: more) ->
  read_diff_raw_line ln
  = Ok {| line := ln; reviewers := []; chunks := [];
          parts := raw :: path :: more; raw_info := raw;
          from_mode := Some from_mode; to_mode := Some to_mode;
          from_hash := Some from_hash; to_hash := Some to_hash;
          type_info := Some (String c status); type := Some (String c "");
          file := Some path; to_file := hd_error more |}.
Proof.
  intros raw ln Hmeta Hpaths.
  assert (Hraw : Py.occurs Py.TAB raw = false).
  { apply BlameFacts.occurs_join; [reflexivity|].
    eapply Forall_impl; [|exact Hmeta]. intros f [_ H]. exact H. }
  assert (Hparts : Py.split TAB ln = raw :: path :: more).
  { unfold ln, TAB. apply PyFacts.split_join; [discriminate|].
    constructor; [exact Hraw | exact Hpaths]. }
  assert (Hfields : Py.split " " raw
                    = [from_mode; to_mode; from_hash; to_hash; String c status]).
  { unfold raw. apply PyFacts.split_join; [discriminate|].
    eapply Forall_impl; [|exact Hmeta]. intros f [H _]. exact H. }
  assert (Hne : String.eqb raw "" = false).
  { apply String.eqb_neq. unfold raw. destruct from_mode; discriminate. }
  unfold read_diff_raw_line. rewrite Hparts. cbn [Py.item nth_error bind].
  rewrite Hne, Hfields. cbn [Py.first bind Py.item nth_error].
  destruct more; reflexivity.
Qed.

Lemma X6_read_diff_raw_line_fields_witness :
  read_diff_raw_line
    (":100644 100644 bcd1234 0123456 R100" ++ TAB ++ "old name.py" ++ TAB ++ "new.py")
  = Ok {| line := ":100644 100644 bcd1234 0123456 R100" ++ TAB ++ "old name.py"
                  ++ TAB ++ "new.py";
          reviewers := []; chunks := [];
          parts := [":100644 100644 bcd1234 0123456 R100"; "old name.py"; "new.py"];
          raw_info := ":100644 100644 bcd1234 0123456 R100";
          from_mode := Some ":100644"; to_mode := Some "100644";
          from_hash := Some "bcd1234"; to_hash := Some "0123456";
          type_info := Some "R100"; type := Some "R";
          file := Some "old name.py"; to_file := Some "new.py" |}.
Proof.
  apply (@X6_read_diff_raw_line_fields ":100644" "100644" "bcd1234" "0123456"
           "R" "100" "old name.py" ["new.py"]).
  - repeat constructor.
  - repeat constructor.
Defined.

(** X7.  [read_diff_raw_line] raises [ValueError] exactly when the text
    before the first tab is not empty and is not five blank-separated
    fields, and [IndexError] exactly when it is five fields and the fifth is
    empty or the line holds no tab; it raises nothing else. *)
Theorem X7_read_diff_raw_line_errors (ln : string) :
  let raw := hd "" (Py.split TAB ln) in
  let fields := Py.split " " raw in
  (read_diff_raw_line ln = Raise ValueError <->
   raw <> "" /\ List.length fields <> 5%nat)
  /\ (read_diff_raw_line ln = Raise IndexError <->
      raw <> "" /\ List.length fields = 5%nat
      /\ (nth 4 fields "" = "" \/ Py.occurs Py.TAB ln = false))
  /\ (forall e, read_diff_raw_line ln = Raise e -> e = ValueError \/ e = IndexError).
Proof.
  intros raw fields. unfold read_diff_raw_line, TAB.
  rewrite RawFacts.item_split_0. cbn [bind]. fold TAB. fold raw.
  destruct (String.eqb raw "") eqn:Eraw.
  - apply String.eqb_eq in Eraw.
    repeat split; try discriminate; intros H; exfalso; tauto.
  - apply String.eqb_neq in Eraw. fold fields.
    pose proof (RawFacts.item_split_1 Py.TAB ln) as Htab. fold TAB in Htab.
    clearbody fields.
    destruct fields as [|a [|b [|c [|d [|e [|f fs]]]]]]; cbn [nth List.length];
      try (split; [split; [intros _; split; [exact Eraw | discriminate]
                          | intros _; reflexivity]
                  | split; [split; [discriminate | intros (_ & H & _); discriminate H]
                           | intros x H; inversion H; auto]]; fail).
    destruct e as [|ch e]; cbn [Py.first bind].
    + split; [split; [discriminate | intros (_ & H); congruence]|].
      split; [split; [auto | reflexivity] | intros x H; inversion H; auto].
    + destruct (Py.item (Py.split TAB ln) 1) as [p|x] eqn:Ep; cbn [bind].
      * split; [split; [discriminate | intros (_ & H); congruence]|].
        split; [|discriminate].
        split; [discriminate|]. intros (_ & _ & [H|H]); [discriminate|].
        apply Htab in H. congruence.
      * assert (x = IndexError) as ->.
        { unfold Py.item in Ep. destruct (nth_error (Py.split TAB ln) 1); congruence. }
        split; [split; [discriminate | intros (_ & H); congruence]|].
        split; [|intros x H; inversion H; auto].
        split; [|reflexivity]. intros _. split; [exact Eraw|]. split; [reflexivity|].
        right. apply Htab. reflexivity.
Qed.

(** X8.  The record [read_diff_raw_line] returns keeps the whole line: its
    parts joined by tabs are the line, and, when it has a status, its five
    metadata fields joined by blanks are the first part, the status is the
    first character of the fifth field, the file is the second part and the
    rename target the third, if any.  It has no status exactly when the
    first part is empty. *)
Theorem X8_read_diff_raw_line_keeps_the_line (ln : string) (info : diff_info) :
  read_diff_raw_line ln = Ok info ->
  line info = ln
  /\ Py.join TAB (parts info) = ln
  /\ nth_error (parts info) 0 = Some (raw_info info)
  /\ match type info with
     | None => raw_info info = "" /\ file info = None /\ to_file info = None
     | Some t =>
         exists fm tm fh th ti rest,
           from_mode info = Some fm /\ to_mode info = Some tm
           /\ from_hash info = Some fh /\ to_hash info = Some th
           /\ type_info info = Some ti
           /\ raw_info info = Py.join " " [fm; tm; fh; th; ti]
           /\ raw_info info <> ""
           /\ ti = t ++ rest /\ String.length t = 1%nat
           /\ file info <> None
           /\ file info = nth_error (parts info) 1
           /\ to_file info = nth_error (parts info) 2
     end.
Proof.
  unfold read_diff_raw_line. intros H. inv_bind H.
  assert (Hjoin : Py.join TAB (Py.split TAB ln) = ln)
    by (unfold TAB; apply LineFacts.join_split).
  assert (H0 : nth_error (Py.split TAB ln) 0 = Some x).
  { unfold Py.item in E. destruct (nth_error (Py.split TAB ln) 0); congruence. }
  destruct (String.eqb x "") eqn:Ex.
  - apply String.eqb_eq in Ex. inversion H; subst info.
    cbn [line parts raw_info type file to_file]. repeat split; auto.
  - apply String.eqb_neq in Ex.
    pose proof (LineFacts.join_split " " x) as Hraw.
    destruct (Py.split " " x) as [|a [|b [|c [|d [|e [|f fs]]]]]]; try discriminate.
    inv_bind H. inv_bind H. inversion H; subst info.
    cbn [line parts raw_info type file to_file from_mode to_mode from_hash
         to_hash type_info].
    repeat (split; [solve [auto]|]).
    exists a, b, c, d, e.
    destruct e as [|ch e]; [discriminate|]. cbn in E0. inversion E0; subst x0.
    exists e. repeat (split; [solve [auto]|]).
    unfold Py.item in E1. destruct (nth_error (Py.split TAB ln) 1) eqn:N1; [|discriminate].
    inversion E1; subst. repeat split; try congruence.
    destruct (2 <? List.length (Py.split TAB ln))%nat eqn:L; [reflexivity|].
    symmetry. apply nth_error_None. apply Nat.ltb_ge in L. exact L.
Qed.

Lemma X8_read_diff_raw_line_keeps_the_line_witness :
  line (set_chunks (modified_with []) []) = raw_modified
  /\ Py.join TAB (parts (set_chunks (modified_with []) [])) = raw_modified.
Proof.
  destruct (@X8_read_diff_raw_line_keeps_the_line raw_modified
              (set_chunks (modified_with []) []) eq_refl) as (H1 & H2 & _).
  exact (conj H1 H2).
Defined.

(** ** Chunks and blamed lines, in order *)

Section InOrder.

Variable check_output : list string -> result string.

Lemma code_chunk_cases cs ln cs' :
  code_chunk cs ln = Ok cs' ->
  (Py.contains "@@" ln = false /\ cs' = cs)
  \/ (Py.contains "@@" ln = true
      /\ exists c, cs' = (cs ++ [c])%list /\ code_chunk [] ln = Ok [c]).
Proof.
  unfold code_chunk. destruct (Py.contains "@@" ln); cbn [negb].
  - intros H. right. split; [reflexivity|]. do 2 inv_bind H.
    destruct (Py.split "," (Py.tail x0)) as [|a [|b [|? ?]]] eqn:Es; try discriminate.
    inversion H; subst. exists (Chunk a b). split; [reflexivity|].
    rewrite E. cbn [bind]. rewrite E0. cbn [bind]. rewrite Es. reflexivity.
  - intros H. inversion H; subst. auto.
Qed.

Lemma code_chunks_in_order diff : forall cs cs',
  for_each code_chunk diff cs = Ok cs' ->
  exists new,
    cs' = (cs ++ new)%list
    /\ Forall2 (fun c header => code_chunk [] header = Ok [c]) new
         (filter (Py.contains "@@") diff).
Proof.
  induction diff as [|ln diff IH]; intros cs cs' H.
  - inversion H; subst. exists []. rewrite app_nil_r. split; [reflexivity | constructor].
  - rewrite for_each_cons in H. inv_bind H.
    destruct (IH _ _ H) as (new & -> & Hnew).
    destruct (code_chunk_cases _ _ E) as [[Hc ->]|(Hc & c & -> & Hone)];
      cbn [filter]; rewrite Hc.
    + eauto.
    + exists (c :: new). rewrite <- app_assoc. split; [reflexivity|].
      constructor; assumption.
Qed.

Lemma lines_of_step rs ln rs' author :
  blame_line_step rs ln = Ok rs' ->
  lines_of author rs' = (lines_of author rs ++ blamed_on author [ln])%list.
Proof.
  unfold blame_line_step, blamed_on. cbn [flat_map]. rewrite app_nil_r.
  destruct (Py.contains "(" ln); cbn [negb orb andb];
    [|intros H; inversion H; subst; rewrite app_nil_r; reflexivity].
  destruct (Py.contains ")" ln); cbn [negb];
    [|intros H; inversion H; subst; rewrite app_nil_r; reflexivity].
  intros H. do 2 inv_bind H. rewrite E, E0. rename x0 into r, x into cl.
  unfold lines_of.
  assert (G : exists ls,
             Dict.get r (if negb (Dict.mem r rs) then Dict.set r [] rs else rs)
             = Some ls
             /\ lines_of r rs = ls
             /\ forall a, a <> r ->
                  Dict.get a (if negb (Dict.mem r rs) then Dict.set r [] rs else rs)
                  = Dict.get a rs).
  { unfold Dict.mem, lines_of. destruct (Dict.get r rs) as [ls|] eqn:G; cbn [negb].
    - exists ls. auto.
    - exists []. rewrite DictFacts.get_set_same. split; [reflexivity|].
      split; [reflexivity|]. intros a Ha. apply DictFacts.get_set_other. exact Ha. }
  destruct G as (ls & G1 & G2 & G3). rewrite G1 in H. cbn [getitem bind] in H.
  inversion H; subst rs'. clear H.
  destruct (String.eqb r author) eqn:Er.
  - apply String.eqb_eq in Er. subst author.
    rewrite DictFacts.get_set_same. unfold lines_of in G2. rewrite G2. reflexivity.
  - apply String.eqb_neq in Er.
    rewrite DictFacts.get_set_other by congruence.
    rewrite G3 by congruence. rewrite app_nil_r. reflexivity.
Qed.

Lemma blamed_on_app author xs ys :
  blamed_on author (xs ++ ys) = (blamed_on author xs ++ blamed_on author ys)%list.
Proof. unfold blamed_on. apply flat_map_app. Qed.

Lemma lines_of_steps author blame_info : forall rs rs',
  for_each blame_line_step blame_info rs = Ok rs' ->
  lines_of author rs' = (lines_of author rs ++ blamed_on author blame_info)%list.
Proof.
  induction blame_info as [|ln rest IH]; intros rs rs' H.
  - inversion H; subst. cbn. rewrite app_nil_r. reflexivity.
  - rewrite for_each_cons in H. inv_bind H.
    rewrite (IH _ _ H), (lines_of_step _ _ author E).
    change (ln :: rest) with ([ln] ++ rest)%list.
    rewrite blamed_on_app, app_assoc. reflexivity.
Qed.

(** What [get_code_chunks] returns. *)
Lemma code_chunks_result (info : diff_info) (branch : string) (info' : diff_info) :
  get_code_chunks check_output info branch = Ok info' ->
  exists f diff,
    file info = Some f
    /\ get_file_diff check_output f (to_file info) branch = Ok diff
    /\ Forall2 (fun c header => code_chunk [] header = Ok [c]) (chunks info')
         (filter (Py.contains "@@") diff)
    /\ info' = set_chunks info (chunks info').
Proof.
  unfold get_code_chunks. intros H. do 3 inv_bind H. inversion H; subst info'.
  destruct (file info) as [f|]; [|discriminate]. inversion E; subst x.
  exists f, x0. cbn [chunks set_chunks].
  destruct (code_chunks_in_order _ _ E1) as (new & -> & Hnew). auto.
Qed.

(** What [get_blame_data] returns. *)
Lemma blame_data_result (info : diff_info) (branch : string) (info' : diff_info) :
  get_blame_data check_output info branch = Ok info' ->
  exists blames,
    Forall2 (fun chunk blame_info =>
               exists f,
                 file info = Some f
                 /\ get_blame check_output f (start_line chunk) (num_lines chunk)
                      branch = Ok blame_info)
      (chunks info) blames
    /\ (forall author,
          lines_of author (reviewers info')
          = (lines_of author (reviewers info)
             ++ blamed_on author (List.concat blames))%list)
    /\ info' = set_reviewers info (reviewers info').
Proof.
  unfold get_blame_data. intros H. inv_bind H. inversion H; subst info'. clear H.
  cbn [reviewers set_reviewers].
  cut (exists blames,
          Forall2 (fun chunk blame_info =>
                     exists f,
                       file info = Some f
                       /\ get_blame check_output f (start_line chunk)
                            (num_lines chunk) branch = Ok blame_info)
            (chunks info) blames
          /\ forall author,
               lines_of author x
               = (lines_of author (reviewers info)
                  ++ blamed_on author (List.concat blames))%list).
  { intros (blames & H1 & H2). exists blames. auto. }
  revert E. generalize (reviewers info) as rs. generalize (chunks info) as cs.
  induction cs as [|c cs IH]; intros rs H.
  - inversion H; subst. exists []. split; [constructor|].
    intros author. cbn. rewrite app_nil_r. reflexivity.
  - rewrite for_each_cons in H. inv_bind H. do 2 inv_bind E.
    destruct (IH _ H) as (blames & H1 & H2).
    exists (x2 :: blames). split.
    + constructor; [|exact H1]. destruct (file info) as [f|]; [|discriminate].
      inversion E0; subst. eauto.
    + intros author. rewrite H2, (lines_of_steps author _ _ E).
      cbn [List.concat]. rewrite blamed_on_app, app_assoc. reflexivity.
Qed.

End InOrder.

(** X9.  When [get_code_chunks] returns, the chunks of the record are, in
    the order of the diff, one chunk for each line of the diff that holds
    [@@], whatever chunks the record had before, and nothing else of the
    record has changed. *)
Theorem X9_get_code_chunks_one_per_header
  (check_output : list string -> result string) (info : diff_info)
  (branch : string) (info' : diff_info) :
  get_code_chunks check_output info branch = Ok info' ->
  exists f diff,
    file info = Some f
    /\ get_file_diff check_output f (to_file info) branch = Ok diff
    /\ Forall2 (fun c header => code_chunk [] header = Ok [c]) (chunks info')
         (filter (Py.contains "@@") diff)
    /\ info' = set_chunks info (chunks info').
Proof. apply code_chunks_result. Qed.

Lemma X9_get_code_chunks_one_per_header_witness :
  exists f diff,
    file (modified_with []) = Some f
    /\ get_file_diff git_two_hunks f (to_file (modified_with [])) "master" = Ok diff
    /\ Forall2 (fun c header => code_chunk [] header = Ok [c])
         [Chunk "10" "2"; Chunk "15" "2"] (filter (Py.contains "@@") diff)
    /\ set_chunks (modified_with []) [Chunk "10" "2"; Chunk "15" "2"]
       = set_chunks (modified_with [])
           (chunks (set_chunks (modified_with []) [Chunk "10" "2"; Chunk "15" "2"])).
Proof.
  exact (@X9_get_code_chunks_one_per_header git_two_hunks (modified_with []) "master"
           (set_chunks (modified_with []) [Chunk "10" "2"; Chunk "15" "2"]) eq_refl).
Defined.

(** X10.  When [get_blame_data] returns, it has blamed every chunk of the
    record, in order, and each author's lines are the lines the record held
    for them followed by the lines of these blames that name them, in the
    order of the blames; nothing else of the record has changed. *)
Theorem X10_get_blame_data_keeps_blame_order
  (check_output : list string -> result string) (info : diff_info)
  (branch : string) (info' : diff_info) :
  get_blame_data check_output info branch = Ok info' ->
  exists blames,
    Forall2 (fun chunk blame_info =>
               exists f,
                 file info = Some f
                 /\ get_blame check_output f (start_line chunk) (num_lines chunk)
                      branch = Ok blame_info)
      (chunks info) blames
    /\ (forall author,
          lines_of author (reviewers info')
          = (lines_of author (reviewers info) ++ blamed_on author (List.concat blames))%list)
    /\ info' = set_reviewers info (reviewers info').
Proof. apply blame_data_result. Qed.

Lemma X10_get_blame_data_keeps_blame_order_witness :
  lines_of "Jane Doe" (reviewers (nth 1 two_hunk_infos (modified_with [])))
  = [BlameLine "10" "def f():"; BlameLine "11" "    pass";
     BlameLine "15" "def g():"; BlameLine "16" "    pass"].
Proof.
  destruct (@X10_get_blame_data_keeps_blame_order git_two_hunks
              (set_chunks (modified_with []) [Chunk "10" "2"; Chunk "15" "2"])
              "master" (nth 1 two_hunk_infos (modified_with [])) eq_refl)
    as (blames & H1 & H2 & _).
  rewrite (H2 "Jane Doe").
  inversion H1 as [|? b1 ? bs (f1 & F1 & B1) H1']; subst.
  inversion H1' as [|? b2 ? bs' (f2 & F2 & B2) H1'']; subst.
  inversion H1''; subst.
  inversion F1; subst f1. inversion F2; subst f2.
  vm_compute in B1. vm_compute in B2. inversion B1; subst b1. inversion B2; subst b2.
  reflexivity.
Defined.

(** ** Totals and ties of the ranking *)

Module TieFacts.

Import DictFacts TotalFacts.

Local Open Scope Z_scope.

Lemma filter_absorb (A : Type) (p q : A -> bool) l :
  (forall x, p x = true -> q x = true) -> filter p (filter q l) = filter p l.
Proof.
  intros H. induction l as [|x l IH]; [reflexivity|]. cbn [filter].
  destruct (q x) eqn:Q; cbn [filter]; rewrite IH; [reflexivity|].
  destruct (p x) eqn:P; [|reflexivity]. rewrite (H x P) in Q. discriminate.
Qed.

Lemma filter_both (A : Type) (p q : A -> bool) l :
  filter p (filter q l) = filter (fun x => p x && q x) l.
Proof.
  induction l as [|x l IH]; [reflexivity|]. cbn [filter].
  destruct (q x); cbn [filter]; rewrite IH, ?andb_true_r, ?andb_false_r;
    reflexivity.
Qed.

Lemma mem_set (V : Type) a k (v : V) d :
  Dict.mem a (Dict.set k v d) = Dict.mem a d || String.eqb a k.
Proof.
  unfold Dict.mem. destruct (String.eqb a k) eqn:E.
  - apply String.eqb_eq in E. subst a. rewrite get_set_same, orb_true_r. reflexivity.
  - apply String.eqb_neq in E. rewrite get_set_other by exact E.
    rewrite orb_false_r. reflexivity.
Qed.

(** The keys of the totals are the authors in the order first met. *)
Lemma keys_totals u items : forall acc,
  Dict.keys (fold_left (total_step u) items acc)
  = (Dict.keys acc
     ++ filter (fun a => negb (String.eqb (Py.strip u) a) && negb (Dict.mem a acc))
          (distinct (map fst items)))%list.
Proof.
  induction items as [|[k ls] items IH]; intros acc.
  - cbn. rewrite app_nil_r. reflexivity.
  - cbn [fold_left map fst distinct]. rewrite IH, total_step_cases. cbn [filter].
    destruct (String.eqb (Py.strip u) k) eqn:Eu; cbn [negb andb].
    + f_equal. symmetry. apply filter_absorb. intros b Hb.
      apply andb_prop in Hb. destruct Hb as [Hb _]. apply negb_true_iff in Hb.
      apply negb_true_iff. apply String.eqb_neq. intros ->.
      apply String.eqb_eq in Eu. rewrite Eu, String.eqb_refl in Hb. discriminate.
    + destruct (Dict.get k acc) as [n|] eqn:G.
      * assert (Hm : Dict.mem k acc = true) by (unfold Dict.mem; rewrite G; reflexivity).
        rewrite keys_set, Hm. cbn [negb]. f_equal.
        rewrite filter_absorb.
        -- apply filter_ext. intros a. rewrite mem_set.
           destruct (String.eqb a k) eqn:E; [|rewrite orb_false_r; reflexivity].
           apply String.eqb_eq in E. subst a. unfold Dict.mem. rewrite G. reflexivity.
        -- intros b Hb. apply andb_prop in Hb. destruct Hb as [_ Hb].
           apply negb_true_iff in Hb. apply negb_true_iff. apply String.eqb_neq.
           intros ->. unfold Dict.mem in Hb. rewrite G in Hb. discriminate.
      * assert (Hm : Dict.mem k acc = false) by (unfold Dict.mem; rewrite G; reflexivity).
        rewrite Hm. cbn [negb].
        unfold Dict.keys at 1. rewrite map_app. cbn [map fst].
        rewrite <- app_assoc. cbn [app]. do 2 f_equal.
        rewrite filter_both. apply filter_ext. intros a.
        unfold Dict.mem. rewrite get_app_absent.
        destruct (Dict.get a acc); cbn [negb andb]; rewrite ?andb_false_r; [reflexivity|].
        destruct (String.eqb a k); cbn [negb]; rewrite ?andb_true_r, ?andb_false_r;
          reflexivity.
Qed.

(** The stable sort keeps rows of equal counts in their order. *)
Lemma insert_desc_stable n x l :
  filter (fun r : string * Z => snd r =? n) (insert_desc x l)
  = filter (fun r : string * Z => snd r =? n) (x :: l).
Proof.
  induction l as [|y l IH]; [reflexivity|]. cbn [insert_desc].
  destruct (snd y <=? snd x) eqn:E; [reflexivity|]. apply Z.leb_gt in E.
  cbn [filter] in *. rewrite IH.
  destruct (snd x =? n) eqn:Ex, (snd y =? n) eqn:Ey; try reflexivity.
  apply Z.eqb_eq in Ex, Ey. lia.
Qed.

Lemma sorted_desc_stable n l :
  filter (fun r : string * Z => snd r =? n) (sorted_desc l)
  = filter (fun r : string * Z => snd r =? n) l.
Proof.
  induction l as [|x l IH]; [reflexivity|]. cbn [sorted_desc].
  rewrite insert_desc_stable. cbn [filter]. rewrite IH. reflexivity.
Qed.

Lemma filter_by_value (g : string -> Z) n (l : list (string * Z)) :
  Forall (fun row => snd row = g (fst row)) l ->
  map fst (filter (fun r : string * Z => snd r =? n) l)
  = filter (fun a => g a =? n) (map fst l).
Proof.
  induction 1 as [|[a v] l Hx Hl IH]; [reflexivity|]. cbn [filter map fst snd] in *.
  subst v. destruct (g a =? n); cbn [map fst]; rewrite IH; reflexivity.
Qed.

(** Every total is the number of lines blamed on its author. *)
Lemma totals_values u (infos : list diff_info) :
  Forall (fun row => snd row = lines_blamed (fst row) infos)
    (fold_left (total_step u) (flat_map reviewers infos) []).
Proof.
  apply Forall_forall. intros [k n] Hin.
  apply in_get_nodup in Hin; [|apply totals_nodup; constructor].
  rewrite get_totals in Hin. cbn [Dict.get fst snd] in *.
  destruct (String.eqb (Py.strip u) k); [discriminate|].
  destruct (Dict.mem k (flat_map reviewers infos)); [|discriminate].
  inversion Hin; subst n. reflexivity.
Qed.

Lemma filter_rows (n : Z) (ranking : list ranked) :
  map r_name (filter (fun r => r_lines r =? n) ranking)
  = map fst (filter (fun r : string * Z => snd r =? n) (map row_of ranking)).
Proof.
  induction ranking as [|r rs IH]; [reflexivity|]. cbn [filter map row_of snd].
  destruct (r_lines r =? n); cbn [map fst]; rewrite IH; reflexivity.
Qed.

(** *** The sum of the totals *)

Lemma sum_cons (r : string * Z) rows : sum_lines (r :: rows) = snd r + sum_lines rows.
Proof. rewrite !sum_lines_right. reflexivity. Qed.

Lemma sum_snoc rows (r : string * Z) : sum_lines (rows ++ [r]) = sum_lines rows + snd r.
Proof.
  induction rows as [|x rows IH]; cbn [app]; rewrite !sum_cons.
  - change (sum_lines []) with 0. lia.
  - rewrite IH. lia.
Qed.

Lemma sum_set k n v (acc : Dict.t Z) :
  Dict.get k acc = Some n -> sum_lines (Dict.set k v acc) = sum_lines acc - n + v.
Proof.
  induction acc as [|[k' v'] acc IH]; cbn [Dict.get Dict.set]; [discriminate|].
  destruct (String.eqb k k'); intros H.
  - inversion H; subst. rewrite !sum_cons. cbn [snd]. lia.
  - rewrite !sum_cons, (IH H). lia.
Qed.

Lemma sum_totals u items : forall acc,
  sum_lines (fold_left (total_step u) items acc) = sum_lines acc + included_in u items.
Proof.
  induction items as [|[k ls] items IH]; intros acc.
  - cbn [fold_left included_in]. lia.
  - cbn [fold_left included_in]. rewrite IH, total_step_cases.
    destruct (String.eqb (Py.strip u) k); [lia|].
    destruct (Dict.get k acc) as [n|] eqn:G.
    + rewrite (@sum_set _ _ _ _ G). lia.
    + rewrite sum_snoc. cbn [snd]. lia.
Qed.

Lemma sum_perm (l l' : list (string * Z)) :
  Permutation l l' -> sum_lines l = sum_lines l'.
Proof.
  induction 1; rewrite ?sum_cons in *; lia.
Qed.

Lemma lines_in_le_included u a items :
  String.eqb (Py.strip u) a = false -> lines_in a items <= included_in u items.
Proof.
  intros Ha. induction items as [|[k ls] items IH]; cbn [lines_in included_in]; [lia|].
  destruct (String.eqb k a) eqn:E.
  - apply String.eqb_eq in E. subst k. rewrite Ha. lia.
  - destruct (String.eqb (Py.strip u) k); lia.
Qed.

End TieFacts.

(** X11.  When the records name an author other than the current user but
    hold no line of any such author, [get_total_reviewers] does not return
    an empty ranking: the first percentage is [Decimal(0) / 0] and raises
    [InvalidOperation]. *)
Theorem X11_reviewers_without_lines_raise
  (check_output : list string -> result string) (current_user : string)
  (infos : list diff_info) (author : string) :
  get_git_user check_output = Ok current_user ->
  author <> Py.strip current_user -> blamed author infos = true ->
  included_lines current_user infos = 0%Z ->
  get_total_reviewers check_output infos = Raise InvalidOperation.
Proof.
  intros Hu Hne Hb H0. unfold get_total_reviewers. rewrite Hu. cbn [bind].
  unfold total_reviewers_for. rewrite TotalFacts.totals_flat.
  set (totals := fold_left (total_step current_user) (flat_map reviewers infos) []).
  assert (Hzero : Forall (fun row : string * Z => snd row = 0%Z) totals).
  { pose proof (TieFacts.totals_values current_user infos) as Hv. fold totals in Hv.
    rewrite Forall_forall in *. intros [k n] Hin. specialize (Hv _ Hin).
    cbn [fst snd] in *. subst n.
    apply TotalFacts.in_get_nodup in Hin;
      [|apply TotalFacts.totals_nodup; constructor].
    unfold totals in Hin. rewrite TotalFacts.get_totals in Hin.
    destruct (String.eqb (Py.strip current_user) k) eqn:E; [discriminate|].
    pose proof (TieFacts.lines_in_le_included _ _ (flat_map reviewers infos) E).
    pose proof (TotalFacts.lines_in_nonneg k (flat_map reviewers infos)).
    unfold lines_blamed, included_lines in *. lia. }
  assert (Hin : exists n, In (author, n) totals).
  { assert (G : Dict.get author totals
                = Some (lines_in author (flat_map reviewers infos))).
    { unfold totals. rewrite TotalFacts.get_totals.
      assert (E : String.eqb (Py.strip current_user) author = false)
        by (apply String.eqb_neq; congruence).
      rewrite E. cbn [Dict.get]. unfold blamed in Hb. rewrite Hb. reflexivity. }
    eexists. apply DictFacts.get_in. exact G. }
  assert (Hsorted : Forall (fun row : string * Z => snd row = 0%Z) (sorted_desc totals)).
  { apply Forall_forall. intros row Hrow. rewrite Forall_forall in Hzero. apply Hzero.
    apply (Permutation_in _ (TotalFacts.sorted_desc_perm totals)). exact Hrow. }
  assert (Hsum : sum_lines (sorted_desc totals) = 0%Z).
  { clear - Hsorted. induction Hsorted as [|r rows Hr Hrows IH]; [reflexivity|].
    rewrite TieFacts.sum_cons, IH, Hr. reflexivity. }
  rewrite Hsum. destruct (sorted_desc totals) as [|[k n] rows] eqn:E.
  - exfalso. destruct Hin as (n & Hin).
    apply (Permutation_in _ (Permutation_sym (TotalFacts.sorted_desc_perm totals))) in Hin.
    rewrite E in Hin. exact Hin.
  - inversion Hsorted as [|? ? Hn _]; subst. cbn [snd] in Hn. subst n. reflexivity.
Qed.

Lemma X11_reviewers_without_lines_raise_witness :
  get_total_reviewers git_thirds [modified_with [("Bob", [])]]
  = Raise InvalidOperation.
Proof.
  apply (@X11_reviewers_without_lines_raise git_thirds "me"
           [modified_with [("Bob", [])]] "Bob").
  - reflexivity.
  - discriminate.
  - reflexivity.
  - reflexivity.
Defined.

(** X12.  Authors with the same number of lines are ranked in the order in
    which the records first name them: the sort is stable. *)
Theorem X12_ties_in_order_of_first_blame (current_user : string)
  (infos : list diff_info) (ranking : list ranked) (n : Z) :
  total_reviewers_for current_user infos = Ok ranking ->
  map r_name (filter (fun r => (r_lines r =? n)%Z) ranking)
  = filter (fun a => (lines_blamed a infos =? n)%Z)
      (authors_in_order current_user infos).
Proof.
  intros H. destruct (RankFacts.total_reviewers_for_rows _ _ H) as [Hrows _].
  rewrite TieFacts.filter_rows, Hrows, TieFacts.sorted_desc_stable.
  rewrite (@TieFacts.filter_by_value (fun a => lines_blamed a infos));
    [|apply TieFacts.totals_values].
  f_equal. change (map fst ?d) with (Dict.keys d).
  rewrite TieFacts.keys_totals. cbn [Dict.keys map app]. unfold authors_in_order.
  apply filter_ext. intros a. unfold Dict.mem. cbn [Dict.get negb].
  rewrite andb_true_r. reflexivity.
Qed.

Lemma X12_ties_in_order_of_first_blame_witness :
  map r_name
    (filter (fun r => (r_lines r =? 1)%Z)
       [Ranked "Ann" 1 (Decimal.Dec 3333 (-2)); Ranked "Bob" 1 (Decimal.Dec 3333 (-2));
        Ranked "Cy" 1 (Decimal.Dec 3333 (-2))])
  = ["Ann"; "Bob"; "Cy"].
Proof.
  rewrite (@X12_ties_in_order_of_first_blame "me" thirds_infos
             [Ranked "Ann" 1 (Decimal.Dec 3333 (-2));
              Ranked "Bob" 1 (Decimal.Dec 3333 (-2));
              Ranked "Cy" 1 (Decimal.Dec 3333 (-2))] 1%Z);
    [reflexivity | vm_compute; reflexivity].
Defined.

(** X13.  The line counts of a ranking add up to the lines the records
    blame on anyone but the current user: no line is counted twice and none
    is lost. *)
Theorem X13_ranking_counts_every_line (current_user : string)
  (infos : list diff_info) (ranking : list ranked) :
  total_reviewers_for current_user infos = Ok ranking ->
  sum_lines (map row_of ranking) = included_lines current_user infos.
Proof.
  intros H. destruct (RankFacts.total_reviewers_for_rows _ _ H) as [-> _].
  rewrite (TieFacts.sum_perm (TotalFacts.sorted_desc_perm _)).
  rewrite TieFacts.sum_totals. reflexivity.
Qed.

Lemma X13_ranking_counts_every_line_witness :
  sum_lines
    (map row_of [Ranked "alice" 10 (Decimal.Dec 6667 (-2));
                 Ranked "bob" 5 (Decimal.Dec 3333 (-2))])
  = included_lines "currentUser"
      [modified_with [("alice", some_lines 10); ("bob", some_lines 5);
                      ("currentUser", some_lines 100)]].
Proof.
  apply (@X13_ranking_counts_every_line "currentUser"
           [modified_with [("alice", some_lines 10); ("bob", some_lines 5);
                           ("currentUser", some_lines 100)]]).
  vm_compute. reflexivity.
Defined.

(** ** Percentages *)

(** The percentage of a share: always computed, and how close. *)
Lemma percent_share (lines total : Z) :
  (0 <= lines <= total)%Z -> (1 <= total)%Z ->
  exists p,
    percent lines total = Ok p
    /\ Decimal.expo p = (-2)%Z
    /\ (0 <= Decimal.coef p <= 10000)%Z
    /\ (2 * 10 ^ 23 * Z.abs (Decimal.coef p * total - 10000 * lines)
        <= (10 ^ 23 + 3) * total)%Z
    /\ (forall k, (k * total = 10000 * lines)%Z -> Decimal.coef p = k).
Proof.
  intros Hl Ht. destruct (DecimalFacts.percent_ok Hl Ht) as (p & Hp).
  exists p. split; [exact Hp|].
  destruct (DecimalFacts.percent_close Hl Ht Hp) as (He & Hclose).
  split; [exact He|]. split; [|split; [exact Hclose|]].
  - assert (E23 : (10 ^ 23 = 100000000000000000000000)%Z) by reflexivity.
    rewrite E23 in Hclose. clear E23 Hp He.
    generalize dependent (Decimal.coef p). intros a Hclose.
    destruct (Z_le_gt_dec 0 a) as [Hlo|Hlo], (Z_le_gt_dec a 10000) as [Hhi|Hhi];
      [lia | exfalso | exfalso | exfalso].
    + assert (Hp : (10001 * total <= a * total)%Z) by nia.
      set (m := (a * total)%Z) in *. lia.
    + assert (Hp : (a * total <= - total)%Z) by nia.
      set (m := (a * total)%Z) in *. lia.
    + lia.
  - intros k Hk.
    assert (E23 : (10 ^ 23 = 100000000000000000000000)%Z) by reflexivity.
    rewrite E23 in Hclose. clear E23 Hp He.
    generalize dependent (Decimal.coef p). intros a Hclose.
    replace (a * total - 10000 * lines)%Z with ((a - k) * total)%Z in Hclose
      by (rewrite <- Hk; ring).
    rewrite Z.abs_mul, (Z.abs_eq total) in Hclose by lia.
    assert (Hz : (Z.abs (a - k) < 1)%Z) by nia. lia.
Qed.

(** X14.  The percentage of [lines] out of [total] is computed without an
    exception, has two decimal places, lies between 0 and 100, is within
    half a hundredth (and a part in [10 ^ 23] of one) of the exact share,
    and is the exact share whenever that has no more than two decimal
    places; a sole reviewer is thus ranked with 100.00. *)
Theorem X14_percent_is_the_rounded_share (lines total : Z) :
  (0 <= lines <= total)%Z -> (1 <= total)%Z ->
  exists p,
    percent lines total = Ok p
    /\ Decimal.expo p = (-2)%Z
    /\ (0 <= Decimal.coef p <= 10000)%Z
    /\ (2 * 10 ^ 23 * Z.abs (Decimal.coef p * total - 10000 * lines)
        <= (10 ^ 23 + 3) * total)%Z
    /\ (forall k, (k * total = 10000 * lines)%Z -> Decimal.coef p = k).
Proof. apply percent_share. Qed.

Lemma X14_percent_is_the_rounded_share_witness :
  exists p,
    percent 7 7 = Ok p
    /\ Decimal.expo p = (-2)%Z
    /\ (0 <= Decimal.coef p <= 10000)%Z
    /\ (2 * 10 ^ 23 * Z.abs (Decimal.coef p * 7 - 10000 * 7) <= (10 ^ 23 + 3) * 7)%Z
    /\ (forall k, (k * 7 = 10000 * 7)%Z -> Decimal.coef p = k).
Proof.
  apply (@X14_percent_is_the_rounded_share 7 7); lia.
Defined.

(** X15.  For the records the pipeline collects, the ranking is always
    computed once [git config] has answered: every ranked author has a
    line, so no percentage divides by zero, and none leaves the precision
    of the context. *)
Theorem X15_ranking_of_collected_records
  (check_output : list string -> result string) (raw : list string)
  (branch : string) (infos : list diff_info) (display : list (color * string))
  (current_user : string) :
  collect_diff_infos check_output raw branch = Ok (infos, display) ->
  get_git_user check_output = Ok current_user ->
  exists ranking,
    get_total_reviewers check_output infos = Ok ranking
    /\ Forall (fun row => (1 <= r_lines row)%Z) ranking.
Proof.
  intros Hc Hu. unfold get_total_reviewers. rewrite Hu. cbn [bind].
  destruct (@ranking_never_fails _ _ _ _ _ current_user Hc) as (ranking & Hr).
  exists ranking. split; [exact Hr|].
  destruct (RankFacts.total_reviewers_for_rows _ _ Hr) as [Hrows _].
  pose proof (@totals_positive current_user _ (@collected_attributed _ _ _ _ _ Hc))
    as Hpos.
  apply Forall_forall. intros row Hin.
  assert (Hrow : In (row_of row) (sorted_desc
                   (fold_left (total_step current_user) (flat_map reviewers infos) [])))
    by (rewrite <- Hrows; apply in_map; exact Hin).
  apply (Permutation_in _ (TotalFacts.sorted_desc_perm _)) in Hrow.
  rewrite Forall_forall in Hpos. exact (Hpos _ Hrow).
Qed.

Lemma X15_ranking_of_collected_records_witness :
  exists ranking,
    get_total_reviewers git_thirds thirds_infos = Ok ranking
    /\ Forall (fun row => (1 <= r_lines row)%Z) ranking.
Proof.
  apply (@X15_ranking_of_collected_records git_thirds [raw_modified] "master"
           thirds_infos [(YELLOW, raw_modified)] "me"); vm_compute; reflexivity.
Defined.

(** ** Contributor mode, whatever the order of the lines *)

Section Listing.

Variable highlight : string -> string.

Lemma line_text_no_gap_marker l : no_gap_marker (line_text highlight l) = true.
Proof.
  unfold no_gap_marker. apply negb_true_iff. apply String.eqb_neq. intros H.
  assert (Hbar : Py.occurs "|" (line_text highlight l) = true).
  { unfold line_text. rewrite !PyFacts.occurs_app. cbn [Py.occurs].
    rewrite Ascii.eqb_refl. cbn [orb]. apply orb_true_r. }
  rewrite H in Hbar. discriminate Hbar.
Qed.

Lemma contributer_line_result output prev_line l st :
  contributer_line highlight (output, prev_line) l = Ok st ->
  exists n,
    st = (((if gap_after prev_line n then output ++ GAP else output)
           ++ [line_text highlight l])%list, Some n).
Proof.
  unfold contributer_line. intros H. inv_bind H. inversion H; subst st.
  exists x. reflexivity.
Qed.

Lemma contributer_line_listed output prev_line l st :
  contributer_line highlight (output, prev_line) l = Ok st ->
  filter no_gap_marker (fst st)
  = (filter no_gap_marker output ++ [line_text highlight l])%list.
Proof.
  intros H. destruct (contributer_line_result _ _ _ H) as (n & ->). cbn [fst].
  rewrite filter_app. cbn [filter]. rewrite line_text_no_gap_marker.
  destruct (gap_after prev_line n); [rewrite filter_app, app_nil_r|]; reflexivity.
Qed.

Lemma contributer_lines_listed lines : forall output prev_line st,
  for_each (contributer_line highlight) lines (output, prev_line) = Ok st ->
  filter no_gap_marker (fst st)
  = (filter no_gap_marker output ++ map (line_text highlight) lines)%list.
Proof.
  induction lines as [|l lines IH]; intros output prev_line st H.
  - inversion H; subst. cbn. rewrite app_nil_r. reflexivity.
  - rewrite for_each_cons in H. inv_bind H. destruct x as [output' prev'].
    rewrite (IH _ _ _ H). apply contributer_line_listed in E. cbn [fst] in E.
    rewrite E, <- app_assoc. reflexivity.
Qed.

End Listing.

(** X16.  However the lines of the contributor are ordered, contributor
    mode drops and moves none of them: without the gap markers, the listing
    is, record by record, the header, the text of every line in the order
    stored, and a blank block. *)
Theorem X16_contributer_lines_all_listed (highlight : string -> string)
  (contributer : string) (infos : list diff_info) (output : list string) :
  contributer_output highlight contributer infos = Ok output ->
  filter no_gap_marker output
  = flat_map (listed_lines highlight contributer) infos.
Proof.
  unfold contributer_output.
  match goal with |- for_each ?b _ _ = _ -> _ => set (body := b) end.
  assert (G : forall todo acc out,
             for_each body todo acc = Ok out ->
             filter no_gap_marker out
             = (filter no_gap_marker acc
                ++ flat_map (listed_lines highlight contributer) todo)%list).
  { induction todo as [|info todo IH]; intros acc out H.
    - inversion H; subst. cbn. rewrite app_nil_r. reflexivity.
    - rewrite for_each_cons in H. inv_bind H. rewrite (IH _ _ H). clear IH H.
      cbn [flat_map]. rewrite app_assoc. f_equal.
      unfold body in E. unfold listed_lines.
      destruct (Dict.get contributer (reviewers info)) as [[|l lines]|].
      + inversion E; subst. rewrite app_nil_r. reflexivity.
      + do 3 inv_bind E. inversion E; subst x. clear E.
        destruct (from_hash info); [|discriminate]. inversion E0; subst.
        destruct (file info); [|discriminate]. inversion E1; subst.
        rewrite filter_app. apply contributer_lines_listed in E2. rewrite E2.
        rewrite filter_app. cbn [filter]. rewrite <- !app_assoc. reflexivity.
      + inversion E; subst. rewrite app_nil_r. reflexivity. }
  intros H. rewrite (G _ _ _ H). reflexivity.
Qed.

Lemma X16_contributer_lines_all_listed_witness :
  filter no_gap_marker
    [section_header "bcd1234" "a.py";
     ("   16|" ++ TAB ++ "    pass")%string; ("   10|" ++ TAB ++ "def f():")%string;
     "    ."; "    ."; "    ."; ("   15|" ++ TAB ++ "def g():")%string;
     (LF ++ LF)%string]
  = [section_header "bcd1234" "a.py";
     ("   16|" ++ TAB ++ "    pass")%string; ("   10|" ++ TAB ++ "def f():")%string;
     ("   15|" ++ TAB ++ "def g():")%string; (LF ++ LF)%string].
Proof.
  rewrite (@X16_contributer_lines_all_listed (fun code => code) "Jane Doe"
             [modified_with
                [("Jane Doe", [BlameLine "16" "    pass"; BlameLine "10" "def f():";
                               BlameLine "15" "def g():"])]]);
    reflexivity.
Defined.

(** ** The run as a whole *)

Section Run.

Variable check_output : list string -> result string.




(** The loop stops at the first line that cannot be processed. *)
Lemma collect_fails branch diff e raw :
  In diff raw -> get_file_reviewers check_output diff branch = Raise e ->
  exists e', collect_diff_infos check_output raw branch = Raise e'.
Proof.
  unfold collect_diff_infos. generalize (@nil diff_info, @nil (color * string)).
  induction raw as [|d todo IH]; intros st Hin He; [contradiction|].
  rewrite for_each_cons.
  destruct (get_file_reviewers check_output d branch) as [info|e1] eqn:Ed.
  - destruct Hin as [->|Hin]; [congruence|]. cbn [bind].
    destruct (type info); cbn [bind]; apply IH; assumption.
  - cbn [bind]. eauto.
Qed.

End Run.

(** X17.  When [git diff --raw] prints nothing, nothing is printed in
    colour, contributor mode pages the empty text and ranking mode gives
    the empty ranking, whatever [git] would answer to a diff or a blame. *)
Theorem X17_nothing_changed (check_output : list string -> result string)
  (highlight : string -> string) (branch out : string) :
  Py.occurs " " branch = false ->
  check_output ["git"; "--no-pager"; "diff"; "--raw"; branch] = Ok out ->
  Py.strip out = "" ->
  (forall c s,
      get_reviewers check_output highlight (Some (String c s)) branch
      = Ok ([], Pager ""))
  /\ (forall current_user,
        get_git_user check_output = Ok current_user ->
        get_reviewers check_output highlight None branch = Ok ([], Suggested [])).
Proof.
  intros Hb Hout Hs.
  assert (Hraw : get_diff_raw check_output branch = Ok [""]).
  { unfold get_diff_raw, run_cmd.
    replace ("git --no-pager diff --raw " ++ branch)
      with ("git" ++ String " " ("--no-pager" ++ String " " ("diff" ++ String " "
            ("--raw" ++ String " " branch)))) by PyFacts.str_eq.
    rewrite !PyFacts.split_app by reflexivity.
    rewrite (PyFacts.split_absent _ _ Hb), Hout. cbn [bind]. rewrite Hs. reflexivity. }
  split.
  - intros c s. unfold get_reviewers. rewrite Hraw. reflexivity.
  - intros u Hu. unfold get_reviewers. rewrite Hraw. cbn [bind].
    change (collect_diff_infos check_output [""] branch) with (@Ok _ (@nil diff_info, @nil (color * string))).
    cbn [bind fst snd]. unfold get_total_reviewers. rewrite Hu. reflexivity.
Qed.

Lemma X17_nothing_changed_witness :
  (forall c s,
      get_reviewers (canned_git "me" LF "" "") (fun code => code)
        (Some (String c s)) "master"
      = Ok ([], Pager ""))
  /\ (forall current_user,
        get_git_user (canned_git "me" LF "" "") = Ok current_user ->
        get_reviewers (canned_git "me" LF "" "") (fun code => code) None "master"
        = Ok ([], Suggested [])).
Proof.
  apply (@X17_nothing_changed (canned_git "me" LF "" "") (fun code => code)
           "master" LF); reflexivity.
Defined.

(** X18.  One line of the raw diff that cannot be processed, because its
    parsing, its diff or one of its blames fails, makes the whole run fail:
    nothing is ranked or listed from the other lines. *)
Theorem X18_one_failure_fails_the_run (check_output : list string -> result string)
  (highlight : string -> string) (contributer : option string) (branch : string)
  (raw : list string) (diff : string) (e : exn) :
  get_diff_raw check_output branch = Ok raw ->
  In diff raw ->
  get_file_reviewers check_output diff branch = Raise e ->
  exists e', get_reviewers check_output highlight contributer branch = Raise e'.
Proof.
  intros Hraw Hin He.
  destruct (@collect_fails check_output branch diff e raw Hin He) as (e' & He').
  exists e'. unfold get_reviewers. rewrite Hraw. cbn [bind].
  rewrite He'. reflexivity.
Qed.

Lemma X18_one_failure_fails_the_run_witness :
  exists e',
    get_reviewers
      (canned_git "me" (raw_modified ++ LF ++ ":100644 M" ++ TAB ++ "b.py")
         canned_diff canned_blame)
      (fun code => code) None "master"
    = Raise e'.
Proof.
  apply (@X18_one_failure_fails_the_run
           (canned_git "me" (raw_modified ++ LF ++ ":100644 M" ++ TAB ++ "b.py")
              canned_diff canned_blame)
           (fun code => code) None "master"
           [raw_modified; (":100644 M" ++ TAB ++ "b.py")%string]
           (":100644 M" ++ TAB ++ "b.py")%string ValueError).
  - reflexivity.
  - right. left. reflexivity.
  - reflexivity.
Defined.



(** ** What a blame line is cut into *)

Module CutFacts.

Import Py PyFacts.

Lemma split_once_spec c s : forall l r,
  split_once c s = Some (l, r) -> s = (l ++ String c r)%string /\ occurs c l = false.
Proof.
  induction s as [|a s IH]; intros l r H; [discriminate|]. cbn [split_once] in H.
  destruct (Ascii.eqb a c) eqn:E.
  - apply Ascii.eqb_eq in E. inversion H; subst. auto.
  - destruct (split_once c s) as [[l' r']|]; [|discriminate].
    inversion H; subst. destruct (IH l' r eq_refl) as [-> Hl].
    cbn [append occurs]. rewrite E, Hl. auto.
Qed.

Lemma split_once_none c s : occurs c s = false -> split_once c s = None.
Proof.
  induction s as [|a s IH]; [reflexivity|]. cbn [occurs split_once]. intros H.
  apply orb_false_elim in H. destruct H as [Ha Hs]. rewrite Ha, (IH Hs). reflexivity.
Qed.

Lemma rpartition_tail_spec c s :
  occurs c (rpartition_tail c s) = false
  /\ (rpartition_tail c s = s
      \/ exists before, s = (before ++ String c (rpartition_tail c s))%string).
Proof.
  induction s as [|a s IH]; [auto|]. cbn [rpartition_tail]. rewrite contains_str1.
  destruct (occurs c s) eqn:Hs.
  - destruct IH as [Hno [Hsame|(before & Hb)]].
    + rewrite Hsame, Hs in Hno. discriminate.
    + split; [exact Hno|]. right. exists (String a before). rewrite Hb at 1. reflexivity.
  - destruct (Ascii.eqb a c) eqn:E.
    + apply Ascii.eqb_eq in E. subst a. split; [exact Hs|]. right. exists "". reflexivity.
    + split; [|auto]. cbn [occurs]. rewrite E, Hs. reflexivity.
Qed.

End CutFacts.

(** X20.  [get_blame_code_line] raises [ValueError] on a line without
    [")"].  On any other line it cuts at the first [")"]: the code is what
    follows it but for one character, whatever that character is, and the
    line number is what stands between the last blank before it, or the
    start of the line, and it. *)
Theorem X20_get_blame_code_line_cuts (ln : string) :
  (Py.occurs ")" ln = false -> get_blame_code_line ln = Raise ValueError)
  /\ (forall bl,
        get_blame_code_line ln = Ok bl ->
        exists prefix rest,
          ln = prefix ++ ")" ++ rest
          /\ Py.occurs ")" prefix = false
          /\ code_line bl = Py.tail rest
          /\ Py.occurs " " (line_num bl) = false
          /\ (prefix = line_num bl
              \/ exists before, prefix = before ++ " " ++ line_num bl)).
Proof.
  unfold get_blame_code_line. split.
  - intros H. rewrite (CutFacts.split_once_none _ _ H). reflexivity.
  - intros bl H. destruct (Py.split_once ")" ln) as [[prefix rest]|] eqn:E; [|discriminate].
    inversion H; subst bl. clear H. cbn [code_line line_num].
    destruct (CutFacts.split_once_spec _ _ E) as [-> Hp].
    exists prefix, rest. split; [reflexivity|]. split; [exact Hp|]. split; [reflexivity|].
    destruct (CutFacts.rpartition_tail_spec " " prefix) as [Hno [Hsame|(before & Hb)]].
    + split; [exact Hno|]. left. symmetry. exact Hsame.
    + split; [exact Hno|]. right. exists before. exact Hb.
Qed.

(** ** The words that count as dates *)

Module DateFacts.

Import Re ReFacts.

Lemma fullmatch_alt s : forall a b,
  fullmatch (Alt a b) s = fullmatch a s || fullmatch b s.
Proof.
  induction s as [|c s IH]; intros a b; [reflexivity|]. cbn [fullmatch deriv]. apply IH.
Qed.

Lemma fullmatch_eps s : fullmatch Eps s = true <-> s = "".
Proof.
  destruct s as [|c s]; [split; reflexivity|]. cbn [fullmatch deriv].
  rewrite void_no_match by reflexivity. split; discriminate.
Qed.

Lemma fullmatch_class p s :
  fullmatch (Class p) s = true <-> exists c, s = String c "" /\ p c = true.
Proof.
  destruct s as [|c s]; cbn [fullmatch deriv nullable].
  - split; [discriminate | intros (c & H & _); discriminate].
  - destruct (p c) eqn:E.
    + rewrite fullmatch_eps. split.
      * intros ->. eauto.
      * intros (c' & H & _). inversion H. reflexivity.
    + rewrite void_no_match by reflexivity. split; [discriminate|].
      intros (c' & H & Hc). inversion H; subst. congruence.
Qed.

(** A concatenation matches the texts that split in two matching halves. *)
Lemma fullmatch_cat s : forall a b,
  fullmatch (Cat a b) s = true <->
  exists s1 s2, s = (s1 ++ s2)%string /\ fullmatch a s1 = true /\ fullmatch b s2 = true.
Proof.
  induction s as [|c s IH]; intros a b.
  - cbn [fullmatch nullable]. rewrite andb_true_iff. split.
    + intros [Ha Hb]. exists "", "". auto.
    + intros (s1 & s2 & H & Ha & Hb). destruct s1; [|discriminate].
      destruct s2; [|discriminate]. auto.
  - cbn [fullmatch deriv].
    assert (Hleft : fullmatch (Cat (deriv c a) b) s = true <->
                    exists t1 s2, s = (t1 ++ s2)%string
                                  /\ fullmatch a (String c t1) = true
                                  /\ fullmatch b s2 = true) by apply IH.
    destruct (nullable a) eqn:Na.
    + rewrite fullmatch_alt, orb_true_iff, Hleft. split.
      * intros [(t1 & s2 & -> & Ha & Hb)|Hb].
        -- exists (String c t1), s2. auto.
        -- exists "", (String c s). auto.
      * intros (s1 & s2 & H & Ha & Hb). destruct s1 as [|c1 t1].
        -- cbn [append] in H. subst s2. right. exact Hb.
        -- cbn [append] in H. inversion H; subst. left. eauto.
    + rewrite Hleft. split.
      * intros (t1 & s2 & -> & Ha & Hb). exists (String c t1), s2. auto.
      * intros (s1 & s2 & H & Ha & Hb). destruct s1 as [|c1 t1].
        -- cbn [fullmatch] in Ha. congruence.
        -- cbn [append] in H. inversion H; subst. eauto.
Qed.

Lemma fullmatch_times p n : forall s,
  fullmatch (times n (Class p)) s = true <->
  Py.all_chars p s = true /\ String.length s = n.
Proof.
  induction n as [|n IH]; intros s; cbn [times].
  - rewrite fullmatch_eps. split.
    + intros ->. auto.
    + intros [_ H]. destruct s; [reflexivity | discriminate].
  - rewrite fullmatch_cat. split.
    + intros (s1 & s2 & -> & H1 & H2). apply fullmatch_class in H1.
      destruct H1 as (c & -> & Hc). apply IH in H2. destruct H2 as [Hs Hn].
      cbn [append Py.all_chars String.length]. rewrite Hc, Hs, Hn. auto.
    + intros [Hs Hn]. destruct s as [|c s]; [discriminate|].
      cbn [Py.all_chars String.length] in *. apply andb_prop in Hs.
      destruct Hs as [Hc Hs]. exists (String c ""), s. split; [reflexivity|]. split.
      * apply fullmatch_class. eauto.
      * apply IH. split; [exact Hs | congruence].
Qed.

Lemma fullmatch_once_or_twice p s :
  fullmatch (once_or_twice (Class p)) s = true <->
  Py.all_chars p s = true /\ (1 <= String.length s)%nat /\ (String.length s <= 2)%nat.
Proof.
  unfold once_or_twice. rewrite fullmatch_cat. split.
  - intros (s1 & s2 & -> & H1 & H2). apply fullmatch_class in H1.
    destruct H1 as (c & -> & Hc). rewrite fullmatch_alt, orb_true_iff in H2.
    destruct H2 as [H2|H2].
    + apply fullmatch_eps in H2. subst s2. cbn. rewrite Hc. auto.
    + apply fullmatch_class in H2. destruct H2 as (c' & -> & Hc').
      cbn. rewrite Hc, Hc'. auto.
  - intros (Hs & Hlo & Hhi). destruct s as [|c [|c' [|c'' s]]]; cbn in Hlo, Hhi; try lia.
    + cbn in Hs. rewrite andb_true_r in Hs.
      exists (String c ""), "". split; [reflexivity|]. split.
      * apply fullmatch_class. eauto.
      * rewrite fullmatch_alt. reflexivity.
    + cbn in Hs. rewrite andb_true_r in Hs. apply andb_prop in Hs. destruct Hs as [Hc Hc'].
      exists (String c ""), (String c' ""). split; [reflexivity|]. split.
      * apply fullmatch_class. eauto.
      * rewrite fullmatch_alt, orb_true_iff. right. apply fullmatch_class. eauto.
Qed.

Lemma fullmatch_lit c s : fullmatch (lit c) s = true <-> s = String c "".
Proof.
  unfold lit. rewrite fullmatch_class. split.
  - intros (c' & -> & H). apply Ascii.eqb_eq in H. subst. reflexivity.
  - intros ->. exists c. split; [reflexivity | apply Ascii.eqb_refl].
Qed.

Lemma fullmatch_date s :
  fullmatch date_re s = true <->
  exists y m d,
    digits_between 4 4 y /\ digits_between 1 2 m /\ digits_between 1 2 d
    /\ s = (y ++ "-" ++ m ++ "-" ++ d)%string.
Proof.
  unfold date_re, digits_between. rewrite fullmatch_cat. split.
  - intros (y & r1 & -> & Hy & H). apply fullmatch_times in Hy.
    apply fullmatch_cat in H. destruct H as (h1 & r2 & -> & Hh1 & H).
    apply fullmatch_lit in Hh1. subst h1.
    apply fullmatch_cat in H. destruct H as (m & r3 & -> & Hm & H).
    apply fullmatch_once_or_twice in Hm.
    apply fullmatch_cat in H. destruct H as (h2 & d & -> & Hh2 & Hd).
    apply fullmatch_lit in Hh2. subst h2. apply fullmatch_once_or_twice in Hd.
    exists y, m, d. destruct Hy as [Hy Hn]. rewrite Hn. repeat split; auto; tauto.
  - intros (y & m & d & (Hy & Hy1 & Hy2) & Hm & Hd & ->).
    exists y, ("-" ++ m ++ "-" ++ d)%string. split; [reflexivity|]. split.
    + apply fullmatch_times. split; [exact Hy | lia].
    + apply fullmatch_cat. exists "-", (m ++ "-" ++ d)%string.
      split; [reflexivity|]. split; [apply fullmatch_lit; reflexivity|].
      apply fullmatch_cat. exists m, ("-" ++ d)%string.
      split; [reflexivity|]. split; [apply fullmatch_once_or_twice; exact Hm|].
      apply fullmatch_cat. exists "-", d.
      split; [reflexivity|]. split; [apply fullmatch_lit; reflexivity|].
      apply fullmatch_once_or_twice; exact Hd.
Qed.

Lemma chomp_app t : chomp (t ++ String Py.LF "") = Some t.
Proof.
  induction t as [|c t IH]; [reflexivity|]. cbn [append chomp].
  rewrite IH. destruct (t ++ String Py.LF "")%string eqn:E; [|reflexivity].
  destruct t; discriminate.
Qed.

End DateFacts.

(** X21.  The words at which [get_blame_reviewer] stops are exactly the
    texts of four digits, a hyphen, one or two digits, a hyphen and one or
    two digits, and these texts followed by one line feed, which [$]
    matches before. *)
Theorem X21_is_date_shape (part : string) :
  is_date part = true <->
  exists y m d,
    digits_between 4 4 y /\ digits_between 1 2 m /\ digits_between 1 2 d
    /\ (part = y ++ "-" ++ m ++ "-" ++ d
        \/ part = y ++ "-" ++ m ++ "-" ++ d ++ LF).
Proof.
  unfold is_date, Re.match_anchored. rewrite orb_true_iff, DateFacts.fullmatch_date.
  split.
  - intros [(y & m & d & Hy & Hm & Hd & ->)|H].
    + exists y, m, d. auto.
    + destruct (Re.chomp part) as [t|] eqn:E; [|discriminate].
      apply ReFacts.chomp_some in E. apply DateFacts.fullmatch_date in H.
      destruct H as (y & m & d & Hy & Hm & Hd & ->). exists y, m, d.
      split; [exact Hy|]. split; [exact Hm|]. split; [exact Hd|]. right.
      rewrite E. unfold LF. PyFacts.str_eq.
  - intros (y & m & d & Hy & Hm & Hd & [->| ->]).
    + left. exists y, m, d. auto.
    + right.
      replace (y ++ "-" ++ m ++ "-" ++ d ++ LF)
        with ((y ++ "-" ++ m ++ "-" ++ d) ++ String Py.LF "")
        by (unfold LF; PyFacts.str_eq).
      rewrite DateFacts.chomp_app. apply DateFacts.fullmatch_date.
      exists y, m, d. auto.
Qed.

(** ** One changed file, from its raw line to its reviewers *)

(** X22.  The record of a raw diff line with a status other than [A] holds
    one chunk for each [@@] line of the diff of its file, in order, and for
    each author the lines that the blames of these chunks, taken in order,
    attribute to that author, and no others. *)
Theorem X22_reviewers_of_a_changed_file
  (check_output : list string -> result string) (ln branch : string)
  (info : diff_info) (t : string) :
  get_file_reviewers check_output ln branch = Ok info ->
  type info = Some t -> t <> "A" ->
  exists f diff blames,
    file info = Some f
    /\ get_file_diff check_output f (to_file info) branch = Ok diff
    /\ Forall2 (fun c header => code_chunk [] header = Ok [c]) (chunks info)
         (filter (Py.contains "@@") diff)
    /\ Forall2 (fun chunk blame_info =>
                  get_blame check_output f (start_line chunk) (num_lines chunk) branch
                  = Ok blame_info)
         (chunks info) blames
    /\ forall author,
         lines_of author (reviewers info) = blamed_on author (List.concat blames).
Proof.
  intros H Ht Hne.
  destruct (file_reviewers_cases _ _ _ H) as (parsed & Hp & [[Ha ->]|[_ Hrun]]).
  - exfalso. unfold added_or_untyped in Ha. rewrite Ht in Ha.
    apply String.eqb_eq in Ha. contradiction.
  - inv_bind Hrun. rename x into chunked.
    destruct (read_diff_raw_line_fresh _ Hp) as (_ & _ & Hr0).
    destruct (code_chunks_result _ _ _ E) as (f & diff & Hf & Hd & Hchunks & Hc).
    destruct (blame_data_result _ _ _ Hrun) as (blames & Hb & Hlines & Hi).
    assert (Hfile : file chunked = Some f) by (rewrite Hc; exact Hf).
    exists f, diff, blames.
    rewrite Hi. cbn [file to_file chunks reviewers set_reviewers].
    split; [exact Hfile|]. split; [rewrite Hc; exact Hd|]. split; [exact Hchunks|].
    split.
    + eapply Forall2_impl; [|exact Hb]. intros c b (f' & Hf' & Hg). congruence.
    + intros author. rewrite Hlines, Hc. cbn [reviewers set_chunks]. rewrite Hr0.
      reflexivity.
Qed.

Lemma X22_reviewers_of_a_changed_file_witness :
  exists f diff blames,
    file (nth 1 two_hunk_infos (modified_with [])) = Some f
    /\ get_file_diff git_two_hunks f
         (to_file (nth 1 two_hunk_infos (modified_with []))) "master" = Ok diff
    /\ Forall2 (fun c header => code_chunk [] header = Ok [c])
         (chunks (nth 1 two_hunk_infos (modified_with [])))
         (filter (Py.contains "@@") diff)
    /\ Forall2 (fun chunk blame_info =>
                  get_blame git_two_hunks f (start_line chunk) (num_lines chunk)
                    "master" = Ok blame_info)
         (chunks (nth 1 two_hunk_infos (modified_with []))) blames
    /\ forall author,
         lines_of author (reviewers (nth 1 two_hunk_infos (modified_with [])))
         = blamed_on author (List.concat blames).
Proof.
  apply (@X22_reviewers_of_a_changed_file git_two_hunks raw_modified "master"
           (nth 1 two_hunk_infos (modified_with [])) "M").
  - vm_compute. reflexivity.
  - reflexivity.
  - discriminate.
Defined.

(** X23.  A changed file whose diff holds no [@@] line, as that of a binary
    file or of a change of mode, comes out of [get_file_reviewers] as
    [read_diff_raw_line] read it, without chunks and without reviewers,
    whatever [git blame] would answer. *)
Theorem X23_no_hunk_no_reviewers (check_output : list string -> result string)
  (ln branch : string) (parsed : diff_info) (f : string) (diff : list string) :
  read_diff_raw_line ln = Ok parsed ->
  added_or_untyped parsed = false ->
  file parsed = Some f ->
  get_file_diff check_output f (to_file parsed) branch = Ok diff ->
  Forall (fun l => Py.contains "@@" l = false) diff ->
  get_file_reviewers check_output ln branch = Ok parsed
  /\ chunks parsed = [] /\ reviewers parsed = [].
Proof.
  intros Hp Ha Hf Hd Hno.
  destruct (read_diff_raw_line_fresh _ Hp) as (_ & Hc0 & Hr0).
  split; [|auto]. unfold get_file_reviewers. rewrite Hp. cbn [bind]. rewrite Ha.
  unfold get_code_chunks. rewrite Hf. cbn [getitem bind]. rewrite Hd. cbn [bind].
  assert (Hloop : for_each code_chunk diff [] = Ok []).
  { clear Hd. induction Hno as [|l diff Hl _ IH]; [reflexivity|].
    rewrite for_each_cons. unfold code_chunk at 1. rewrite Hl. cbn [negb bind].
    exact IH. }
  rewrite Hloop. cbn [bind]. unfold get_blame_data. cbn [chunks set_chunks for_each bind].
  destruct parsed. cbn in *. subst. reflexivity.
Qed.

Lemma X23_no_hunk_no_reviewers_witness :
  get_file_reviewers
    (canned_git "me" raw_modified "Binary files a/a.py and b/a.py differ" "")
    raw_modified "master"
  = Ok (set_chunks (modified_with []) [])
  /\ chunks (set_chunks (modified_with []) []) = []
  /\ reviewers (set_chunks (modified_with []) []) = [].
Proof.
  apply (@X23_no_hunk_no_reviewers
           (canned_git "me" raw_modified "Binary files a/a.py and b/a.py differ" "")
           raw_modified "master" (set_chunks (modified_with []) []) "a.py"
           ["Binary files a/a.py and b/a.py differ"]).
  - reflexivity.
  - reflexivity.
  - reflexivity.
  - reflexivity.
  - repeat constructor.
Defined.

(** ** Line numbers that are no numbers *)

Section BadNumbers.

Variable check_output : list string -> result string.
Variable highlight : string -> string.

Lemma int_raises s e : PyInt.int s = Raise e -> e = ValueError.
Proof.
  unfold PyInt.int, PyInt.of_option.
  destruct (PyInt.skip_space s) as [|c r].
  - destruct (PyInt.digits "" 0 false); congruence.
  - repeat match goal with
           | |- context [match ?x with _ => _ end] => destruct x
           end; congruence.
Qed.

Lemma numbered_all lines :
  forallb numbered lines = true ->
  Forall (fun l => exists n, PyInt.int (line_num l) = Ok n) lines.
Proof.
  induction lines as [|l lines IH]; [constructor|]. cbn [forallb]. intros H.
  apply andb_prop in H. destruct H as [Hl Hrest]. constructor; [|apply IH; exact Hrest].
  unfold numbered in Hl. destruct (PyInt.int (line_num l)); [eauto | discriminate].
Qed.

Lemma contributer_lines_fail lines : forall st,
  forallb numbered lines = false ->
  for_each (contributer_line highlight) lines st = Raise ValueError.
Proof.
  induction lines as [|l lines IH]; intros [output prev_line] H; [discriminate|].
  cbn [forallb] in H. rewrite for_each_cons. unfold contributer_line at 1.
  unfold numbered at 1 in H.
  destruct (PyInt.int (line_num l)) as [n|e] eqn:E; cbn [bind].
  - cbn [andb] in H. apply IH. exact H.
  - rewrite (int_raises _ E). reflexivity.
Qed.

End BadNumbers.

(** X24.  For the records the pipeline collects, contributor mode fails
    exactly when the number of one of the lines it has to list is no number
    to [int], and then with [ValueError]: nothing is listed. *)
Theorem X24_contributer_mode_and_bad_numbers
  (check_output : list string -> result string) (highlight : string -> string)
  (raw : list string) (branch : string) (infos : list diff_info)
  (display : list (color * string)) (contributer : string) :
  collect_diff_infos check_output raw branch = Ok (infos, display) ->
  (forallb numbered (lines_listed contributer infos) = true ->
   exists output, contributer_output highlight contributer infos = Ok output)
  /\ (forallb numbered (lines_listed contributer infos) = false ->
      contributer_output highlight contributer infos = Raise ValueError).
Proof.
  intros Hc. unfold contributer_output.
  match goal with |- context [for_each ?b _ _] => set (body := b) end.
  assert (G : forall todo acc,
             (forall info, In info todo -> In info infos) ->
             (forallb numbered (lines_listed contributer todo) = true ->
              exists output, for_each body todo acc = Ok output)
             /\ (forallb numbered (lines_listed contributer todo) = false ->
                 for_each body todo acc = Raise ValueError)).
  { induction todo as [|info todo IH]; intros acc Hsub.
    - split; [intros _; exists acc; reflexivity | discriminate].
    - assert (Hin : In info infos) by (apply Hsub; left; reflexivity).
      assert (Hsub' : forall i, In i todo -> In i infos) by auto using in_cons.
      unfold lines_listed. cbn [flat_map]. fold (lines_listed contributer todo).
      rewrite forallb_app, for_each_cons. unfold body at 1 3. unfold lines_of.
      destruct (Dict.get contributer (reviewers info)) as [[|l lines]|].
      + cbn [forallb andb bind]. apply IH. exact Hsub'.
      + destruct (collected_ids _ _ _ _ Hc Hin) as ((h & ->) & (f & ->)).
        cbn [getitem bind].
        destruct (forallb numbered (l :: lines)) eqn:Hn; cbn [andb].
        * destruct (@contributer_loop highlight (l :: lines)
                      (acc ++ [section_header h f])%list None
                      (numbered_all _ Hn)) as (last & ->).
          cbn [bind fst]. apply IH. exact Hsub'.
        * rewrite contributer_lines_fail by exact Hn. cbn [bind].
          split; [discriminate | reflexivity].
      + cbn [forallb andb bind]. apply IH. exact Hsub'. }
  apply G. auto.
Qed.

Lemma X24_contributer_mode_and_bad_numbers_witness :
  exists output, contributer_output (fun code => code) "Jane Doe" two_hunk_infos = Ok output.
Proof.
  apply (@X24_contributer_mode_and_bad_numbers git_two_hunks (fun code => code)
           [raw_typechange; raw_modified] "master" two_hunk_infos
           [(LTBLUE, raw_typechange); (YELLOW, raw_modified)] "Jane Doe").
  - vm_compute. reflexivity.
  - reflexivity.
Defined.

(** ** Gaps, whatever the order of the lines *)

Section Upward.

Local Open Scope Z_scope.

Lemma appended_upward rows : forall p text,
  1 <= p -> Forall (fun row : Z * string => 1 <= fst row) rows ->
  (text :: appended (Some p) rows = gapped_upward ((p, text) :: rows))%list.
Proof.
  induction rows as [|[m t'] rows IH]; intros p text Hp Hrows; [reflexivity|].
  inversion Hrows as [|? ? Hm Hrest]; subst. cbn [fst] in Hm.
  change (gapped_upward ((p, text) :: (m, t') :: rows))
    with (text :: ((if p + 1 <? m then GAP else [])
                   ++ gapped_upward ((m, t') :: rows)))%list.
  rewrite <- (IH m t' Hm Hrest). cbn [appended]. unfold gap_after.
  replace (p =? 0) with false by (symmetry; apply Z.eqb_neq; lia). reflexivity.
Qed.

Lemma appended_none_upward rows :
  Forall (fun row : Z * string => 1 <= fst row) rows ->
  appended None rows = gapped_upward rows.
Proof.
  destruct rows as [|[n text] rows]; intros H; [reflexivity|].
  inversion H; subst. cbn [appended gap_after app].
  apply appended_upward; assumption.
Qed.

End Upward.

(** X25.  For the records the pipeline collects, when the lines of the
    contributor have numbers from 1 on, in whatever order, contributor mode
    lists them in the order stored and puts the gap marker exactly before a
    line whose number exceeds that of the line before it by more than 1:
    the lines are not sorted, and no marker is put where the numbers go
    down. *)
Theorem X25_gaps_only_where_numbers_jump_up
  (check_output : list string -> result string) (highlight : string -> string)
  (raw : list string) (branch : string) (infos : list diff_info)
  (display : list (color * string)) (contributer : string) :
  collect_diff_infos check_output raw branch = Ok (infos, display) ->
  (forall info lines,
      In info infos -> Dict.get contributer (reviewers info) = Some lines ->
      Forall (fun l => exists n, PyInt.int (line_num l) = Ok n /\ (1 <= n)%Z) lines) ->
  contributer_output highlight contributer infos
  = Ok (flat_map (listing_upward highlight contributer) infos).
Proof.
  intros Hc Hlines. unfold contributer_output.
  match goal with |- for_each ?b _ _ = _ => set (body := b) end.
  assert (G : forall todo output,
             (forall info, In info todo -> In info infos) ->
             for_each body todo output
             = Ok (output ++ flat_map (listing_upward highlight contributer) todo)%list).
  { induction todo as [|info todo IH]; intros output Hsub.
    - cbn. rewrite app_nil_r. reflexivity.
    - assert (Hin : In info infos) by (apply Hsub; left; reflexivity).
      assert (Hsub' : forall i, In i todo -> In i infos) by auto using in_cons.
      rewrite for_each_cons. cbn [flat_map]. unfold listing_upward at 1.
      unfold body at 1. cbv beta.
      destruct (Dict.get contributer (reviewers info)) as [[|l lines]|] eqn:G.
      + cbn [bind app]. apply IH; exact Hsub'.
      + destruct (collected_ids _ _ _ _ Hc Hin) as ((h & ->) & (f & ->)).
        cbn [getitem bind].
        pose proof (Hlines info (l :: lines) Hin G) as Hnum.
        destruct (@contributer_loop highlight (l :: lines)
                    (output ++ [section_header h f])%list None) as (last & ->).
        { eapply Forall_impl; [|exact Hnum]. intros x (n & Hn & _). eauto. }
        cbn [bind fst]. rewrite IH by exact Hsub'.
        rewrite appended_none_upward.
        * rewrite <- !app_assoc. reflexivity.
        * rewrite Forall_map. eapply Forall_impl; [|exact Hnum].
          intros x (n & Hn & Hpos). cbn [fst]. unfold number_of. rewrite Hn. exact Hpos.
      + cbn [bind app]. apply IH; exact Hsub'. }
  rewrite G by auto. reflexivity.
Qed.

Lemma X25_gaps_only_where_numbers_jump_up_witness :
  contributer_output (fun code => code) "Jane Doe" out_of_order_infos
  = Ok ([section_header "bcd1234" "a.py";
         ("   16|" ++ TAB ++ "    pass")%string;
         ("   10|" ++ TAB ++ "def f():")%string]
        ++ GAP
        ++ [("   15|" ++ TAB ++ "def g():")%string; (LF ++ LF)%string])%list.
Proof.
  refine (eq_trans
            (@X25_gaps_only_where_numbers_jump_up git_out_of_order (fun code => code)
               [raw_modified] "master" out_of_order_infos
               [(YELLOW, raw_modified)] "Jane Doe" _ _) _).
  - vm_compute. reflexivity.
  - intros info lines [<-|[]] Hget; vm_compute in Hget; inversion Hget; subst.
    repeat constructor;
      match goal with
      | |- exists n, PyInt.int ?s = Ok n /\ _ =>
          let v := eval vm_compute in (PyInt.int s) in
          match v with Ok ?n => exists n; split; [vm_compute; reflexivity | lia] end
      end.
  - vm_compute. reflexivity.
Defined.

(** ** What the author is read from *)

Module ParenFacts.

Import Py PyFacts LineFacts.

Lemma app_empty s : (s ++ "")%string = s.
Proof. induction s; cbn; congruence. Qed.

(** The first piece of a split and what follows it. *)
Lemma split_decompose c s :
  exists u rest,
    split (String c "") s = u :: rest
    /\ occurs c u = false
    /\ s = (u ++ match rest with
                 | [] => ""
                 | _ :: _ => String c (join (String c "") rest)
                 end)%string.
Proof.
  pose proof (join_split c s) as Hj. pose proof (split_pieces c s) as Hp.
  destruct (split_cons c s) as (u & rest & E). rewrite E in Hj, Hp.
  exists u, rest. split; [exact E|]. inversion Hp as [|? ? Hu _].
  split; [exact Hu|]. clear E Hp Hu.
  destruct rest as [|y ys].
  - cbn [join] in Hj. subst u. symmetry. apply app_empty.
  - rewrite join_cons in Hj. symmetry. exact Hj.
Qed.

End ParenFacts.

(** X26.  [get_blame_reviewer] raises [IndexError] on a line without ["("].
    On any other line it reads the author from the text that follows the
    first ["("] up to the next parenthesis of either kind, or to the end of
    the line, and the author it returns has no white space at its ends. *)
Theorem X26_get_blame_reviewer_reads (ln : string) :
  (Py.occurs "(" ln = false -> get_blame_reviewer ln = Raise IndexError)
  /\ (forall r,
        get_blame_reviewer ln = Ok r ->
        Py.strip r = r
        /\ exists before inside rest,
             ln = before ++ "(" ++ inside ++ rest
             /\ Py.occurs "(" before = false
             /\ Py.occurs "(" inside = false /\ Py.occurs ")" inside = false
             /\ (rest = "" \/ exists tl, rest = "(" ++ tl \/ rest = ")" ++ tl)
             /\ r = Py.strip (Py.join " " (reviewer_name_parts (Py.split " " inside)))).
Proof.
  unfold get_blame_reviewer.
  destruct (ParenFacts.split_decompose "(" ln) as (before & pieces & E & Hb & Hln).
  rewrite E. split.
  - intros H. rewrite (PyFacts.split_absent _ _ H) in E. inversion E; subst.
    reflexivity.
  - intros r H. destruct pieces as [|after_open more]; [discriminate|].
    cbn [Py.item nth_error bind] in H.
    destruct (ParenFacts.split_decompose ")" after_open) as (inside & closed & E2 & Hi & Ha).
    rewrite E2 in H. cbn [Py.item nth_error bind] in H. inversion H; subst r. clear H.
    split; [apply LineFacts.strip_idem|].
    assert (Hopen : Py.occurs "(" after_open = false).
    { pose proof (LineFacts.split_pieces "(" ln) as Hp. rewrite E in Hp.
      inversion Hp as [|? ? _ Hp']; subst. inversion Hp'; subst. assumption. }
    exists before, inside,
      ((match closed with
        | [] => ""
        | _ :: _ => String ")" (Py.join ")" closed)
        end)
       ++ match more with
          | [] => ""
          | _ :: _ => String "(" (Py.join "(" more)
          end)%string.
    split.
    { rewrite Hln at 1. clear Hln E E2 Hopen.
      set (tl := match closed with
                 | [] => ""
                 | _ :: _ => String ")" (Py.join ")" closed)
                 end) in *.
      destruct more as [|m ms].
      - cbn [Py.join]. rewrite Ha, ParenFacts.app_empty. PyFacts.str_eq.
      - rewrite PyFacts.join_cons, Ha. PyFacts.str_eq. }
    split; [exact Hb|]. split.
    { rewrite Ha, PyFacts.occurs_app in Hopen. apply orb_false_elim in Hopen. tauto. }
    split; [exact Hi|]. split; [|reflexivity].
    destruct closed as [|c cs]; cbn [append].
    + destruct more as [|m ms]; [left; reflexivity|].
      right. exists (Py.join "(" (m :: ms)). left. reflexivity.
    + right. eexists. right. reflexivity.
Qed.

(** ** The rows of the ranking as they are printed *)

Section Printed.

Local Open Scope Z_scope.

Lemma format_hundredths_upto :
  forallb
    (fun n =>
       String.eqb (Decimal.format_G (Decimal.Dec (Z.of_nat n) (-2)))
         (two_decimals (Z.of_nat n)))
    (seq 0 (Z.to_nat 10001))
  = true.
Proof. vm_compute. reflexivity. Qed.

(** A percentage is printed in fixed point, never with an exponent. *)
Lemma format_hundredths c :
  0 <= c <= 10000 -> Decimal.format_G (Decimal.Dec c (-2)) = two_decimals c.
Proof.
  intros Hc. pose proof format_hundredths_upto as H. rewrite forallb_forall in H.
  specialize (H (Z.to_nat c)). rewrite Z2Nat.id in H by lia.
  apply String.eqb_eq. apply H. apply in_seq. lia.
Qed.

(** The percentages of the records the pipeline collects. *)
Lemma collected_shares (check_output : list string -> result string) raw branch
  infos display u ranking :
  collect_diff_infos check_output raw branch = Ok (infos, display) ->
  total_reviewers_for u infos = Ok ranking ->
  Forall (fun row => Decimal.expo (r_percent row) = -2
                     /\ 0 <= Decimal.coef (r_percent row) <= 10000) ranking.
Proof.
  intros Hc Hr.
  destruct (ranking_properties _ _ Hr) as (Hnames & _ & Hlines & _ & Hpct).
  pose proof (collected_attributed _ _ _ Hc) as Hattr.
  set (t := sum_lines (map row_of ranking)) in *.
  assert (Hpos : Forall (fun row => 1 <= r_lines row) ranking).
  { apply Forall_forall. intros row Hin. rewrite (Hlines row Hin).
    apply lines_in_pos; [exact Hattr|].
    apply (Hnames (r_name row)). apply in_map. exact Hin. }
  assert (Hb : 0 <= t /\ Forall (fun row => snd row <= t) (map row_of ranking)).
  { apply sum_lines_bounds. rewrite Forall_map.
    eapply Forall_impl; [|exact Hpos]. cbn. intros; lia. }
  destruct Hb as (Ht0 & Hle). rewrite Forall_map in Hle.
  apply Forall_forall. intros row Hin. rewrite Forall_forall in Hpos, Hle.
  specialize (Hpos row Hin). specialize (Hle row Hin). cbn [row_of snd] in Hle.
  destruct (@percent_share (r_lines row) t) as (p & Hp & He & Hrange & _); [lia | lia |].
  rewrite (Hpct row Hin) in Hp. inversion Hp; subst p. auto.
Qed.

End Printed.

(** X27.  For the records the pipeline collects, once [git config] has
    answered, [print_suggested_reviewers] hands to [shl.stdout] one text
    for each ranked author, in the order of the ranking, and then nothing:
    the name right-aligned in 30 columns, the percentage in fixed point
    with two decimal places, never with an exponent, right-aligned in 5
    columns, and the number of lines. *)
Theorem X27_rows_as_printed (check_output : list string -> result string)
  (raw : list string) (branch : string) (infos : list diff_info)
  (display : list (color * string)) (current_user : string) :
  collect_diff_infos check_output raw branch = Ok (infos, display) ->
  get_git_user check_output = Ok current_user ->
  exists ranking,
    get_total_reviewers check_output infos = Ok ranking
    /\ print_suggested_reviewers check_output infos
       = Ok (map (fun row => [printed_row row]) ranking ++ [[]])%list.
Proof.
  intros Hc Hu.
  destruct (@ranking_never_fails _ _ _ _ _ current_user Hc) as (ranking & Hr).
  assert (Hg : get_total_reviewers check_output infos = Ok ranking)
    by (unfold get_total_reviewers; rewrite Hu; exact Hr).
  exists ranking. split; [exact Hg|].
  unfold print_suggested_reviewers. rewrite Hg. cbn [bind]. do 2 f_equal.
  apply map_ext_in. intros row Hin.
  pose proof (@collected_shares _ _ _ _ _ _ _ Hc Hr) as Hs.
  rewrite Forall_forall in Hs.
  destruct (Hs row Hin) as (He & Hrange).
  unfold reviewer_row, printed_row. rewrite <- (format_hundredths Hrange), <- He.
  destruct (r_percent row). reflexivity.
Qed.

Lemma X27_rows_as_printed_witness :
  exists ranking,
    get_total_reviewers git_thirds thirds_infos = Ok ranking
    /\ print_suggested_reviewers git_thirds thirds_infos
       = Ok (map (fun row => [printed_row row]) ranking ++ [[]])%list.
Proof.
  apply (@X27_rows_as_printed git_thirds [raw_modified] "master" thirds_infos
           [(YELLOW, raw_modified)] "me"); vm_compute; reflexivity.
Defined.

(** ** Lines of a diff that hold [@@] without being hunk headers *)

Module HeaderFacts.

Import Py PyFacts.

Lemma contains_app sub u x : prefix sub x = true -> contains sub (u ++ x) = true.
Proof.
  intros H. induction u as [|c u IH]; cbn [append].
  - apply contains_prefix. exact H.
  - cbn [contains]. rewrite IH. apply orb_true_r.
Qed.

(** A text without the first character of the separator is not cut. *)
Lemma split_absent_long c0 sep' u :
  occurs c0 u = false -> split (String c0 sep') u = [u].
Proof.
  intros H. rewrite <- (ParenFacts.app_empty u) at 1.
  rewrite split_app_absent by exact H. cbn. rewrite ParenFacts.app_empty. reflexivity.
Qed.

(** The pieces around the first [@@] of a line. *)
Lemma split_at_first before x :
  occurs "@" before = false ->
  split "@@" (before ++ "@@" ++ x) = before :: split "@@" x.
Proof.
  intros H. rewrite split_app_absent by exact H.
  change ("@@" ++ x)%string with (String "@" (String "@" x)).
  rewrite split_two. cbn [hd tl]. rewrite ParenFacts.app_empty. reflexivity.
Qed.

End HeaderFacts.

(** X28.  Chunk extraction does not check that a line of the diff is a
    hunk header.  Any line whose first [@@] is followed by a blank and a
    word [?a,b], whatever stands before the [@@] and whatever the first
    character of the word, adds the chunk [a,b]; and a line whose first
    [@@] is followed by no blank and no further [@], as a changed line of
    code may be, raises [IndexError]. *)
Theorem X28_lines_taken_for_headers (cs : list chunk) (before : string)
  (sign : ascii) (a b rest after : string) :
  (Py.occurs "@" before = false ->
   sign <> " "%char -> sign <> "@"%char ->
   Forall (fun c => Py.occurs c a = false /\ Py.occurs c b = false)
     ["@"; " "; ","]%char ->
   code_chunk cs (before ++ "@@ " ++ String sign (a ++ "," ++ b) ++ " " ++ rest)
   = Ok (cs ++ [Chunk a b])%list)
  /\ (Py.occurs "@" before = false -> Py.occurs "@" after = false ->
      Py.occurs " " after = false ->
      code_chunk cs (before ++ "@@" ++ after) = Raise IndexError).
Proof.
  split.
  - intros Hbefore Hsp Hat Hab.
    inversion Hab as [|? ? [Ha1 Hb1] Hab1]; subst.
    inversion Hab1 as [|? ? [Ha2 Hb2] Hab2]; subst.
    inversion Hab2 as [|? ? [Ha3 Hb3] _]; subst.
    apply Ascii.eqb_neq in Hsp, Hat.
    unfold code_chunk.
    replace (before ++ "@@ " ++ String sign (a ++ "," ++ b) ++ " " ++ rest)
      with (before ++ "@@" ++ (String " " (String sign (a ++ "," ++ b)) ++ " ") ++ rest)
      by PyFacts.str_eq.
    rewrite HeaderFacts.contains_app by reflexivity. cbn [negb].
    rewrite HeaderFacts.split_at_first by exact Hbefore.
    rewrite PyFacts.split_app_absent.
    2:{ PyFacts.occ_norm. rewrite Hat, Ha1, Hb1. reflexivity. }
    set (cur := hd "" (Py.split "@@" rest)). cbn [Py.item nth_error bind].
    replace ((String " " (String sign (a ++ "," ++ b)) ++ " ") ++ cur)
      with (String " " (String sign (a ++ "," ++ b) ++ String " " cur))
      by PyFacts.str_eq.
    rewrite PyFacts.split_head, PyFacts.split_app.
    2:{ PyFacts.occ_norm. rewrite Hsp, Ha2, Hb2. reflexivity. }
    cbn [Py.item nth_error bind Py.tail].
    replace (a ++ "," ++ b) with (a ++ String "," b) by reflexivity.
    rewrite PyFacts.split_app by exact Ha3.
    rewrite PyFacts.split_absent by exact Hb3. reflexivity.
  - intros Hbefore Hafter Hblank. unfold code_chunk.
    rewrite HeaderFacts.contains_app by apply PyFacts.prefix_two. cbn [negb].
    rewrite HeaderFacts.split_at_first by exact Hbefore.
    rewrite HeaderFacts.split_absent_long by exact Hafter.
    cbn [Py.item nth_error bind].
    rewrite PyFacts.split_absent by exact Hblank. reflexivity.
Qed.

(** ** The order of the files *)

Module OrderFacts.

Import DictFacts TotalFacts.

Local Open Scope Z_scope.

Lemma lines_in_perm a (rs rs' : Dict.t (list blame_line)) :
  Permutation rs rs' -> lines_in a rs = lines_in a rs'.
Proof.
  induction 1 as [|[k ls] l l' _ IH|[k ls] [k' ls'] l|l l' l'' _ IH1 _ IH2];
    cbn [lines_in]; lia.
Qed.

Lemma included_in_perm u (rs rs' : Dict.t (list blame_line)) :
  Permutation rs rs' -> included_in u rs = included_in u rs'.
Proof.
  induction 1 as [|[k ls] l l' _ IH|[k ls] [k' ls'] l|l l' l'' _ IH1 _ IH2];
    cbn [included_in]; lia.
Qed.

Lemma mem_keys (V : Type) a (d : Dict.t V) :
  Dict.mem a d = true <-> In a (Dict.keys d).
Proof.
  unfold Dict.mem. split.
  - destruct (Dict.get a d) as [v|] eqn:G; [|discriminate]. intros _.
    apply get_in in G. change a with (fst (a, v)). apply in_map. exact G.
  - intros H. apply in_map_iff in H. destruct H as ([k v] & Hk & Hin).
    cbn [fst] in Hk. subst k. destruct (in_get _ _ _ Hin) as (v' & ->). reflexivity.
Qed.

Lemma mem_perm (V : Type) a (d d' : Dict.t V) :
  Permutation d d' -> Dict.mem a d = Dict.mem a d'.
Proof.
  intros H. apply eq_true_iff_eq. rewrite !mem_keys.
  split; apply Permutation_in; unfold Dict.keys;
    [|apply Permutation_sym]; apply Permutation_map; exact H.
Qed.

End OrderFacts.

(** X29.  The order of the records matters to the ranking only where
    authors tie: two runs over the same records in different orders rank
    the same authors with the same counts and the same percentages. *)
Theorem X29_ranking_up_to_the_order_of_the_files (current_user : string)
  (infos infos' : list diff_info) (ranking ranking' : list ranked) :
  Permutation infos infos' ->
  total_reviewers_for current_user infos = Ok ranking ->
  total_reviewers_for current_user infos' = Ok ranking' ->
  Permutation ranking ranking'.
Proof.
  intros Hperm H H'.
  assert (Hflat : Permutation (flat_map reviewers infos) (flat_map reviewers infos'))
    by (apply Permutation_flat_map; exact Hperm).
  assert (Hlines : forall a, lines_blamed a infos = lines_blamed a infos')
    by (intros a; apply OrderFacts.lines_in_perm; exact Hflat).
  assert (Hblamed : forall a, blamed a infos = blamed a infos')
    by (intros a; apply OrderFacts.mem_perm; exact Hflat).
  assert (Htotal : sum_lines (map row_of ranking) = sum_lines (map row_of ranking')).
  { destruct (RankFacts.total_reviewers_for_rows _ _ H) as [-> _].
    destruct (RankFacts.total_reviewers_for_rows _ _ H') as [-> _].
    rewrite !(TieFacts.sum_perm (TotalFacts.sorted_desc_perm _)), !TieFacts.sum_totals.
    f_equal. apply OrderFacts.included_in_perm. exact Hflat. }
  destruct (ranking_properties _ _ H) as (Hn & Hnd & Hl & _ & Hp).
  destruct (ranking_properties _ _ H') as (Hn' & Hnd' & Hl' & _ & Hp').
  assert (Hsub : forall (r1 r2 : list ranked),
             (forall a, In a (map r_name r1) -> In a (map r_name r2)) ->
             (forall row row', In row r1 -> In row' r2 -> r_name row = r_name row' ->
                               row = row') ->
             forall row, In row r1 -> In row r2).
  { intros r1 r2 Hnames Hsame row Hin.
    assert (Hname : In (r_name row) (map r_name r2)) by (apply Hnames, in_map, Hin).
    apply in_map_iff in Hname. destruct Hname as (row' & Heq & Hin').
    rewrite (Hsame row row' Hin Hin' (eq_sym Heq)). exact Hin'. }
  assert (Hsame : forall row row', In row ranking -> In row' ranking' ->
                                   r_name row = r_name row' -> row = row').
  { intros row row' Hin Hin' Hname.
    pose proof (Hl row Hin) as E1. pose proof (Hl' row' Hin') as E2.
    pose proof (Hp row Hin) as P1. pose proof (Hp' row' Hin') as P2.
    rewrite <- Htotal in P2. rewrite <- Hname, <- Hlines, <- E1 in E2.
    rewrite E2 in P2. rewrite P1 in P2. inversion P2 as [P].
    destruct row, row'. cbn in *. congruence. }
  apply NoDup_Permutation.
  - apply (NoDup_map_inv r_name). exact Hnd.
  - apply (NoDup_map_inv r_name). exact Hnd'.
  - intros row. split.
    + apply Hsub; [|exact Hsame].
      intros a Ha. apply Hn'. apply Hn in Ha. rewrite <- Hblamed. exact Ha.
    + apply Hsub.
      * intros a Ha. apply Hn. apply Hn' in Ha. rewrite Hblamed. exact Ha.
      * intros r' r Hin' Hin Hname. symmetry. apply Hsame; auto.
Qed.

Lemma X29_ranking_up_to_the_order_of_the_files_witness :
  Permutation
    [Ranked "bob" 5 (Decimal.Dec 5000 (-2)); Ranked "alice" 5 (Decimal.Dec 5000 (-2))]
    [Ranked "alice" 5 (Decimal.Dec 5000 (-2)); Ranked "bob" 5 (Decimal.Dec 5000 (-2))].
Proof.
  apply (@X29_ranking_up_to_the_order_of_the_files "me"
           [modified_with [("bob", some_lines 5)];
            modified_with [("alice", some_lines 5)]]
           [modified_with [("alice", some_lines 5)];
            modified_with [("bob", some_lines 5)]]).
  - apply perm_swap.
  - vm_compute. reflexivity.
  - vm_compute. reflexivity.
Defined.

(* ================================================================== *)
(** * Examples

    The embedding run on small inputs, as the interpreter answers them. *)

Example split_hunk_header :
  Py.split "@@" "@@ -1,3 +5,2 @@ def f():" = [""; " -1,3 +5,2 "; " def f():"].
Proof. reflexivity. Qed.

Example split_scans_left_to_right : Py.split "@@" "@@@" = [""; "@"].
Proof. reflexivity. Qed.

Example split_keeps_empty_pieces :
  Py.split " " " -1,3 +5,2 " = [""; "-1,3"; "+5,2"; ""] /\ Py.split " " "" = [""].
Proof. split; reflexivity. Qed.

Example strip_both_ends : Py.strip "  Jane Doe   " = "Jane Doe".
Proof. reflexivity. Qed.

Example rpartition_last_blank :
  Py.rpartition_tail " " "6f3e9a1 (Jane Doe 2023-5-1 42" = "42"
  /\ Py.rpartition_tail " " "42" = "42".
Proof. split; reflexivity. Qed.

Example dates :
  map is_date ["2023-5-1"; "2023-05-01"; "2023-005-1"; "23-5-1"; "2023-5-1x";
               "2023-5-1" ++ LF; "Doe"]
  = [true; true; false; false; false; true; false].
Proof. reflexivity. Qed.

Example ints :
  map PyInt.int ["42"; " 1_000 "; "+7"; "-7"; "007"; "4_"; "_4"; ""; "4 2"; "+ 4"; "x"]
  = [Ok 42; Ok 1000; Ok 7; Ok (-7); Ok 7; Raise ValueError; Raise ValueError;
     Raise ValueError; Raise ValueError; Raise ValueError; Raise ValueError]%Z.
Proof. reflexivity. Qed.

(** [int] skips less white space than [strip] removes. *)
Example int_and_the_unit_separator :
  PyInt.int (String (Py.chr 31) "5") = Raise ValueError
  /\ Py.strip (String (Py.chr 31) "5") = "5"
  /\ PyInt.int (String (Py.chr 160) "5") = Ok 5%Z.
Proof. repeat split; reflexivity. Qed.

Example decimal_two_thirds :
  Decimal.div (Decimal.of_int 2) (Decimal.of_int 3)
  = Ok (Decimal.Dec 6666666666666666666666666667 (-28)).
Proof. vm_compute. reflexivity. Qed.

Example decimal_exact_quotient :
  Decimal.div (Decimal.of_int 1) (Decimal.of_int 8) = Ok (Decimal.Dec 125 (-3))
  /\ Decimal.div (Decimal.of_int 5) (Decimal.of_int 5) = Ok (Decimal.Dec 1 0).
Proof. split; vm_compute; reflexivity. Qed.

Example decimal_division_by_zero :
  Decimal.div (Decimal.of_int 0) (Decimal.of_int 0) = Raise InvalidOperation
  /\ Decimal.div (Decimal.of_int 1) (Decimal.of_int 0) = Raise DivisionByZero.
Proof. split; reflexivity. Qed.

Example percent_rounds_half_to_even :
  percent 1 800 = Ok (Decimal.Dec 12 (-2)) /\ percent 3 800 = Ok (Decimal.Dec 38 (-2))
  /\ percent 5 5 = Ok (Decimal.Dec 10000 (-2)).
Proof. repeat split; vm_compute; reflexivity. Qed.

Example sort_is_stable :
  sorted_desc [("a", 1); ("b", 2); ("c", 1); ("d", 2)]%Z
  = [("b", 2); ("d", 2); ("a", 1); ("c", 1)]%Z.
Proof. reflexivity. Qed.

Example raw_line_of_a_rename :
  (info <- read_diff_raw_line
             (":100644 100644 bcd1234 0123456 R086" ++ TAB ++ "old.py" ++ TAB ++ "new.py") ;;
   Ok (type info, file info, to_file info))
  = Ok (Some "R", Some "old.py", Some "new.py").
Proof. reflexivity. Qed.

Example raw_line_blank :
  (info <- read_diff_raw_line "" ;; Ok (type info, parts info)) = Ok (None, [""]).
Proof. reflexivity. Qed.

Example raw_line_malformed :
  read_diff_raw_line (":100644 100644 bcd1234 M" ++ TAB ++ "a.py") = Raise ValueError
  /\ read_diff_raw_line ":100644 100644 bcd1234 0123456 M" = Raise IndexError.
Proof. split; reflexivity. Qed.

(** Only the [-] side of a hunk header has to carry a count. *)
Example hunk_without_plus_count :
  code_chunk [] "@@ -1,2 +5 @@" = Ok [Chunk "1" "2"]
  /\ code_chunk [] "@@ -1 +5,2 @@" = Raise ValueError
  /\ code_chunk [Chunk "1" "2"] "-old" = Ok [Chunk "1" "2"].
Proof. repeat split; reflexivity. Qed.

(** A blame line as [git] pads it. *)
Example blame_line_padded :
  get_blame_reviewer "^6f3e9a1 (Jane Doe   2023-05-01 10:00:00 +0000  42) some code"
  = Ok "Jane Doe"
  /\ get_blame_code_line "^6f3e9a1 (Jane Doe   2023-05-01 10:00:00 +0000  42) some code"
     = Ok (BlameLine "42" "some code").
Proof. split; vm_compute; reflexivity. Qed.

Example suggested_reviewers_of_two_files :
  get_reviewers git_two_hunks (fun code => code) None "master"
  = Ok ([(LTBLUE, raw_typechange); (YELLOW, raw_modified)],
        Suggested [Ranked "Jane Doe" 4 (Decimal.Dec 8000 (-2));
                   Ranked "Bob" 1 (Decimal.Dec 2000 (-2))]).
Proof. vm_compute. reflexivity. Qed.

(** A reviewer without lines is what no run of the pipeline builds
    ([collected_attributed]); on such a record alone the percentage
    divides zero by zero. *)
Example content_line_taken_for_a_header :
  code_chunk [] "-a @@ b1,2 c" = Ok [Chunk "1" "2"]
  /\ code_chunk [] "+    print('@@')" = Raise IndexError.
Proof. split; reflexivity. Qed.

Example percentages_as_printed :
  map Decimal.format_G
    [Decimal.Dec 0 (-2); Decimal.Dec 5 (-2); Decimal.Dec 3333 (-2);
     Decimal.Dec 10000 (-2); Decimal.Dec 1 (-7); Decimal.Dec 1 2]
  = ["0.00"; "0.05"; "33.33"; "100.00"; "1E-7"; "1E+2"].
Proof. vm_compute. reflexivity. Qed.

Example reviewer_without_lines :
  total_reviewers_for "me" [modified_with [("Bob", [])]] = Raise InvalidOperation.
Proof. reflexivity. Qed.
